(** * The HTTP gateway handler of go-ipfs ([core/corehttp/gateway_handler.go])

    A shallow embedding of [gatewayHandler]: [ServeHTTP], [getOrHeadHandler],
    [postHandler], [deleteHandler], [addUserHeaders], [webError],
    [webErrorWithCode] and [internalWebError], together with the pieces of
    the Go standard library they call ([strings], [path], [net/http]).

    The handlers are written in a small state monad over a [World] that
    holds the response writer, the block store of the node and the log of
    the calls made to the collaborators of the handler (resolver, DAG
    service, importer, DAG editor, unixfs reader).  A Go [return] in the
    middle of a handler is the [Return] outcome of the monad, a run-time
    panic (index out of range) is [Panic]. *)

From Stdlib Require Import ZArith Ascii String.
From stdpp Require Import base option list strings gmap.

Open Scope string_scope.
Open Scope Z_scope.

(** ** Go strings: the functions of package [strings] used by the handler *)

Module strings.

(** [strings.Split(s, sep)] for a one-byte separator: always at least
    one part, one more than the number of separators in [s]. *)
Fixpoint Split (s : string) (sep : ascii) : list string :=
  match s with
  | EmptyString => [EmptyString]
  | String c s' =>
      if Ascii.eqb c sep then EmptyString :: Split s' sep
      else match Split s' sep with
           | h :: t => String c h :: t
           | [] => [String c EmptyString]
           end
  end.

(** [strings.Join(a, sep)] *)
Fixpoint Join (a : list string) (sep : string) : string :=
  match a with
  | [] => ""
  | [x] => x
  | x :: rest => x ++ sep ++ Join rest sep
  end.

(** [strings.SplitN(s, sep, n)] for [n > 0]: at most [n] parts, the last
    one being the unsplit remainder. *)
Definition SplitN (s : string) (sep : ascii) (n : nat) : list string :=
  let parts := Split s sep in
  match n with
  | O => []
  | S n' =>
      if (length parts <=? n)%nat then parts
      else take n' parts ++ [Join (drop n' parts) (String sep EmptyString)]
  end.

Definition HasPrefix (s pre : string) : bool := String.prefix pre s.

Definition HasSuffix (s suf : string) : bool :=
  (String.length suf <=? String.length s)%nat
  && bool_decide
       (substring (String.length s - String.length suf) (String.length suf) s = suf).

End strings.

(** ** Go [path] (imported as [gopath]) *)

Module gopath.

Definition slash : ascii := "/"%char.

(** strip the trailing slashes *)
Fixpoint trimSlashes (p : string) : string :=
  match p with
  | EmptyString => EmptyString
  | String c p' =>
      match trimSlashes p' with
      | EmptyString => if Ascii.eqb c slash then EmptyString else String c EmptyString
      | t => String c t
      end
  end.

(** the part of [p] after its last slash ([p] itself when it has none) *)
Definition afterLastSlash (p : string) : string :=
  default EmptyString (last (strings.Split p slash)).

(** [path.Base] *)
Definition Base (p : string) : string :=
  if bool_decide (p = "") then "."
  else
    let p1 := afterLastSlash (trimSlashes p) in
    if bool_decide (p1 = "") then "/" else p1.

(** [path.Split]: directory (with its final slash) and file *)
Definition Split (p : string) : string * string :=
  let file := afterLastSlash p in
  (substring 0 (String.length p - String.length file) p, file).

(** one step of [path.Clean] over the elements of the path, [acc] being
    the cleaned elements so far, last one first *)
Definition cleanStep (rooted : bool) (acc : list string) (e : string) : list string :=
  if bool_decide (e = "") || bool_decide (e = ".") then acc
  else if bool_decide (e = "..") then
    match acc with
    | top :: rest => if bool_decide (top = "..") then e :: acc else rest
    | [] => if rooted then [] else [e]
    end
  else e :: acc.

(** [path.Clean] *)
Definition Clean (p : string) : string :=
  let rooted := strings.HasPrefix p "/" in
  let elems := rev (fold_left (cleanStep rooted) (strings.Split p slash) []) in
  let out := ((if rooted then "/" else "") ++ strings.Join elems "/")%string in
  if bool_decide (out = "") then "." else out.

(** [path.Join]: the elements from the first non-empty one on, joined by
    slashes and cleaned; the empty string when there is none *)
Fixpoint Join (elem : list string) : string :=
  match elem with
  | [] => ""
  | e :: rest =>
      if bool_decide (e = "") then Join rest
      else Clean (strings.Join elem "/")
  end.

End gopath.

(** ** Data model *)

(** [key.Key] is a Go string type holding the binary multihash. *)
Definition Key : Type := string.

(** [dag.Link] and [dag.Node]: a node is a payload and an ordered list of
    named, sized links. *)
Record Link : Type := mkLink { Name : string; Size : Z; Hash : Key }.

Record Node : Type := mkNode { Data : string; Links : list Link }.

(** [uio.DagReader], reduced to the bytes it yields. *)
Record DagReader : Type := mkDagReader { dr_bytes : string }.

(** [time.Time], as seconds and nanoseconds since the Unix epoch. *)
Record Time : Type := mkTime { unix_sec : Z; unix_nsec : Z }.

Definition time_Unix (sec nsec : Z) : Time := mkTime sec nsec.

(** [http.Header] is [map[string][]string]. *)
Abbreviation Header := (gmap string (list string)).

Record Request : Type := mkRequest {
  Method : string;
  URL_Path : string;
  ReqHeader : Header;
  Body : string
}.

(** [GatewayConfig]: the operator's static headers, the optional block
    list (its [ShouldBlock] method) and the writable switch. *)
Record GatewayConfig : Type := mkGatewayConfig {
  Headers : Header;
  BlockList : option (string → bool);
  Writable : bool
}.

Record directoryItem : Type := mkDirectoryItem {
  di_Size : string;
  di_Name : string;
  di_Path : string
}.

Record listingTemplateData : Type := mkListingTemplateData {
  Listing : list directoryItem;
  Path : string;
  BackLink : string
}.

(** ** Errors *)

(** The error values the handler tells apart, by type assertion
    ([path.ErrNoLink]) or by identity with a package-level sentinel; any
    other error is an [errors_New] value. *)
Inductive error : Type :=
| path_ErrNoLink (name : string) (node : string)
| routing_ErrNotFound
| context_DeadlineExceeded
| uio_ErrIsDir
| ErrIPNSNotSupported
| ErrNotMeaningfulOnWritable
| errors_New (text : string).

#[global] Instance error_eq_dec : EqDecision error.
Proof. solve_decision. Defined.

Definition dquote : string := String (ascii_of_nat 34) EmptyString.

(** [err.Error()]: the texts of the two errors of this file, and for the
    errors of the other packages the texts those packages give them. *)
Definition Error (e : error) : string :=
  match e with
  | path_ErrNoLink name node =>
      "no link named " ++ dquote ++ name ++ dquote ++ " under " ++ node
  | routing_ErrNotFound => "routing: not found"
  | context_DeadlineExceeded => "context deadline exceeded"
  | uio_ErrIsDir => "this dag node is a directory"
  | ErrIPNSNotSupported => "writableGateway: /ipns/ not supported"
  | ErrNotMeaningfulOnWritable => "writableGateway: non-meaningful request"
  | errors_New text => text
  end.

(** ** HTTP status codes and path prefixes *)

Definition StatusCreated : Z := 201.
Definition StatusFound : Z := 302.
Definition StatusNotModified : Z := 304.
Definition StatusOK : Z := 200.
Definition StatusBadRequest : Z := 400.
Definition StatusForbidden : Z := 403.
Definition StatusNotFound : Z := 404.
Definition StatusMethodNotAllowed : Z := 405.
Definition StatusRequestTimeout : Z := 408.
Definition StatusInternalServerError : Z := 500.

Definition ipfsPathPrefix : string := "/ipfs/".
Definition ipnsPathPrefix : string := "/ipns/".

(** The key of the empty unixfs directory, which [postHandler] recognises
    as the last segment of a path. *)
Definition emptyDirKey : string := "QmUNLLsPACCz1vLxQVkXqqLX5R1X345qqfHbsf67hvA3Nn".

(** ** The response writer *)

(** [http.ResponseWriter]: the live header map [w.Header()], the status
    line and the headers as they went out at the first [WriteHeader], and
    the body bytes written so far. *)
Record ResponseWriter : Type := mkResponseWriter {
  rw_header : Header;
  rw_sent : option (Z * Header);
  rw_body : string
}.

Definition newResponseWriter : ResponseWriter := mkResponseWriter ∅ None "".

Module http.

Definition isLower (c : ascii) : bool :=
  (97 <=? nat_of_ascii c)%nat && (nat_of_ascii c <=? 122)%nat.
Definition isUpper (c : ascii) : bool :=
  (65 <=? nat_of_ascii c)%nat && (nat_of_ascii c <=? 90)%nat.

(** [textproto.CanonicalMIMEHeaderKey] on keys made of letters, digits
    and dashes (all the keys the handler passes are): upper case at the
    start and after a dash, lower case elsewhere. *)
Fixpoint canonical (upper : bool) (s : string) : string :=
  match s with
  | EmptyString => EmptyString
  | String c s' =>
      let c' :=
        if upper && isLower c then ascii_of_nat (nat_of_ascii c - 32)
        else if negb upper && isUpper c then ascii_of_nat (nat_of_ascii c + 32)
        else c in
      String c' (canonical (Ascii.eqb c' "-"%char) s')
  end.

Definition CanonicalHeaderKey (s : string) : string := canonical true s.

(** [h.Get(key)]: the first value under the canonical key, or [""] *)
Definition Header_Get (h : Header) (key : string) : string :=
  match h !! CanonicalHeaderKey key with
  | Some (v :: _) => v
  | _ => ""
  end.

(** [h.Set(key, value)] *)
Definition Header_Set (h : Header) (key value : string) : Header :=
  <[CanonicalHeaderKey key := [value]]> h.

(** [w.Header().Set(key, value)] *)
Definition SetHeader (key value : string) (w : ResponseWriter) : ResponseWriter :=
  mkResponseWriter (Header_Set (rw_header w) key value) (rw_sent w) (rw_body w).

(** [w.Header()[key] = values] *)
Definition AssignHeader (key : string) (values : list string) (w : ResponseWriter)
  : ResponseWriter :=
  mkResponseWriter (<[key := values]> (rw_header w)) (rw_sent w) (rw_body w).

(** [w.WriteHeader(code)]: the first call fixes the status and sends the
    headers as they are at that moment; later calls change nothing. *)
Definition WriteHeader (code : Z) (w : ResponseWriter) : ResponseWriter :=
  match rw_sent w with
  | Some _ => w
  | None => mkResponseWriter (rw_header w) (Some (code, rw_header w)) (rw_body w)
  end.

(** [w.Write(b)]: an implicit [WriteHeader(200)] when no header went out
    yet, then the bytes. *)
Definition Write (b : string) (w : ResponseWriter) : ResponseWriter :=
  let w' := WriteHeader StatusOK w in
  mkResponseWriter (rw_header w') (rw_sent w') (rw_body w' ++ b).

(** [http.Redirect(w, r, urlStr, code)]: the [Location] header, the
    status, and for a GET request a short note; [note] stands for the
    library's rendering of that note.  The library's rewriting of a
    relative [urlStr] is left out: [Location] holds the target as it is
    handed over. *)
Definition Redirect (note : string → Z → string) (r : Request)
    (urlStr : string) (code : Z) (w : ResponseWriter) : ResponseWriter :=
  let w1 := WriteHeader code (SetHeader "Location" urlStr w) in
  if bool_decide (Method r = "GET") then Write (note urlStr code) w1 else w1.

Definition newline : string := String (ascii_of_nat 10) EmptyString.

(** [http.Error(w, error, code)] *)
Definition Error (msg : string) (code : Z) (w : ResponseWriter) : ResponseWriter :=
  Write (msg ++ newline)
    (WriteHeader code (SetHeader "Content-Type" "text/plain; charset=utf-8" w)).

(** The response as the server sends it: status and headers are those of
    the first [WriteHeader]; a handler that returns without having written
    gets 200 and the headers as they are on return. *)
Definition responseStatus (w : ResponseWriter) : Z :=
  match rw_sent w with
  | Some (code, _) => code
  | None => StatusOK
  end.

Definition responseHeader (w : ResponseWriter) : Header :=
  match rw_sent w with
  | Some (_, h) => h
  | None => rw_header w
  end.

End http.

(** ** Collaborators of the handler *)

(** The calls the handler makes outside its own file, in the order it
    makes them. *)
Inductive Call : Type :=
| CallShouldBlock (p : string)
| CallResolve (p : string)
| CallDagGet (k : Key)
| CallDagAdd (nd : Node)
| CallBuildDagFromReader (body : string)
| CallNewDagReader (nd : Node)
| CallInsertNodeAtPath (root : Node) (p : string) (nd : Node)
| CallRmLink (root : Node) (p : string)
| CallServeContent (name : string) (modtime : Time) (dr : DagReader)
| CallCopy (dr : DagReader)
| CallTemplateExecute (data : listingTemplateData).

(** The calls that reach the block store: resolution, the DAG service,
    the importer, the DAG editor and the unixfs reader. *)
Definition isStoreAccess (c : Call) : bool :=
  match c with
  | CallShouldBlock _ | CallTemplateExecute _ => false
  | _ => true
  end.

Definition isImporterCall (c : Call) : bool :=
  match c with CallBuildDagFromReader _ => true | _ => false end.

(** [core.IpfsNode] as the handler uses it, over a store of type [S]: each
    operation may fail and may change the store.
    - [core_Resolve]: [core.Resolve(ctx, i.node, p)];
    - [DAG_Get], [DAG_Add]: [i.node.DAG.Get], [i.node.DAG.Add];
    - [BuildDagFromReader]: [i.newDagFromReader], the importer with the
      default splitter and the manual pinner;
    - [NewDagReader]: [uio.NewDagReader(ctx, nd, i.node.DAG)];
    - [InsertNodeAtPath], [RmLink]: a [dagutils] editor opened on a root
      node, one edit, and [GetNode()] of the editor afterwards. *)
Record IpfsNode (S : Type) : Type := mkIpfsNode {
  core_Resolve : string → S → (Node + error) * S;
  DAG_Get : Key → S → (Node + error) * S;
  DAG_Add : Node → S → (Key + error) * S;
  BuildDagFromReader : string → S → (Node + error) * S;
  NewDagReader : Node → S → (DagReader + error) * S;
  InsertNodeAtPath : Node → string → Node → S → (Node + error) * S;
  RmLink : Node → string → S → (Node + error) * S
}.
Arguments core_Resolve {S}.
Arguments DAG_Get {S}.
Arguments DAG_Add {S}.
Arguments BuildDagFromReader {S}.
Arguments NewDagReader {S}.
Arguments InsertNodeAtPath {S}.
Arguments RmLink {S}.

(** The pure functions of other packages:
    - [path_ParsePath], [Path_Segments]: [path.ParsePath] and
      [Path.Segments] ([path.Path] is a Go string type);
    - [key_B58KeyDecode], [Key_String]: [key.B58KeyDecode] and the base-58
      text of a key ([Key.String], [Key.B58String]);
    - [Node_Key]: the [Key] method of [dag.Node];
    - [FolderPBData]: the payload of a unixfs directory;
    - [humanize_Bytes]: [humanize.Bytes];
    - [ServeContent]: status and body chosen by [http.ServeContent];
    - [TemplateExecute]: bytes written by [listingTemplate.Execute] and
      its error;
    - [redirectNote]: the note [http.Redirect] writes for a GET. *)
Record Packages : Type := mkPackages {
  path_ParsePath : string → string + error;
  Path_Segments : string → list string;
  key_B58KeyDecode : string → Key;
  Key_String : Key → string;
  Node_Key : Node → Key + error;
  FolderPBData : string;
  humanize_Bytes : Z → string;
  ServeContent : Request → string → Time → DagReader → Z * string;
  TemplateExecute : listingTemplateData → string * option error;
  redirectNote : string → Z → string
}.

(** Modelled from the spec: [uio.NewEmptyDirectory] is in package
    [unixfs/io], outside this file; the spec describes its result as an
    empty-directory node, a directory payload with zero links. *)
Definition NewEmptyDirectory (pk : Packages) : Node := mkNode (FolderPBData pk) [].

(** ** The handler monad *)

Record World (S : Type) : Type := mkWorld {
  writer : ResponseWriter;
  store : S;
  clock : Time;
  calls : list Call
}.
Arguments mkWorld {S}.
Arguments writer {S}.
Arguments store {S}.
Arguments clock {S}.
Arguments calls {S}.

Inductive Flow (A : Type) : Type :=
| Next (a : A)
| Return
| Panic.
Arguments Next {A}.
Arguments Return {A}.
Arguments Panic {A}.

Definition Handler (S A : Type) : Type := World S → Flow A * World S.

#[global] Instance Handler_ret {S} : MRet (Handler S) :=
  λ A a σ, (Next a, σ).

#[global] Instance Handler_bind {S} : MBind (Handler S) :=
  λ A B f m σ,
    match m σ with
    | (Next a, σ') => f a σ'
    | (Return, σ') => (Return, σ')
    | (Panic, σ') => (Panic, σ')
    end.

Section Monad.
Context {S : Type}.

(** [return] *)
Definition return_ {A} : Handler S A := λ σ, (Return, σ).

Definition panic {A} : Handler S A := λ σ, (Panic, σ).

(** a call of a method or function: its [return] ends the call only *)
Definition invoke (m : Handler S ()) : Handler S () :=
  λ σ, match m σ with
       | (Panic, σ') => (Panic, σ')
       | (_, σ') => (Next (), σ')
       end.

Definition when (b : bool) (m : Handler S ()) : Handler S () :=
  if b then m else mret ().

(** [a[i]], which panics out of range *)
Definition index {A} (a : list A) (i : nat) : Handler S A :=
  match a !! i with
  | Some x => mret x
  | None => panic
  end.

(** an operation on the response writer *)
Definition onWriter (f : ResponseWriter → ResponseWriter) : Handler S () :=
  λ σ, (Next (), mkWorld (f (writer σ)) (store σ) (clock σ) (calls σ)).

(** a logged call that does not touch the store *)
Definition note (c : Call) : Handler S () :=
  λ σ, (Next (), mkWorld (writer σ) (store σ) (clock σ) (calls σ ++ [c])).

(** a logged call to the node *)
Definition call {R} (c : Call) (f : S → R * S) : Handler S R :=
  λ σ, let '(r, s') := f (store σ) in
       (Next r, mkWorld (writer σ) s' (clock σ) (calls σ ++ [c])).

(** [time.Now()] *)
Definition time_Now : Handler S Time := λ σ, (Next (clock σ), σ).

End Monad.

(** ** The gateway handler *)

Section Gateway.
Context {S : Type}.

(** [gatewayHandler]: the node, the configuration, and the packages the
    handler is linked with. *)
Context (node : IpfsNode S) (pk : Packages) (config : GatewayConfig).

(** [webErrorWithCode] *)
Definition webErrorWithCode (message : string) (err : error) (code : Z) : Handler S () :=
  onWriter (http.WriteHeader code) ;;
  let s := message ++ ": " ++ Error err in
  onWriter (http.Write s).

(** [webError] *)
Definition webError (message : string) (err : error) (defaultCode : Z) : Handler S () :=
  match err with
  | path_ErrNoLink _ _ => webErrorWithCode message err StatusNotFound
  | routing_ErrNotFound => webErrorWithCode message err StatusNotFound
  | context_DeadlineExceeded => webErrorWithCode message err StatusRequestTimeout
  | _ => webErrorWithCode message err defaultCode
  end.

(** [internalWebError] *)
Definition internalWebError (err : error) : Handler S () :=
  webErrorWithCode "internalWebError" err StatusInternalServerError.

(** [addUserHeaders]: every configured header is assigned into the live
    header map; the order of a Go map range does not show in the result. *)
Definition addUserHeaders : Handler S () :=
  onWriter (λ w, map_fold (λ k v w', http.AssignHeader k v w') w (Headers config)).

(** [newDagFromReader] *)
Definition newDagFromReader (body : string) : Handler S (Node + error) :=
  call (CallBuildDagFromReader body) (BuildDagFromReader node body).

(** The back link of a directory listing ([getOrHeadHandler], the block
    under "construct the correct back link"). *)
Definition backLinkFor (urlPath : string) (ipnsHostname : bool) : string :=
  let backLink := urlPath in
  let pathSplit := strings.Split backLink "/" in
  let backLink :=
    if bool_decide (length pathSplit = 3%nat) then backLink
    else if bool_decide (length pathSplit = 4%nat) && bool_decide (pathSplit !! 3%nat = Some "")
    then backLink
    else if strings.HasSuffix backLink "/" then backLink ++ "./.."
    else backLink ++ "/.." in
  if ipnsHostname then
    let backLink := "/" in
    if bool_decide (5 < length pathSplit)%nat then
      let backLinkParts := take (length pathSplit - 2 - 3) (drop 3 pathSplit) in
      backLink ++ strings.Join backLinkParts "/" ++ "/"
    else backLink
  else backLink.

(** The loop of [getOrHeadHandler] over [nd.Links]: the result is
    [foundIndex] and the listing gathered so far. *)
Fixpoint scanLinks (r : Request) (urlPath originalURLPath : string)
    (links : list Link) (dirListing : list directoryItem)
    : Handler S (bool * list directoryItem) :=
  match links with
  | [] => mret (false, dirListing)
  | link :: rest =>
      if bool_decide (Name link = "index.html") then
        lastByte ← match String.length urlPath with
                   | O => panic
                   | Datatypes.S n => match String.get n urlPath with
                            | Some c => mret c
                            | None => panic
                            end
                   end;
        when (negb (Ascii.eqb lastByte "/"%char))
          (onWriter (http.Redirect (redirectNote pk) r (originalURLPath ++ "/") StatusFound) ;;
           return_) ;;
        res ← call (CallResolve (urlPath ++ "/index.html"))
                   (core_Resolve node (urlPath ++ "/index.html"));
        nd ← match res with
             | inr err => internalWebError err ;; return_
             | inl nd => mret nd
             end;
        res ← call (CallNewDagReader nd) (NewDagReader node nd);
        dr ← match res with
             | inr err => internalWebError err ;; return_
             | inl dr => mret dr
             end;
        when (negb (bool_decide (Method r = "HEAD")))
          (note (CallCopy dr) ;; onWriter (http.Write (dr_bytes dr))) ;;
        mret (true, dirListing)
      else
        let di := mkDirectoryItem (humanize_Bytes pk (Size link)) (Name link)
                    (gopath.Join [originalURLPath; Name link]) in
        scanLinks r urlPath originalURLPath rest (dirListing ++ [di])
  end.

(** [getOrHeadHandler] *)
Definition getOrHeadHandler (r : Request) : Handler S () :=
  let urlPath := URL_Path r in
  let hdr := default [] (ReqHeader r !! "X-IPNS-Original-Path") in
  let originalURLPath := match hdr with h :: _ => h | [] => urlPath end in
  let ipnsHostname := match hdr with _ :: _ => true | [] => false end in
  match BlockList config with
  | Some ShouldBlock =>
      note (CallShouldBlock urlPath) ;;
      when (ShouldBlock urlPath)
        (onWriter (http.WriteHeader StatusForbidden) ;;
         onWriter (http.Write "403 - Forbidden") ;;
         return_)
  | None => mret ()
  end ;;
  res ← call (CallResolve urlPath) (core_Resolve node urlPath);
  nd ← match res with
       | inr err => webError "Path Resolve error" err StatusBadRequest ;; return_
       | inl nd => mret nd
       end;
  let etag := gopath.Base urlPath in
  when (bool_decide (http.Header_Get (ReqHeader r) "If-None-Match" = etag))
    (onWriter (http.WriteHeader StatusNotModified) ;; return_) ;;
  addUserHeaders ;;
  onWriter (http.SetHeader "X-IPFS-Path" urlPath) ;;
  when (negb ipnsHostname)
    (pathRoot ← index (strings.SplitN urlPath "/" 4) 2;
     onWriter (http.SetHeader "Suborigin" pathRoot)) ;;
  res ← call (CallNewDagReader nd) (NewDagReader node nd);
  match res with
  | inr err => when (negb (bool_decide (err = uio_ErrIsDir)))
                 (internalWebError err ;; return_)
  | inl _ => mret ()
  end ;;
  modtime ← time_Now;
  when (strings.HasPrefix urlPath ipfsPathPrefix)
    (onWriter (http.SetHeader "Etag" etag) ;;
     onWriter (http.SetHeader "Cache-Control" "public, max-age=29030400")) ;;
  let modtime := if strings.HasPrefix urlPath ipfsPathPrefix
                 then time_Unix 1 0 else modtime in
  match res with
  | inl dr =>
      let '(_, name) := gopath.Split urlPath in
      note (CallServeContent name modtime dr) ;;
      let '(code, body) := ServeContent pk r name modtime dr in
      onWriter (http.WriteHeader code) ;;
      onWriter (http.Write body) ;;
      return_
  | inr _ => mret ()
  end ;;
  '(foundIndex, dirListing) ← scanLinks r urlPath originalURLPath (Links nd) [];
  when (negb foundIndex)
    (when (negb (bool_decide (Method r = "HEAD")))
       (let tplData := mkListingTemplateData dirListing originalURLPath
                         (backLinkFor urlPath ipnsHostname) in
        note (CallTemplateExecute tplData) ;;
        let '(out, err) := TemplateExecute pk tplData in
        when (negb (bool_decide (out = ""))) (onWriter (http.Write out)) ;;
        match err with
        | Some err => internalWebError err ;; return_
        | None => mret ()
        end)).

(** [postHandler] *)
Definition postHandler (r : Request) : Handler S () :=
  rootPath ← match path_ParsePath pk (URL_Path r) with
             | inr err =>
                 webError "postHandler: ipfs path not valid" err StatusBadRequest ;;
                 return_
             | inl p => mret p
             end;
  let rsegs := Path_Segments pk rootPath in
  seg0 ← index rsegs 0;
  when (bool_decide (seg0 = ipnsPathPrefix))
    (webError "postHandler: updating named entries not supported"
       ErrIPNSNotSupported StatusBadRequest ;;
     return_) ;;
  lastSeg ← index rsegs (length rsegs - 1);
  newnode ← (if bool_decide (lastSeg = emptyDirKey) then mret (NewEmptyDirectory pk)
             else
               res ← newDagFromReader (Body r);
               match res with
               | inr err =>
                   webError "postHandler: Could not create DAG from request" err
                     StatusInternalServerError ;;
                   return_
               | inl putNode => mret putNode
               end);
  let newPath := if bool_decide (1 < length rsegs)%nat
                 then gopath.Join (drop 2 rsegs) else "" in
  res ← call (CallResolve rootPath) (core_Resolve node rootPath);
  newkey ← match res with
           | inr (path_ErrNoLink _ _) =>
               seg1 ← index rsegs 1;
               let k := key_B58KeyDecode pk seg1 in
               res ← call (CallDagGet k) (DAG_Get node k);
               rnd ← match res with
                       | inr err =>
                           webError "postHandler: Could not create DAG from request" err
                             StatusInternalServerError ;;
                           return_
                       | inl rnd => mret rnd
                       end;
               res ← call (CallInsertNodeAtPath rnd newPath newnode)
                          (InsertNodeAtPath node rnd newPath newnode);
               edited ← match res with
                        | inr err =>
                            webError "postHandler: InsertNodeAtPath failed" err
                              StatusInternalServerError ;;
                            return_
                        | inl edited => mret edited
                        end;
               match Node_Key pk edited with
               | inr err =>
                   webError "postHandler: could not get key of edited node" err
                     StatusInternalServerError ;;
                   return_
               | inl newkey => mret newkey
               end
           | inl rnd =>
               let rnd := mkNode (Data newnode) (Links rnd) in
               res ← call (CallDagAdd rnd) (DAG_Add node rnd);
               match res with
               | inr err =>
                   let nnk := match Node_Key pk newnode with inl k => k | inr _ => "" end in
                   let rk := match Node_Key pk rnd with inl k => k | inr _ => "" end in
                   webError
                     ("postHandler: Could not add newnode(" ++ dquote ++ Key_String pk nnk
                        ++ dquote ++ ") to root(" ++ dquote ++ Key_String pk rk ++ dquote ++ ")")
                     err StatusInternalServerError ;;
                   return_
               | inl newkey => mret newkey
               end
           | inr ev =>
               webError "could not resolve root DAG" ev StatusInternalServerError ;;
               return_
           end;
  addUserHeaders ;;
  onWriter (http.SetHeader "IPFS-Hash" (Key_String pk newkey)) ;;
  onWriter (http.Redirect (redirectNote pk) r
              (gopath.Join [ipfsPathPrefix; Key_String pk newkey; newPath]) StatusCreated).

(** [deleteHandler] *)
Definition deleteHandler (r : Request) : Handler S () :=
  when (bool_decide (URL_Path r = "/ipfs") || bool_decide (URL_Path r = ipfsPathPrefix))
    (webErrorWithCode "HTTP DELETE of /ipfs is not meaningful"
       ErrNotMeaningfulOnWritable StatusMethodNotAllowed ;;
     return_) ;;
  rootPath ← match path_ParsePath pk (URL_Path r) with
             | inr err =>
                 webError "deleteHandler: ipfs path not valid" err StatusBadRequest ;;
                 return_
             | inl p => mret p
             end;
  let rsegs := Path_Segments pk rootPath in
  seg0 ← index rsegs 0;
  when (bool_decide (seg0 = ipnsPathPrefix))
    (webError "deleteHandler: updating named entries not supported"
       ErrIPNSNotSupported StatusBadRequest ;;
     return_) ;;
  when (bool_decide (length rsegs = 2%nat))
    (webErrorWithCode "HTTP DELETE of /ipfs/$hash is not meaningful"
       ErrNotMeaningfulOnWritable StatusMethodNotAllowed) ;;
  seg1 ← index rsegs 1;
  let k := key_B58KeyDecode pk seg1 in
  res ← call (CallDagGet k) (DAG_Get node k);
  rnd ← match res with
          | inr err =>
              webError "deleteHandler: Could not create DAG from request" err
                StatusInternalServerError ;;
              return_
          | inl rnd => mret rnd
          end;
  let newPath := gopath.Join (drop 2 rsegs) in
  res ← call (CallRmLink rnd newPath) (RmLink node rnd newPath);
  edited ← match res with
           | inr err =>
               webError "deleteHandler: dag editor failed to rmLink()" err
                 StatusInternalServerError ;;
               return_
           | inl edited => mret edited
           end;
  newkey ← match Node_Key pk edited with
           | inr err =>
               webError "deleteHandler: could not get key of edited node" err
                 StatusInternalServerError ;;
               return_
           | inl newkey => mret newkey
           end;
  addUserHeaders ;;
  onWriter (http.SetHeader "IPFS-Hash" (Key_String pk newkey)) ;;
  onWriter (http.Redirect (redirectNote pk) r
              (gopath.Join [ipfsPathPrefix; Key_String pk newkey; newPath]) StatusCreated).

(** [ServeHTTP] *)
Definition ServeHTTP (r : Request) : Handler S () :=
  when (Writable config)
    (if bool_decide (Method r = "POST") then invoke (postHandler r) ;; return_
     else if bool_decide (Method r = "PUT") then
       onWriter (http.Error
         "writableGateway: PUT method not meaningful on IPFS - use POST and see the docs"
         StatusMethodNotAllowed) ;;
       return_
     else if bool_decide (Method r = "DELETE") then invoke (deleteHandler r) ;; return_
     else mret ()) ;;
  when (bool_decide (Method r = "GET") || bool_decide (Method r = "HEAD"))
    (invoke (getOrHeadHandler r) ;; return_) ;;
  let errmsg := "Method " ++ Method r ++ " not allowed: " in
  if negb (Writable config) then
    onWriter (http.WriteHeader StatusMethodNotAllowed) ;;
    let errmsg := errmsg ++ "read only access" in
    onWriter (http.Write errmsg)
  else
    onWriter (http.WriteHeader StatusBadRequest) ;;
    let errmsg := errmsg ++ "bad request for " ++ URL_Path r in
    onWriter (http.Write errmsg).

(** A handler run on a fresh response writer, an empty call log, the
    store [s] and the wall clock [now]. *)
Definition serve (h : Handler S ()) (s : S) (now : Time) : Flow () * World S :=
  h (mkWorld newResponseWriter s now []).

End Gateway.

(** ** An in-memory node for examples

    The packages [path], [merkledag], [merkledag/utils], [importer] and
    [unixfs/io] are outside this file.  [Mem] is a small executable
    stand-in for them, written after their description in the design
    notes, on which the handlers can be run. *)

Module Mem.

(** Modelled from the spec: [path.ParsePath] is in package [path]; "a
    path must begin with a recognized namespace prefix". *)
Definition ParsePath (txt : string) : string + error :=
  if strings.HasPrefix txt ipfsPathPrefix || strings.HasPrefix txt ipnsPathPrefix
  then inl txt
  else inr (errors_New "invalid ipfs ref path").

(** Modelled from the spec: [Path.Segments] is in package [path];
    "segments are the /-delimited remainder", "segments() exposes the raw
    split for callers that need positional indexing (segment 1 is the root
    key)": the slash-split of the path without the empty part in front of
    the leading slash. *)
Definition Segments (p : string) : list string :=
  match strings.Split p "/" with
  | EmptyString :: segments => segments
  | segments => segments
  end.

(** The block store: nodes by key. *)
Abbreviation Store := (gmap Key Node).

(** Payloads: a directory marker, or a file marker followed by the bytes. *)
Definition folderData : string := "dir".

Definition fileData (bytes : string) : string := "file:" ++ bytes.

(** Modelled from the spec: the key of a node is "a deterministic function
    of its serialized bytes (payload + links)"; here the text of the node
    itself stands for its hash. *)
Definition keyOf (nd : Node) : Key :=
  "Qm<" ++ Data nd ++ strings.Join (map (λ l, "|" ++ Name l ++ "=" ++ Hash l) (Links nd)) ""
    ++ ">".

(** Modelled from the spec: the store's [get(ctx, key) -> Node]; a key
    that is not there is the routing layer's not-found. *)
Definition get (k : Key) (s : Store) : Node + error :=
  match s !! k with
  | Some nd => inl nd
  | None => inr routing_ErrNotFound
  end.

(** Modelled from the spec: the store's [put(node) -> Key]. *)
Definition add (nd : Node) (s : Store) : Key * Store := (keyOf nd, <[keyOf nd := nd]> s).

(** first link of that name *)
Definition findLink (name : string) (nd : Node) : option Link :=
  List.find (λ l, bool_decide (Name l = name)) (Links nd).

(** Modelled from the spec: the resolver of package [path] walks the
    segments after the root key through the links of the nodes, first
    match by name, and fails with the missing name and the node reached. *)
Fixpoint walk (s : Store) (k : Key) (nd : Node) (segs : list string) : Node + error :=
  match segs with
  | [] => inl nd
  | seg :: rest =>
      if bool_decide (seg = "") then walk s k nd rest
      else match findLink seg nd with
           | None => inr (path_ErrNoLink seg k)
           | Some l =>
               match get (Hash l) s with
               | inl child => walk s (Hash l) child rest
               | inr err => inr err
               end
           end
  end.

(** Modelled from the spec: [core.Resolve], the walk from the root key,
    which is segment 1 of the path. *)
Definition resolve (p : string) (s : Store) : Node + error :=
  match Segments p with
  | _ :: k :: rest =>
      match get k s with
      | inl nd => walk s k nd rest
      | inr err => inr err
      end
  | _ => inr (errors_New "invalid ipfs ref path")
  end.

(** the node with its link [name] pointing at [child] *)
Definition setLink (name : string) (child : Node) (nd : Node) : Node :=
  mkNode (Data nd)
    (filter (λ l, Name l ≠ name) (Links nd)
       ++ [mkLink name (Z.of_nat (String.length (Data child))) (keyOf child)]).

(** Modelled from the spec: the insertion of the DAG editor of package
    [merkledag/utils] rebuilds each node on the path with the link to its
    edited child and stores it; a missing directory on the way is created
    empty. *)
Fixpoint insertAt (segs : list string) (new : Node) (root : Node) (s : Store)
    : (Node + error) * Store :=
  match segs with
  | [] => (inr (errors_New "cannot insert at the empty path"), s)
  | [name] =>
      let '(_, s1) := add new s in
      let root' := setLink name new root in
      (inl root', (add root' s1).2)
  | name :: rest =>
      let child :=
        match findLink name root with
        | Some l => default (mkNode folderData []) (s !! Hash l)
        | None => mkNode folderData []
        end in
      match insertAt rest new child s with
      | (inl child', s1) =>
          let root' := setLink name child' root in
          (inl root', (add root' s1).2)
      | (inr err, s1) => (inr err, s1)
      end
  end.

(** Modelled from the spec: the removal of the DAG editor fails when a
    segment of the path has no link, and changes nothing then. *)
Fixpoint removeAt (segs : list string) (root : Node) (s : Store) : (Node + error) * Store :=
  match segs with
  | [] => (inr (errors_New "merkledag: not found"), s)
  | [name] =>
      match findLink name root with
      | None => (inr (errors_New "merkledag: not found"), s)
      | Some _ =>
          let root' := mkNode (Data root) (filter (λ l, Name l ≠ name) (Links root)) in
          (inl root', (add root' s).2)
      end
  | name :: rest =>
      match findLink name root with
      | None => (inr (errors_New "merkledag: not found"), s)
      | Some l =>
          match get (Hash l) s with
          | inr err => (inr err, s)
          | inl child =>
              match removeAt rest child s with
              | (inl child', s1) =>
                  let root' := setLink name child' root in
                  (inl root', (add root' s1).2)
              | (inr err, s1) => (inr err, s)
              end
          end
      end
  end.

(** Modelled from the spec: the node of the gateway over the in-memory
    store; the importer makes one file node of the body, the decoder
    opens a file node and refuses a directory with [uio.ErrIsDir]. *)
Definition node : IpfsNode Store := {|
  core_Resolve p s := (resolve p s, s);
  DAG_Get k s := (get k s, s);
  DAG_Add nd s := let '(k, s') := add nd s in (inl k, s');
  BuildDagFromReader body s :=
    let nd := mkNode (fileData body) [] in (inl nd, (add nd s).2);
  NewDagReader nd s :=
    (if bool_decide (Data nd = folderData) then inr uio_ErrIsDir
     else if strings.HasPrefix (Data nd) "file:"
     then inl (mkDagReader (substring 5 (String.length (Data nd) - 5) (Data nd)))
     else inr (errors_New "unrecognized node type"), s);
  InsertNodeAtPath root p nd s := insertAt (strings.Split p "/") nd root s;
  RmLink root p s := removeAt (strings.Split p "/") root s
|}.

(** Modelled from the spec: the pure functions of the other packages, in
    the simplest form that runs; keys are their own base-58 text. *)
Definition packages : Packages := {|
  path_ParsePath := ParsePath;
  Path_Segments := Segments;
  key_B58KeyDecode k := k;
  Key_String k := k;
  Node_Key nd := inl (keyOf nd);
  FolderPBData := folderData;
  humanize_Bytes n := (if bool_decide (n = 0) then "0" else "some") ++ "B";
  ServeContent r name modtime dr :=
    (StatusOK, if bool_decide (Method r = "HEAD") then "" else dr_bytes dr);
  TemplateExecute data :=
    ("Index of " ++ Path data ++ ": " ++ strings.Join (map di_Name (Listing data)) " "
       ++ " [" ++ BackLink data ++ "]", None);
  redirectNote url code := "<a href=" ++ url ++ ">"
|}.

(** A store for the examples: two directories, one of them with an index
    page, an empty directory, two files and a block that is no unixfs
    node. *)
Definition dirA : Node := mkNode folderData [].
Definition fileX : Node := mkNode (fileData "hello") [].
Definition indexPage : Node := mkNode (fileData "<html>") [].
Definition rawBlock : Node := mkNode "raw" [].
Definition root1 : Node := mkNode folderData [mkLink "a" 0 "QmA"; mkLink "x" 5 "QmX"].
Definition root2 : Node :=
  mkNode folderData [mkLink "x" 5 "QmX"; mkLink "index.html" 6 "QmI"].

Definition blocks : Store :=
  <["Qm1" := root1]> (<["Qm2" := root2]> (<["QmA" := dirA]> (<["QmX" := fileX]>
    (<["QmI" := indexPage]> (<["QmR" := rawBlock]>
      (<[emptyDirKey := dirA]> (<["example.net" := root1]> ∅))))))).

(** A writable gateway with one operator header and no block list. *)
Definition config : GatewayConfig := mkGatewayConfig {["X-Op" := ["1"]]} None true.

Definition request (method urlPath : string) (header : Header) : Request :=
  mkRequest method urlPath header "body".

Definition now : Time := mkTime 1446249600 0.

Definition later : Time := mkTime 1446253200 0.

(** Requests of the examples. *)
Definition getDirWithTag : Request :=
  request "GET" "/ipfs/Qm2" {["If-None-Match" := ["Qm2"]]}.

Definition getMissingWithTag : Request :=
  request "GET" "/ipfs/Qm1/missing" {["If-None-Match" := ["missing"]]}.

Definition getIndexDir : Request := request "GET" "/ipfs/Qm2" ∅.

Definition getSubDir : Request := request "GET" "/ipfs/Qm1/a" ∅.

Definition getRewritten : Request :=
  request "GET" "/ipns/example.net/a" {["X-IPNS-Original-Path" := ["/a"]]}.

Definition getFile : Request := request "GET" "/ipfs/Qm1/x" ∅.

Definition headFile : Request :=
  request "HEAD" "/ipfs/Qm1/x" {["If-None-Match" := ["other"]]}.

Definition getRawBlock : Request := request "GET" "/ipfs/QmR" ∅.

Definition postEmptyDir : Request :=
  request "POST" ("/ipfs/Qm1/n/" ++ emptyDirKey) ∅.

Definition postFile : Request := request "POST" "/ipfs/Qm1/x" ∅.

Definition postNamed : Request := request "POST" "/ipns/example.net/y" ∅.

Definition deleteNamed : Request := request "DELETE" "/ipns/example.net/x" ∅.

Definition deleteBareKey : Request := request "DELETE" "/ipfs/Qm1" ∅.

End Mem.

(** ** Observations on a run *)

(** The calls of a run that reach the block store. *)
Definition storeAccesses (cs : list Call) : list Call := List.filter isStoreAccess cs.

(** The template data of the directory listings rendered in a run. *)
Definition listingsRendered (cs : list Call) : list listingTemplateData :=
  omap (λ c, match c with CallTemplateExecute d => Some d | _ => None end) cs.

(** The modification times handed to [http.ServeContent] in a run. *)
Definition modtimesServed (cs : list Call) : list Time :=
  omap (λ c, match c with CallServeContent _ t _ => Some t | _ => None end) cs.

(** The nodes handed to the DAG editor for insertion in a run. *)
Definition nodesInserted (cs : list Call) : list Node :=
  omap (λ c, match c with CallInsertNodeAtPath _ _ nd => Some nd | _ => None end) cs.

(** The nodes added to the store through [DAG.Add] in a run. *)
Definition nodesAdded (cs : list Call) : list Node :=
  omap (λ c, match c with CallDagAdd nd => Some nd | _ => None end) cs.

(** The block list lets the path through. *)
Definition notBlocked (config : GatewayConfig) (p : string) : Prop :=
  match BlockList config with
  | Some ShouldBlock => ShouldBlock p = false
  | None => True
  end.

(** The calls made for the block list, which never reach the store. *)
Definition blockCalls (config : GatewayConfig) (p : string) : list Call :=
  match BlockList config with
  | Some _ => [CallShouldBlock p]
  | None => []
  end.

(** The path the client asked for, and whether the host-name option
    rewrote it ([originalURLPath] and [ipnsHostname] in
    [getOrHeadHandler]). *)
Definition originalURLPathOf (r : Request) : string :=
  match default [] (ReqHeader r !! "X-IPNS-Original-Path") with
  | h :: _ => h
  | [] => URL_Path r
  end.

Definition ipnsHostnameOf (r : Request) : bool :=
  match default [] (ReqHeader r !! "X-IPNS-Original-Path") with
  | _ :: _ => true
  | [] => false
  end.

(** What a call of a run of [getOrHeadHandler] can be: a question to the
    block list, a resolution, an opening or a copy of a reader, a file
    served under the last element of the path with the modification time
    of the content-addressed namespace or the wall clock, or a listing
    rendered for the client's path with the back link of the request. *)
Definition getOrHeadCall (r : Request) (now : Time) (c : Call) : Prop :=
  match c with
  | CallShouldBlock _ | CallResolve _ | CallNewDagReader _ | CallCopy _ => True
  | CallServeContent name modtime _ =>
      name = (gopath.Split (URL_Path r)).2
      ∧ modtime = (if strings.HasPrefix (URL_Path r) ipfsPathPrefix
                   then time_Unix 1 0 else now)
  | CallTemplateExecute d =>
      Path d = originalURLPathOf r
      ∧ BackLink d = backLinkFor (URL_Path r) (ipnsHostnameOf r)
  | _ => False
  end.

(** The back link as the design notes give it: the path unchanged when
    its slash-split has exactly 3 parts, or exactly 4 parts the last of
    which is empty; otherwise the path with [/..] appended, or [./..] when
    the path already ends in a slash. *)
Definition specBackLink (p : string) : string :=
  let parts := strings.Split p "/" in
  if bool_decide (length parts = 3%nat
                  ∨ (length parts = 4%nat ∧ last parts = Some ""))
  then p
  else if strings.HasSuffix p "/" then p ++ "./.." else p ++ "/..".

(** Writer [w'] comes from writer [w] by header settings under keys in
    [K], [WriteHeader]s and [Write]s. *)
Inductive writes (K : string → Prop) (w : ResponseWriter) : ResponseWriter → Prop :=
| writes_done : writes K w w
| writes_SetHeader key v w' :
    K (http.CanonicalHeaderKey key) → writes K w w' → writes K w (http.SetHeader key v w')
| writes_WriteHeader code w' : writes K w w' → writes K w (http.WriteHeader code w')
| writes_Write b w' : writes K w w' → writes K w (http.Write b w').

(** [P] holds of the live headers of the writer and of the headers that
    went out, if any did. *)
Definition holdsOfHeaders (P : Header → Prop) (w : ResponseWriter) : Prop :=
  P (rw_header w) ∧ ∀ code h, rw_sent w = Some (code, h) → P h.

(** The keys under which a header is the entity tag on the wire, where
    the names of headers are compared without regard to case: those whose
    canonical form is [Etag] ([ETag], [etag], ...). *)
Definition isEtagKey (k : string) : Prop := http.CanonicalHeaderKey k = "Etag".

(** The operator configures no entity tag, under any of these keys;
    [addUserHeaders] assigns the keys as the operator wrote them. *)
Definition noOperatorEtag (config : GatewayConfig) : Prop :=
  ∀ k, isEtagKey k → Headers config !! k = None.

(** The header map holds no entity tag but [etag]: every key that is
    the entity tag on the wire is absent, or it is the canonical key and
    its one value is [etag]. *)
Definition etagsIn (etag : string) (h : Header) : Prop :=
  ∀ k, isEtagKey k → h !! k = None ∨ (k = "Etag" ∧ h !! k = Some [etag]).

(** The entity tag is there. *)
Definition tagSet (etag : string) (h : Header) : Prop := h !! "Etag" = Some [etag].

(** The request is served by [getOrHeadHandler] from store [s]: its path
    passes the block list and resolves, its [If-None-Match] is not the
    entity tag of the path, the path has a namespace and a key unless the
    host-name option rewrote it, and the node opens as a file or is a
    directory. *)
Definition served {S} (node : IpfsNode S) (config : GatewayConfig) (r : Request) (s : S)
  : Prop :=
  notBlocked config (URL_Path r)
  ∧ http.Header_Get (ReqHeader r) "If-None-Match" ≠ gopath.Base (URL_Path r)
  ∧ (ipnsHostnameOf r = true ∨ (3 ≤ length (strings.Split (URL_Path r) "/"))%nat)
  ∧ ∃ nd s1 res s2,
      core_Resolve node (URL_Path r) s = (inl nd, s1)
      ∧ NewDagReader node nd s1 = (res, s2)
      ∧ ∀ err, res = inr err → err = uio_ErrIsDir.

(** The header keys [getOrHeadHandler] sets itself, in canonical form. *)
Definition getOrHeadKeys : list string :=
  ["X-Ipfs-Path"; "Suborigin"; "Etag"; "Cache-Control"; "Location"].

(** The header keys [postHandler] and [deleteHandler] set themselves. *)
Definition mutationKeys : list string := ["Ipfs-Hash"; "Location"].

(** The operator's headers are in [h], but for the keys in [own]. *)
Definition carriesUserHeaders (config : GatewayConfig) (own : list string) (h : Header)
  : Prop :=
  ∀ k v, Headers config !! k = Some v → k ∉ own → h !! k = Some v.

(** The calls the scan of the links of a directory can make. *)
Definition isScanCall (c : Call) : bool :=
  match c with
  | CallResolve _ | CallNewDagReader _ | CallCopy _ => true
  | _ => false
  end.

(** [wp m σ Q]: the outcome and the world of the run of [m] from [σ]
    satisfy [Q]. *)
Definition wp {S A} (m : Handler S A) (σ : World S) (Q : Flow A → World S → Prop) : Prop :=
  Q (m σ).1 (m σ).2.

(** [preserves I m]: a run of [m] from a world in [I] ends in [I],
    whatever its outcome. *)
Definition preserves {S A} (I : World S → Prop) (m : Handler S A) : Prop :=
  ∀ σ, I σ → I (m σ).2.

(** The writer of the world satisfies [J]. *)
Definition onWriterOf {S} (J : ResponseWriter → Prop) : World S → Prop :=
  λ σ, J (writer σ).

(** ** Further observations *)

(** The calls that write to the store: the importer, [DAG.Add] and the
    two edits of the DAG editor. *)
Definition isMutationCall (c : Call) : bool :=
  match c with
  | CallDagAdd _ | CallBuildDagFromReader _ | CallInsertNodeAtPath _ _ _ | CallRmLink _ _ =>
      true
  | _ => false
  end.

(** The calls of [postHandler], and those of [deleteHandler]. *)
Definition isPostCall (c : Call) : bool :=
  match c with
  | CallBuildDagFromReader _ | CallResolve _ | CallDagGet _ | CallDagAdd _
  | CallInsertNodeAtPath _ _ _ => true
  | _ => false
  end.

Definition isDeleteCall (c : Call) : bool :=
  match c with
  | CallDagGet _ | CallRmLink _ _ => true
  | _ => false
  end.

(** The calls that put bytes of a listing or of an index page into the
    body. *)
Definition isBodyCall (c : Call) : bool :=
  match c with
  | CallCopy _ | CallTemplateExecute _ => true
  | _ => false
  end.

(** The entry of a link in a directory listing ([di] in the loop of
    [getOrHeadHandler]). *)
Definition directoryItemOf (pk : Packages) (originalURLPath : string) (link : Link)
  : directoryItem :=
  mkDirectoryItem (humanize_Bytes pk (Size link)) (Name link)
    (gopath.Join [originalURLPath; Name link]).

(** The headers of a served response, but for [Location]: the operator's
    headers, over them the path, the root of the path as [Suborigin]
    unless the host-name option rewrote the request, and for a
    content-addressed path the entity tag and the caching policy. *)
Definition servedHeader (config : GatewayConfig) (r : Request) : Header :=
  let h0 := http.Header_Set (Headers config ∪ ∅) "X-IPFS-Path" (URL_Path r) in
  let h1 :=
    if ipnsHostnameOf r then h0
    else match strings.SplitN (URL_Path r) "/" 4 !! 2%nat with
         | Some pathRoot => http.Header_Set h0 "Suborigin" pathRoot
         | None => h0
         end in
  if strings.HasPrefix (URL_Path r) ipfsPathPrefix
  then http.Header_Set (http.Header_Set h1 "Etag" (gopath.Base (URL_Path r)))
         "Cache-Control" "public, max-age=29030400"
  else h1.

(** The calls of the world satisfy [P]. *)
Definition onCallsOf {S} (P : Call → Prop) : World S → Prop :=
  λ σ, Forall P (calls σ).

(** The status [webError] answers an error with. *)
Definition statusOf (err : error) (defaultCode : Z) : Z :=
  match err with
  | path_ErrNoLink _ _ | routing_ErrNotFound => StatusNotFound
  | context_DeadlineExceeded => StatusRequestTimeout
  | _ => defaultCode
  end.

(** ** Further examples on the in-memory node *)

Module Examples.

(** A read-only gateway, and one with a block list. *)
Definition readOnly : GatewayConfig := mkGatewayConfig {["X-Op" := ["1"]]} None false.

Definition blocking : GatewayConfig :=
  mkGatewayConfig ∅ (Some (λ p, bool_decide (p = "/ipfs/Qm1/x"))) false.

(** A store with a directory whose index page is gone. *)
Definition root3 : Node := mkNode Mem.folderData [mkLink "index.html" 6 "QmGone"].

Definition broken : Mem.Store := <["Qm3" := root3]> Mem.blocks.

(** A gateway whose operator configures an entity tag of their own,
    under a key that is not in canonical form. *)
Definition taggingConfig : GatewayConfig :=
  mkGatewayConfig {["ETag" := ["operator"]]} None false.

(** A GET for a file with the entity tag of its path in [If-None-Match]. *)
Definition getFileWithTag : Request :=
  Mem.request "GET" "/ipfs/Qm1/x" {["If-None-Match" := ["x"]]}.

Definition headDir : Request := Mem.request "HEAD" "/ipfs/Qm1" ∅.

Definition getDir : Request := Mem.request "GET" "/ipfs/Qm1" ∅.

Definition getIndexSlash : Request := Mem.request "GET" "/ipfs/Qm2/" ∅.

Definition getBrokenIndex : Request := Mem.request "GET" "/ipfs/Qm3/" ∅.

Definition getNamedFile : Request := Mem.request "GET" "/ipns/example.net/x" ∅.

Definition getMissing : Request := Mem.request "GET" "/ipfs/Qm1/missing" ∅.

Definition postNew : Request := Mem.request "POST" "/ipfs/Qm1/y" ∅.

Definition postUnknownRoot : Request := Mem.request "POST" "/ipfs/QmNone/y" ∅.

Definition postBadPath : Request := Mem.request "POST" "/bad/Qm1" ∅.

Definition deleteLink : Request := Mem.request "DELETE" "/ipfs/Qm1/x" ∅.

Definition deleteUnknownRoot : Request := Mem.request "DELETE" "/ipfs/QmNone/x" ∅.

Definition deleteRoot : Request := Mem.request "DELETE" "/ipfs/" ∅.

Definition putFile : Request := Mem.request "PUT" "/ipfs/Qm1/x" ∅.

Definition patchFile : Request := Mem.request "PATCH" "/ipfs/Qm1/x" ∅.

End Examples.

(** * Verification *)

(** ** Facts on strings *)

(** A non-empty string has a last byte, which is its one-byte suffix. *)
Lemma last_byte (p : string) :
  p ≠ "" →
  ∃ n c, String.length p = Datatypes.S n ∧ String.get n p = Some c
         ∧ substring n 1 p = String c "".
Proof.
  induction p as [|a p IH]; [done|]. intros _.
  destruct p as [|b p].
  - by exists O, a.
  - destruct IH as (n & c & Hl & Hg & Hs); [done|].
    exists (Datatypes.S n), c. split_and!.
    + change (Datatypes.S (String.length (String b p)) = Datatypes.S (Datatypes.S n)).
      by rewrite Hl.
    + exact Hg.
    + exact Hs.
Qed.

(** A path that does not end in a slash has a last byte that is none. *)
Lemma last_byte_no_slash (p : string) :
  p ≠ "" → strings.HasSuffix p "/" = false →
  ∃ n c, String.length p = Datatypes.S n ∧ String.get n p = Some c
         ∧ Ascii.eqb c "/" = false.
Proof.
  intros Hne Hs. destruct (last_byte p Hne) as (n & c & Hl & Hg & Hsub).
  exists n, c. split_and!; [done..|].
  unfold strings.HasSuffix in Hs. rewrite Hl in Hs.
  change (String.length "/") with 1%nat in Hs.
  replace (Datatypes.S n - 1)%nat with n in Hs by lia.
  rewrite Hsub in Hs. simpl in Hs.
  apply bool_decide_eq_false in Hs.
  destruct (Ascii.eqb_spec c "/"); [by subst|done].
Qed.

(** A path of at least three parts has a third part, also when it is
    split in at most four. *)
Lemma SplitN_third (p : string) (sep : ascii) :
  (3 ≤ length (strings.Split p sep))%nat →
  is_Some (strings.SplitN p sep 4 !! 2%nat).
Proof.
  intros H. unfold strings.SplitN.
  destruct (strings.Split p sep) as [|a [|b [|c l]]]; simpl in *; try lia.
  destruct l as [|d [|e l]]; simpl; eauto.
Qed.

(** No part of a split holds the separator. *)
Lemma Split_no_sep (p : string) (sep : ascii) :
  Forall (λ seg, sep ∉ list_ascii_of_string seg) (strings.Split p sep).
Proof.
  induction p as [|a p IH]; simpl.
  - constructor; [apply not_elem_of_nil|constructor].
  - destruct (Ascii.eqb_spec a sep) as [->|Hne].
    + constructor; [apply not_elem_of_nil|done].
    + destruct (strings.Split p sep) as [|h t].
      * constructor; [|constructor]. simpl.
        apply not_elem_of_cons. split; [done|apply not_elem_of_nil].
      * apply Forall_cons in IH as [Hh Ht]. constructor; [|done].
        simpl. apply not_elem_of_cons. by split.
Qed.

(** So no part of a slash-split is [/ipns/]. *)
Lemma Split_not_ipnsPathPrefix (p seg : string) :
  seg ∈ strings.Split p "/" → seg ≠ ipnsPathPrefix.
Proof.
  intros Hin ->. pose proof (Split_no_sep p "/") as H.
  rewrite Forall_forall in H. apply (H _ Hin). simpl. by left.
Qed.

Lemma Segments_not_ipnsPathPrefix (p seg : string) :
  seg ∈ Mem.Segments p → seg ≠ ipnsPathPrefix.
Proof.
  unfold Mem.Segments. intros Hin. apply (Split_not_ipnsPathPrefix p).
  destruct (strings.Split p "/") as [|[|a h] t]; [done| |done]. by right.
Qed.

(** The rest of the path after the root key ([newPath] in [postHandler])
    is the join of the segments from the third on, also when there is
    none. *)
Lemma newPath_join (rsegs : list string) :
  (if bool_decide (1 < length rsegs)%nat then gopath.Join (drop 2 rsegs) else "")
  = gopath.Join (drop 2 rsegs).
Proof.
  case_bool_decide as H; [done|]. destruct rsegs as [|a [|b l]]; simpl in *; [done..|lia].
Qed.

(** A path that ends in a slash has a last byte, the slash. *)
Lemma last_byte_slash (p : string) :
  strings.HasSuffix p "/" = true →
  ∃ n, String.length p = Datatypes.S n ∧ String.get n p = Some "/"%char.
Proof.
  intros Hs. unfold strings.HasSuffix in Hs. apply andb_true_iff in Hs as [Hlen Hs].
  assert (Hne : p ≠ "") by (intros ->; simpl in Hlen; done).
  destruct (last_byte p Hne) as (n & c & Hl & Hg & Hsub).
  exists n. split; [done|].
  rewrite Hl in Hs. change (String.length "/") with 1%nat in Hs.
  replace (Datatypes.S n - 1)%nat with n in Hs by lia.
  rewrite Hsub in Hs. apply bool_decide_eq_true in Hs. congruence.
Qed.

#[local] Arguments gopath.Base : simpl never.
#[local] Arguments gopath.Join : simpl never.
#[local] Arguments gopath.Split : simpl never.
#[local] Arguments strings.SplitN : simpl never.
#[local] Arguments strings.Split : simpl never.
#[local] Arguments strings.HasPrefix : simpl never.
#[local] Arguments strings.HasSuffix : simpl never.
#[local] Arguments http.Header_Get : simpl never.
#[local] Arguments http.SetHeader : simpl never.
#[local] Arguments http.WriteHeader : simpl never.
#[local] Arguments http.Write : simpl never.
#[local] Arguments http.Redirect : simpl never.
#[local] Arguments String.append : simpl never.
#[local] Arguments String.get : simpl never.
#[local] Arguments String.length : simpl never.

(** ** Facts on the response writer *)

Lemma writes_trans K w1 w2 w3 : writes K w1 w2 → writes K w2 w3 → writes K w1 w3.
Proof. intros H12 H23. induction H23; eauto using writes. Qed.

Lemma writes_Redirect K note r url code w w' :
  K "Location" → writes K w w' → writes K w (http.Redirect note r url code w').
Proof.
  intros HK H. unfold http.Redirect.
  destruct (bool_decide (Method r = "GET")); eauto using writes.
Qed.


(** A property of the headers that every header setting keeps is kept by
    the operations on the writer. *)
Lemma holds_SetHeader P key v w :
  (∀ h, P h → P (http.Header_Set h key v)) →
  holdsOfHeaders P w → holdsOfHeaders P (http.SetHeader key v w).
Proof. intros HP [Hl Hs]. split; [by apply HP|done]. Qed.

Lemma holds_WriteHeader P code w :
  holdsOfHeaders P w → holdsOfHeaders P (http.WriteHeader code w).
Proof.
  intros [Hl Hs]. unfold http.WriteHeader.
  destruct (rw_sent w) as [[c h]|] eqn:E; split; simpl; try done.
  - by rewrite E.
  - intros ? ? [= <- <-]. done.
Qed.

Lemma holds_Write P b w : holdsOfHeaders P w → holdsOfHeaders P (http.Write b w).
Proof.
  intros H. apply (holds_WriteHeader P StatusOK) in H. destruct H as [Hl Hs]. by split.
Qed.

Lemma holds_Redirect P note r url code w :
  (∀ h, P h → P (http.Header_Set h "Location" url)) →
  holdsOfHeaders P w → holdsOfHeaders P (http.Redirect note r url code w).
Proof.
  intros HP H. unfold http.Redirect.
  destruct (bool_decide (Method r = "GET"));
    auto using holds_Write, holds_WriteHeader, holds_SetHeader.
Qed.

Lemma holds_writes K P w w' :
  (∀ key v h, K (http.CanonicalHeaderKey key) → P h → P (http.Header_Set h key v)) →
  writes K w w' → holdsOfHeaders P w → holdsOfHeaders P w'.
Proof.
  intros HP H Hw.
  induction H; eauto using holds_Write, holds_WriteHeader, holds_SetHeader.
Qed.

Lemma holds_response P w : holdsOfHeaders P w → P (http.responseHeader w).
Proof.
  intros [Hl Hs]. unfold http.responseHeader.
  destruct (rw_sent w) as [[c h]|]; eauto.
Qed.

(** That there is no entity tag but the one survives the setting of a
    header that is none on the wire, and the setting of the tag itself. *)
Lemma etagsIn_other etag key v h :
  ¬ isEtagKey (http.CanonicalHeaderKey key) →
  etagsIn etag h → etagsIn etag (http.Header_Set h key v).
Proof.
  intros Hk Hh k Hc. unfold http.Header_Set.
  rewrite lookup_insert_ne; [by apply Hh|]. intros E. by subst k.
Qed.

Lemma etagsIn_set etag h : etagsIn etag h → etagsIn etag (http.Header_Set h "Etag" etag).
Proof.
  intros Hh k Hc. unfold http.Header_Set.
  change (http.CanonicalHeaderKey "Etag") with "Etag".
  destruct (decide (k = "Etag")) as [->|Hne].
  - right. split; [done|apply lookup_insert_eq].
  - rewrite lookup_insert_ne by done.
    destruct (Hh k Hc) as [?|[? _]]; [by left|done].
Qed.

Lemma etagsIn_empty etag : etagsIn etag ∅.
Proof. intros k _. by left. Qed.

(** What a redirect sends when nothing went out before it. *)
Lemma Redirect_response note r url code w :
  rw_sent w = None →
  http.responseStatus (http.Redirect note r url code w) = code
  ∧ http.responseHeader (http.Redirect note r url code w) !! "Location" = Some [url].
Proof.
  intros Hs.
  unfold http.Redirect, http.responseStatus, http.responseHeader, http.WriteHeader,
    http.Write, http.SetHeader, http.Header_Set.
  destruct (bool_decide (Method r = "GET")); simpl; rewrite Hs; simpl;
    by rewrite lookup_insert_eq.
Qed.

(** What went out stays, whatever is done to the writer afterwards. *)
Lemma sent_WriteHeader code w x : rw_sent w = Some x → rw_sent (http.WriteHeader code w) = Some x.
Proof. intros H. unfold http.WriteHeader. by rewrite H. Qed.

Lemma sent_Write b w x : rw_sent w = Some x → rw_sent (http.Write b w) = Some x.
Proof. intros H. unfold http.Write. simpl. by apply sent_WriteHeader. Qed.

Lemma sent_SetHeader key v w x : rw_sent w = Some x → rw_sent (http.SetHeader key v w) = Some x.
Proof. done. Qed.

Lemma sent_Redirect note r url code w x :
  rw_sent w = Some x → rw_sent (http.Redirect note r url code w) = Some x.
Proof.
  intros H. unfold http.Redirect.
  destruct (bool_decide (Method r = "GET"));
    auto using sent_Write, sent_WriteHeader, sent_SetHeader.
Qed.

(** The first [WriteHeader] sends the live headers. *)
Lemma sent_first code w : rw_sent w = None → rw_sent (http.WriteHeader code w) = Some (code, rw_header w).
Proof. intros H. unfold http.WriteHeader. by rewrite H. Qed.

(** A redirect on a writer that sent nothing sends the live headers and
    the location. *)
Lemma sent_Redirect_first note r url code w :
  rw_sent w = None →
  rw_sent (http.Redirect note r url code w)
  = Some (code, http.Header_Set (rw_header w) "Location" url).
Proof.
  intros H. unfold http.Redirect.
  destruct (bool_decide (Method r = "GET")); [apply sent_Write|];
    by apply sent_first.
Qed.

(** The operator's headers stay under the setting of a header of the
    handler's own, and are there once laid over the live headers. *)
Lemma carries_set config own key v h :
  http.CanonicalHeaderKey key ∈ own →
  carriesUserHeaders config own h → carriesUserHeaders config own (http.Header_Set h key v).
Proof.
  intros Hk Hh k x Hx Hown. unfold http.Header_Set.
  rewrite lookup_insert_ne; [by apply Hh|]. intros Ek. by subst k.
Qed.

Lemma carries_union config own h : carriesUserHeaders config own (Headers config ∪ h).
Proof. intros k x Hx _. by apply lookup_union_Some_l. Qed.

Lemma holds_SetHeader_first P key v w :
  rw_sent w = None → P (http.Header_Set (rw_header w) key v) →
  holdsOfHeaders P (http.SetHeader key v w).
Proof. intros Hs HP. split; [done|]. intros c h. simpl. by rewrite Hs. Qed.

Lemma tagSet_other etag key v h :
  http.CanonicalHeaderKey key ≠ "Etag" → tagSet etag h → tagSet etag (http.Header_Set h key v).
Proof. intros Hk Hh. unfold tagSet, http.Header_Set. by rewrite lookup_insert_ne. Qed.

(** ** Running a handler *)

Section WP.
Context {S : Type}.
Implicit Types σ : World S.

Lemma wp_bind {A B} (m : Handler S A) (k : A → Handler S B) σ Q :
  wp m σ (λ fl σ', match fl with
                   | Next a => wp (k a) σ' Q
                   | Return => Q Return σ'
                   | Panic => Q Panic σ'
                   end) →
  wp (m ≫= k) σ Q.
Proof. unfold wp, mbind, Handler_bind. by destruct (m σ) as [[a| |] σ']. Qed.

Lemma wp_ret {A} (a : A) σ Q : Q (Next a) σ → wp (mret a) σ Q.
Proof. done. Qed.

Lemma wp_return {A} σ (Q : Flow A → World S → Prop) : Q Return σ → wp return_ σ Q.
Proof. done. Qed.

Lemma wp_panic {A} σ (Q : Flow A → World S → Prop) : Q Panic σ → wp panic σ Q.
Proof. done. Qed.

Lemma wp_when (b : bool) m σ Q :
  (b = true → wp m σ Q) → (b = false → Q (Next ()) σ) → wp (when b m) σ Q.
Proof. intros H1 H2. destruct b; [by apply H1|by apply H2]. Qed.

Lemma wp_index {A} (l : list A) i σ Q :
  (∀ x, l !! i = Some x → Q (Next x) σ) → (l !! i = None → Q Panic σ) →
  wp (index l i) σ Q.
Proof. intros H1 H2. unfold index. destruct (l !! i); [by apply H1|by apply H2]. Qed.

Lemma wp_onWriter f σ Q :
  Q (Next ()) (mkWorld (f (writer σ)) (store σ) (clock σ) (calls σ)) → wp (onWriter f) σ Q.
Proof. done. Qed.

Lemma wp_note c σ Q :
  Q (Next ()) (mkWorld (writer σ) (store σ) (clock σ) (calls σ ++ [c])) → wp (note c) σ Q.
Proof. done. Qed.

Lemma wp_call {R} c (f : S → R * S) σ Q :
  (∀ r s', f (store σ) = (r, s') →
           Q (Next r) (mkWorld (writer σ) s' (clock σ) (calls σ ++ [c]))) →
  wp (call c f) σ Q.
Proof. intros H. unfold wp, call. destruct (f (store σ)) as [r s'] eqn:E. by apply H. Qed.

Lemma wp_time_Now σ Q : Q (Next (clock σ)) σ → wp time_Now σ Q.
Proof. done. Qed.

Lemma wp_invoke m σ Q :
  wp m σ (λ fl σ', match fl with Panic => Q Panic σ' | _ => Q (Next ()) σ' end) →
  wp (invoke m) σ Q.
Proof. unfold wp, invoke. by destruct (m σ) as [[[]| |] σ']. Qed.

Lemma wp_webErrorWithCode message err code σ Q :
  Q (Next ()) (mkWorld (http.Write (message ++ ": " ++ Error err)
                          (http.WriteHeader code (writer σ)))
                 (store σ) (clock σ) (calls σ)) →
  wp (webErrorWithCode message err code) σ Q.
Proof. done. Qed.

Lemma wp_webError message err defaultCode σ Q :
  (∀ code, code ∈ [StatusNotFound; StatusRequestTimeout; defaultCode] →
     Q (Next ()) (mkWorld (http.Write (message ++ ": " ++ Error err)
                             (http.WriteHeader code (writer σ)))
                    (store σ) (clock σ) (calls σ))) →
  wp (webError message err defaultCode) σ Q.
Proof.
  intros H. destruct err; apply wp_webErrorWithCode, H; set_solver.
Qed.

Lemma wp_internalWebError err σ Q :
  Q (Next ()) (mkWorld (http.Write ("internalWebError" ++ ": " ++ Error err)
                          (http.WriteHeader StatusInternalServerError (writer σ)))
                 (store σ) (clock σ) (calls σ)) →
  wp (internalWebError err) σ Q.
Proof. done. Qed.

End WP.

(** ** Invariants of a run *)

Section Preserves.
Context {S : Type}.
Implicit Types (σ : World S) (I : World S → Prop) (J : ResponseWriter → Prop).

Lemma pres_bind {A B} I (m : Handler S A) (k : A → Handler S B) :
  preserves I m → (∀ a, preserves I (k a)) → preserves I (m ≫= k).
Proof.
  intros Hm Hk σ Hσ. specialize (Hm σ Hσ).
  unfold mbind, Handler_bind. destruct (m σ) as [[a| |] σ']; simpl in *; [|done..].
  by apply Hk.
Qed.

Lemma pres_ret {A} I (a : A) : preserves I (mret a : Handler S A).
Proof. by intros σ. Qed.

Lemma pres_return {A} I : preserves I (return_ : Handler S A).
Proof. by intros σ. Qed.

Lemma pres_panic {A} I : preserves I (panic : Handler S A).
Proof. by intros σ. Qed.

Lemma pres_when I (b : bool) m : preserves I m → preserves I (when b m).
Proof. intros Hm. destruct b; [done|apply pres_ret]. Qed.

Lemma pres_index {A} I (l : list A) i : preserves I (index l i).
Proof. unfold index. destruct (l !! i); [apply pres_ret|apply pres_panic]. Qed.

Lemma pres_time_Now I : preserves I (time_Now : Handler S Time).
Proof. by intros σ. Qed.

Lemma pres_invoke I m : preserves I m → preserves I (invoke m).
Proof.
  intros Hm σ Hσ. specialize (Hm σ Hσ). unfold invoke.
  by destruct (m σ) as [[[]| |] σ'].
Qed.

Lemma pres_onWriter J f :
  (∀ w, J w → J (f w)) → preserves (onWriterOf J) (onWriter f : Handler S ()).
Proof. intros Hf σ Hσ. by apply Hf. Qed.

Lemma pres_note J c : preserves (onWriterOf J) (note c : Handler S ()).
Proof. by intros σ. Qed.

Lemma pres_call {R} J c (f : S → R * S) : preserves (onWriterOf J) (call c f).
Proof. intros σ Hσ. unfold call. by destruct (f (store σ)). Qed.

Lemma pres_webErrorWithCode P message err code :
  preserves (onWriterOf (holdsOfHeaders P))
    (webErrorWithCode message err code : Handler S ()).
Proof. intros σ Hσ. by apply holds_Write, holds_WriteHeader. Qed.

Lemma pres_webError P message err defaultCode :
  preserves (onWriterOf (holdsOfHeaders P))
    (webError message err defaultCode : Handler S ()).
Proof. destruct err; apply pres_webErrorWithCode. Qed.

Lemma pres_internalWebError P err :
  preserves (onWriterOf (holdsOfHeaders P)) (internalWebError err : Handler S ()).
Proof. apply pres_webErrorWithCode. Qed.

Lemma wp_preserves {A} I (m : Handler S A) σ Q :
  I σ → preserves I m → (∀ fl σ', I σ' → Q fl σ') → wp m σ Q.
Proof. intros Hσ Hm HQ. apply HQ. by apply Hm. Qed.

End Preserves.

#[local] Arguments wp : simpl never.

Ltac wp_simpl := cbn beta iota zeta delta [writer store clock calls fst snd].

Ltac wp_step :=
  lazymatch goal with
  | |- wp (mbind _ _) _ _ => apply wp_bind
  | |- wp (mret _) _ _ => apply wp_ret
  | |- wp return_ _ _ => apply wp_return
  | |- wp panic _ _ => apply wp_panic
  | |- wp (when _ _) _ _ => apply wp_when; intros ?
  | |- wp (onWriter _) _ _ => apply wp_onWriter
  | |- wp (note _) _ _ => apply wp_note
  | |- wp (call _ _) _ _ => apply wp_call; intros ? ? ?
  | |- wp time_Now _ _ => apply wp_time_Now
  | |- wp (index _ _) _ _ => apply wp_index; intros; [idtac|idtac]
  | |- wp (webErrorWithCode _ _ _) _ _ => apply wp_webErrorWithCode
  | |- wp (webError _ _ _) _ _ => apply wp_webError; intros ? ?
  | |- wp (internalWebError _) _ _ => apply wp_internalWebError
  | |- wp (newDagFromReader _ _) _ _ => apply wp_call; intros ? ? ?
  | |- wp (match ?x with _ => _ end) _ _ => destruct x eqn:?
  end; wp_simpl.

(** the branches of a run that the hypotheses exclude *)
Ltac wp_prune :=
  cbn beta iota delta [writer store clock calls fst snd] in *;
  repeat match goal with
    | H : bool_decide _ = true |- _ => apply bool_decide_eq_true_1 in H
    | H : bool_decide _ = false |- _ => apply bool_decide_eq_false_1 in H
    | H : negb _ = true |- _ => apply negb_true_iff in H
    | H : negb _ = false |- _ => apply negb_false_iff in H
    | H1 : ?x = _, H2 : ?x = _ |- _ => rewrite H1 in H2
    end;
  try done; simplify_eq; try done.

(** what went out first, under later operations on the writer *)
Ltac solve_sent :=
  lazymatch goal with
  | |- rw_sent (http.WriteHeader _ newResponseWriter) = _ => reflexivity
  | |- rw_sent (http.Redirect _ _ _ _ _) = _ => apply sent_Redirect; solve_sent
  | |- rw_sent (http.Write _ _) = _ => apply sent_Write; solve_sent
  | |- rw_sent (http.WriteHeader _ _) = _ => apply sent_WriteHeader; solve_sent
  | |- rw_sent (http.SetHeader _ _ _) = _ => apply sent_SetHeader; solve_sent
  | |- rw_sent (mkResponseWriter _ _ _) = _ => cbn [rw_sent]; solve_sent
  end.

Section Facts.
Context {S : Type} (node : IpfsNode S) (pk : Packages) (config : GatewayConfig).

(** The loop of [addUserHeaders] lays the operator's headers over the
    live header map. *)
Lemma addUserHeaders_fold (w : ResponseWriter) :
  map_fold (λ k v w', http.AssignHeader k v w') w (Headers config)
  = mkResponseWriter (Headers config ∪ rw_header w) (rw_sent w) (rw_body w).
Proof.
  apply (map_fold_weak_ind
           (λ r (m : Header), r = mkResponseWriter (m ∪ rw_header w) (rw_sent w) (rw_body w))).
  - rewrite (left_id_L ∅ (∪)). by destruct w.
  - intros k v m r Hk ->. unfold http.AssignHeader. simpl.
    by rewrite insert_union_l.
Qed.

Lemma addUserHeaders_run (σ : World S) :
  addUserHeaders config σ
  = (Next (), mkWorld (mkResponseWriter (Headers config ∪ rw_header (writer σ))
                         (rw_sent (writer σ)) (rw_body (writer σ)))
                (store σ) (clock σ) (calls σ)).
Proof. unfold addUserHeaders, onWriter. by rewrite addUserHeaders_fold. Qed.

Ltac exec :=
  repeat (simpl in *;
          unfold mbind, mret, Handler_bind, Handler_ret, note, call, onWriter, when,
            return_, panic, index, time_Now, invoke, webError, webErrorWithCode,
            internalWebError, newDagFromReader in * ).

Ltac calls_ext :=
  eexists; split; [rewrite <- ?app_assoc; reflexivity | reflexivity].

(** The scan of the links only sets [Location], writes, and calls the
    resolver and the reader. *)
Lemma scanLinks_frame r urlPath originalURLPath links dirListing (σ : World S) :
  let out := scanLinks node pk r urlPath originalURLPath links dirListing σ in
  writes (λ k, k = "Location") (writer σ) (writer out.2)
  ∧ ∃ ext, calls out.2 = (calls σ ++ ext)%list ∧ forallb isScanCall ext = true.
Proof.
  revert dirListing. induction links as [|link rest IH]; intros dirListing.
  - simpl. split; [constructor|]. exists []. by rewrite app_nil_r.
  - simpl. case_bool_decide as Hname; [|apply IH].
    clear IH. exec.
    destruct (String.length urlPath) as [|n]; simpl.
    { split; [constructor|]. exists []. by rewrite app_nil_r. }
    destruct (String.get n urlPath) as [c|]; simpl.
    2:{ split; [constructor|]. exists []. by rewrite app_nil_r. }
    destruct (Ascii.eqb c "/"); simpl.
    2:{ split; [apply writes_Redirect; [done|constructor]|]. exists []. by rewrite app_nil_r. }
    destruct (core_Resolve node _ (store σ)) as [[nd|err] s1]; simpl.
    2:{ split; [eauto using writes|]. calls_ext. }
    destruct (NewDagReader node nd s1) as [[dr|err] s2]; simpl.
    2:{ split; [eauto using writes|]. calls_ext. }
    destruct (bool_decide (Method r = "HEAD")); simpl.
    + split; [eauto using writes|]. calls_ext.
    + split; [eauto using writes|]. calls_ext.
Qed.

(** C9: [webError] answers 404 to a resolution no-such-link error and to
    the routing layer's not-found, 408 to the context's deadline exceeded,
    and the caller's default code to every other error; in all cases the
    body is the message, a colon and a space, and the text of the error. *)
Theorem webError_classifies (message : string) (err : error) (defaultCode : Z)
    (s : S) (now : Time) :
  let out := serve (webError message err defaultCode) s now in
  out.1 = Next ()
  ∧ http.responseStatus (writer out.2)
    = match err with
      | path_ErrNoLink _ _ => 404
      | routing_ErrNotFound => 404
      | context_DeadlineExceeded => 408
      | _ => defaultCode
      end
  ∧ rw_body (writer out.2) = message ++ ": " ++ Error err
  ∧ calls out.2 = [].
Proof. by destruct err. Qed.

(** An early exit of [getOrHeadHandler]: the block list. *)
Lemma getOrHead_blocked (r : Request) s now ShouldBlock :
  BlockList config = Some ShouldBlock → ShouldBlock (URL_Path r) = true →
  serve (getOrHeadHandler node pk config r) s now
  = (Return, mkWorld (mkResponseWriter ∅ (Some (StatusForbidden, ∅)) "403 - Forbidden")
               s now [CallShouldBlock (URL_Path r)]).
Proof.
  intros Hb Hs. unfold serve, getOrHeadHandler. rewrite Hb. exec. by rewrite Hs.
Qed.

(** An early exit of [getOrHeadHandler]: the resolution fails. *)
Lemma getOrHead_unresolved (r : Request) s now err s' :
  notBlocked config (URL_Path r) →
  core_Resolve node (URL_Path r) s = (inr err, s') →
  let out := serve (getOrHeadHandler node pk config r) s now in
  out.1 = Return
  ∧ rw_sent (writer out.2)
    = Some (match err with
            | path_ErrNoLink _ _ => 404
            | routing_ErrNotFound => 404
            | context_DeadlineExceeded => 408
            | _ => 400
            end, ∅)
  ∧ calls out.2 = (blockCalls config (URL_Path r) ++ [CallResolve (URL_Path r)])%list.
Proof.
  intros Hb Hr. unfold serve, getOrHeadHandler, notBlocked, blockCalls in *.
  destruct (BlockList config) as [f|]; exec; rewrite ?Hb; exec; rewrite Hr; by destruct err.
Qed.

(** An early exit of [getOrHeadHandler]: the entity tag matches. *)
Lemma getOrHead_notModified (r : Request) s now nd s' :
  notBlocked config (URL_Path r) →
  core_Resolve node (URL_Path r) s = (inl nd, s') →
  http.Header_Get (ReqHeader r) "If-None-Match" = gopath.Base (URL_Path r) →
  rw_sent (writer (serve (getOrHeadHandler node pk config r) s now).2)
  = Some (StatusNotModified, ∅).
Proof.
  intros Hb Hr He. unfold serve, getOrHeadHandler, notBlocked in *.
  destruct (BlockList config) as [f|]; exec; rewrite ?Hb; exec; rewrite Hr; exec;
    rewrite He, bool_decide_eq_true_2 by done; done.
Qed.

(** C3, amended: a request that passes the block list, whose path
    resolves, and whose [If-None-Match] equals the entity tag of the path
    (its last element) gets 304 with no header and no body; the resolution
    is the one store access of the run, and the node is not opened. *)
Theorem notModified_after_resolution (r : Request) s now nd s' :
  notBlocked config (URL_Path r) →
  core_Resolve node (URL_Path r) s = (inl nd, s') →
  http.Header_Get (ReqHeader r) "If-None-Match" = gopath.Base (URL_Path r) →
  let out := serve (getOrHeadHandler node pk config r) s now in
  out.1 = Return
  ∧ writer out.2 = mkResponseWriter ∅ (Some (StatusNotModified, ∅)) ""
  ∧ storeAccesses (calls out.2) = [CallResolve (URL_Path r)]
  ∧ store out.2 = s'.
Proof.
  intros Hb Hr He.
  change (wp (getOrHeadHandler node pk config r) (mkWorld newResponseWriter s now [])
            (λ fl σ', fl = Return
               ∧ writer σ' = mkResponseWriter ∅ (Some (StatusNotModified, ∅)) ""
               ∧ storeAccesses (calls σ') = [CallResolve (URL_Path r)]
               ∧ store σ' = s')).
  unfold getOrHeadHandler, notBlocked in *.
  repeat (wp_step; wp_prune).
Qed.


Lemma getOrHeadCall_scan r now0 ext :
  forallb isScanCall ext = true → Forall (getOrHeadCall r now0) ext.
Proof.
  intros H. apply Forall_forall. intros c Hc.
  apply list_elem_of_In in Hc.
  rewrite forallb_forall in H. specialize (H c Hc). by destruct c.
Qed.

Lemma wp_addUserHeaders (σ : World S) Q :
  Q (Next ()) (mkWorld (mkResponseWriter (Headers config ∪ rw_header (writer σ))
                          (rw_sent (writer σ)) (rw_body (writer σ)))
                 (store σ) (clock σ) (calls σ)) →
  wp (addUserHeaders config) σ Q.
Proof. unfold wp. by rewrite addUserHeaders_run. Qed.

Lemma wp_scanLinks r urlPath originalURLPath links dirListing (σ : World S) Q :
  (∀ fl w' s' t' ext,
     writes (λ k, k = "Location") (writer σ) w' →
     forallb isScanCall ext = true →
     Q fl (mkWorld w' s' t' (calls σ ++ ext))) →
  wp (scanLinks node pk r urlPath originalURLPath links dirListing) σ Q.
Proof.
  intros H. unfold wp.
  destruct (scanLinks_frame r urlPath originalURLPath links dirListing σ)
    as (Hw & ext & Hc & Hext).
  destruct (scanLinks _ _ _ _ _ _ _ σ) as [fl [w' s' t' cs']]. simpl in *. subst cs'.
  by apply H.
Qed.

Ltac wp_run :=
  repeat first
    [ wp_step
    | lazymatch goal with
      | |- wp (addUserHeaders _) _ _ => apply wp_addUserHeaders
      | |- wp (scanLinks _ _ _ _ _ _ _) _ _ =>
          apply wp_scanLinks; intros [[? ?]| |] ? ? ? ? ? ?
      end; wp_simpl ].

(** Every call of a run of [getOrHeadHandler] is one of [getOrHeadCall]. *)
Lemma getOrHead_calls (r : Request) s now0 :
  Forall (getOrHeadCall r now0)
    (calls (serve (getOrHeadHandler node pk config r) s now0).2).
Proof.
  change (wp (getOrHeadHandler node pk config r) (mkWorld newResponseWriter s now0 [])
            (λ _ σ', Forall (getOrHeadCall r now0) (calls σ'))).
  unfold getOrHeadHandler.
  fold (originalURLPathOf r). fold (ipnsHostnameOf r).
  wp_run.
  all: rewrite ?Forall_app, ?Forall_singleton.
  all: repeat split; try done; try (by apply getOrHeadCall_scan).
  all: match goal with H : gopath.Split _ = _ |- _ => by rewrite H end.
Qed.

(** The code's back link of a request that the host-name option did not
    rewrite is the back link of the design notes. *)
Lemma backLinkFor_spec (p : string) : backLinkFor p false = specBackLink p.
Proof.
  unfold backLinkFor, specBackLink.
  destruct (strings.Split p "/") as [|a [|b [|c [|d [|e l]]]]] eqn:E; simpl; try done.
  destruct (decide (d = "")) as [->|Hd].
  - by rewrite !bool_decide_eq_true_2 by auto.
  - rewrite (bool_decide_eq_false_2 (Some d = Some "")) by congruence.
    rewrite (bool_decide_eq_false_2 (_ ∨ _)); [done|].
    intros [?|[_ ?]]; [done|congruence].
Qed.

Lemma Forall_listingsRendered (P : listingTemplateData → Prop) cs :
  Forall (λ c, match c with CallTemplateExecute d => P d | _ => True end) cs →
  Forall P (listingsRendered cs).
Proof.
  induction 1 as [|c cs Hc _ IH]; [constructor|].
  unfold listingsRendered in *. destruct c; simpl; auto.
Qed.

Lemma Forall_modtimesServed (P : Time → Prop) cs :
  Forall (λ c, match c with CallServeContent _ t _ => P t | _ => True end) cs →
  Forall P (modtimesServed cs).
Proof.
  induction 1 as [|c cs Hc _ IH]; [constructor|].
  unfold modtimesServed in *. destruct c; simpl; auto.
Qed.

(** C4, amended: in a run on a request that the host-name option did not
    rewrite (no [X-IPNS-Original-Path]), every directory listing is
    rendered for the path of the request with the back link of the design
    notes: the path itself when its slash-split has 3 parts, or 4 parts
    and an empty last one, and otherwise the path with [/..] appended, or
    [./..] after a final slash. *)
Theorem backLink_of_listing (r : Request) s now0 :
  default [] (ReqHeader r !! "X-IPNS-Original-Path") = [] →
  Forall (λ d, Path d = URL_Path r ∧ BackLink d = specBackLink (URL_Path r))
    (listingsRendered (calls (serve (getOrHeadHandler node pk config r) s now0).2))
  ∧ specBackLink "/ipfs/Qm1" = "/ipfs/Qm1"
  ∧ specBackLink "/ipfs/Qm1/" = "/ipfs/Qm1/"
  ∧ specBackLink "/ipfs/Qm1/a" = "/ipfs/Qm1/a/.."
  ∧ specBackLink "/ipfs/Qm1/a/" = "/ipfs/Qm1/a/./..".
Proof.
  intros Hh. split; [|done].
  apply Forall_listingsRendered.
  eapply Forall_impl; [apply getOrHead_calls|].
  intros [] Hc; try done. destruct Hc as [Hp Hb].
  unfold originalURLPathOf, ipnsHostnameOf in *. rewrite Hh in *.
  by rewrite <- backLinkFor_spec.
Qed.

Lemma pres_addUserHeaders P :
  (∀ h, P h → P (Headers config ∪ h)) →
  preserves (onWriterOf (holdsOfHeaders P)) (addUserHeaders config : Handler S ()).
Proof.
  intros HP σ [Hl Hs]. unfold onWriterOf. rewrite addUserHeaders_run. simpl.
  split; [by apply HP|done].
Qed.

Lemma pres_scanLinks P r urlPath originalURLPath links dirListing :
  (∀ v h, P h → P (http.Header_Set h "Location" v)) →
  preserves (onWriterOf (holdsOfHeaders P))
    (scanLinks node pk r urlPath originalURLPath links dirListing).
Proof.
  intros HP σ Hσ.
  destruct (scanLinks_frame r urlPath originalURLPath links dirListing σ) as [Hw _].
  eapply holds_writes; [|exact Hw|exact Hσ].
  intros key v h Hk Hh. unfold http.Header_Set. rewrite Hk. by apply HP.
Qed.

Ltac pres_step :=
  lazymatch goal with
  | |- preserves _ (mbind _ _) => apply pres_bind; [|intros ?]
  | |- preserves _ (mret _) => apply pres_ret
  | |- preserves _ return_ => apply pres_return
  | |- preserves _ panic => apply pres_panic
  | |- preserves _ (when _ _) => apply pres_when
  | |- preserves _ (index _ _) => apply pres_index
  | |- preserves _ time_Now => apply pres_time_Now
  | |- preserves _ (note _) => apply pres_note
  | |- preserves _ (call _ _) => apply pres_call
  | |- preserves _ (newDagFromReader _ _) => apply pres_call
  | |- preserves _ (webErrorWithCode _ _ _) => apply pres_webErrorWithCode
  | |- preserves _ (webError _ _ _) => apply pres_webError
  | |- preserves _ (internalWebError _) => apply pres_internalWebError
  | |- preserves _ (addUserHeaders _) => apply pres_addUserHeaders; [intros ? ?]
  | |- preserves _ (scanLinks _ _ _ _ _ _ _) => apply pres_scanLinks; [intros ? ? ?]
  | |- preserves _ (onWriter (http.SetHeader _ _)) =>
      apply pres_onWriter; intros ? ?; apply holds_SetHeader; [intros ? ?|assumption]
  | |- preserves _ (onWriter (http.WriteHeader _)) =>
      apply pres_onWriter; intros ? ?; by apply holds_WriteHeader
  | |- preserves _ (onWriter (http.Write _)) =>
      apply pres_onWriter; intros ? ?; by apply holds_Write
  | |- preserves _ (onWriter (http.Redirect _ _ _ _)) =>
      apply pres_onWriter; intros ? ?; apply holds_Redirect; [intros ? ?|assumption]
  | |- preserves _ (match ?x with _ => _ end) => destruct x
  end.

(** No response of [getOrHeadHandler] has an entity tag but the last
    element of the path, under any capitalisation of the key, when the
    operator configures none. *)
Lemma getOrHead_etags (r : Request) s now0 :
  noOperatorEtag config →
  etagsIn (gopath.Base (URL_Path r))
    (http.responseHeader (writer (serve (getOrHeadHandler node pk config r) s now0).2)).
Proof.
  intros Hcfg. apply holds_response.
  cut (preserves (onWriterOf (holdsOfHeaders (etagsIn (gopath.Base (URL_Path r)))))
         (getOrHeadHandler node pk config r)).
  { intros H. apply H. split; [apply etagsIn_empty|done]. }
  unfold getOrHeadHandler.
  repeat pres_step.
  all: try (by apply etagsIn_set).
  all: try (apply etagsIn_other; [|done]; intros E; vm_compute in E; discriminate).
  intros k Hk. rewrite lookup_union, (Hcfg k Hk).
  by destruct (H k Hk) as [-> | [-> ->]]; [left|right].
Qed.

(** A served request for a content-addressed path gets the last element
    of the path as its entity tag. *)
Lemma getOrHead_etag_served (r : Request) s now0 :
  strings.HasPrefix (URL_Path r) ipfsPathPrefix = true →
  served node config r s →
  http.responseHeader (writer (serve (getOrHeadHandler node pk config r) s now0).2)
    !! "Etag" = Some [gopath.Base (URL_Path r)].
Proof.
  intros Hpre (Hb & He & Hlen & nd & s1 & res & s2 & Hr & Hd & Hres).
  change (wp (getOrHeadHandler node pk config r) (mkWorld newResponseWriter s now0 [])
            (λ _ σ', tagSet (gopath.Base (URL_Path r)) (http.responseHeader (writer σ')))).
  unfold getOrHeadHandler, notBlocked in *.
  fold (originalURLPathOf r). fold (ipnsHostnameOf r).
  repeat (first [wp_step | apply wp_addUserHeaders; wp_simpl
                | apply wp_scanLinks; intros [[? ?]| |] ? ? ? ? ? ?; wp_simpl ];
          wp_prune).
  all: try (destruct Hlen as [Hlen|Hlen]; [congruence|];
            apply SplitN_third in Hlen as [? ?]; congruence).
  all: try (by match goal with H : _ ≠ uio_ErrIsDir |- _ => destruct H; apply Hres end).
  all: apply holds_response.
  all: repeat first
         [ apply holds_Write | apply holds_WriteHeader
         | match goal with
           | H : writes _ _ ?w |- holdsOfHeaders _ ?w =>
               eapply holds_writes; [|exact H|]; [intros ? ? ? ? ?|]; clear H
           end
         | apply holds_SetHeader_first; [reflexivity|]
         | apply holds_SetHeader; [intros ? ?|] ].
  all: repeat (apply tagSet_other;
                 [first [done
                        |by match goal with
                            | H : _ (http.CanonicalHeaderKey _) |- _ =>
                                simpl in H; rewrite H
                            end]|]).
  all: try done.
  all: apply lookup_insert_eq.
Qed.

(** C5, amended: two requests for the same content-addressed path that
    are both served, whatever their headers, the state of the store and
    the wall clock, get the same entity tag, the last element of the
    path.  No response to a request for the path, whatever its outcome,
    has another entity tag under any capitalisation of the key, provided
    the operator configures none; but a response need not have the tag:
    the 304 for a matching [If-None-Match] goes out with no header at
    all.  Every file is served with the first second of the Unix epoch as
    its modification time, not with the time of the clock. *)
Theorem etag_and_modtime_fixed (r1 r2 : Request) s1 s2 now1 now2 :
  URL_Path r1 = URL_Path r2 →
  strings.HasPrefix (URL_Path r1) ipfsPathPrefix = true →
  let out1 := serve (getOrHeadHandler node pk config r1) s1 now1 in
  let out2 := serve (getOrHeadHandler node pk config r2) s2 now2 in
  let etag := gopath.Base (URL_Path r1) in
  (served node config r1 s1 → served node config r2 s2 →
     http.responseHeader (writer out1.2) !! "Etag" = Some [etag]
     ∧ http.responseHeader (writer out2.2) !! "Etag" = Some [etag])
  ∧ (noOperatorEtag config →
     etagsIn etag (http.responseHeader (writer out1.2))
     ∧ etagsIn etag (http.responseHeader (writer out2.2)))
  ∧ (∀ nd s', notBlocked config (URL_Path r1) →
       core_Resolve node (URL_Path r1) s1 = (inl nd, s') →
       http.Header_Get (ReqHeader r1) "If-None-Match" = etag →
       http.responseStatus (writer out1.2) = 304
       ∧ http.responseHeader (writer out1.2) = ∅)
  ∧ (∀ t1 t2,
       t1 ∈ modtimesServed (calls out1.2) → t2 ∈ modtimesServed (calls out2.2) →
       t1 = t2 ∧ t1 = time_Unix 1 0).
Proof.
  intros Hp Hpre out1 out2 etag. split_and!.
  - intros H1 H2. split; [by apply getOrHead_etag_served|].
    subst etag. rewrite Hp. apply getOrHead_etag_served; [by rewrite <- Hp|done].
  - intros Hcfg. split; [by apply getOrHead_etags|].
    subst etag. rewrite Hp. by apply getOrHead_etags.
  - intros nd s' Hb Hr He.
    pose proof (getOrHead_notModified r1 s1 now1 nd s' Hb Hr He) as Hs. fold out1 in Hs.
    unfold http.responseStatus, http.responseHeader. by rewrite Hs.
  - assert (Hall : ∀ r s now0, URL_Path r = URL_Path r1 →
              Forall (λ t, t = time_Unix 1 0)
                (modtimesServed (calls (serve (getOrHeadHandler node pk config r) s now0).2))).
    { intros r s now0 Hr. apply Forall_modtimesServed.
      eapply Forall_impl; [apply getOrHead_calls|].
      intros [] Hc; try done. destruct Hc as [_ ->]. by rewrite Hr, Hpre. }
    intros t1 t2 H1 H2.
    pose proof (Hall r1 s1 now1 eq_refl) as A1. pose proof (Hall r2 s2 now2 (eq_sym Hp)) as A2.
    rewrite Forall_forall in A1, A2. rewrite (A1 _ H1), (A2 _ H2). done.
Qed.

(** The scan of the links of a node with an [index.html], for a path
    that does not end in a slash, is the redirect. *)
Lemma scanLinks_index r urlPath originalURLPath links dirListing (σ : World S) n c :
  Exists (λ l, Name l = "index.html") links →
  String.length urlPath = Datatypes.S n → String.get n urlPath = Some c →
  Ascii.eqb c "/" = false →
  scanLinks node pk r urlPath originalURLPath links dirListing σ
  = (Return, mkWorld (http.Redirect (redirectNote pk) r (originalURLPath ++ "/")
                        StatusFound (writer σ))
               (store σ) (clock σ) (calls σ)).
Proof.
  intros Hex Hl Hg Hc. revert dirListing.
  induction links as [|link rest IH]; intros dirListing; [by apply Exists_nil in Hex|].
  simpl. case_bool_decide as Hname.
  - unfold mbind, Handler_bind. rewrite Hl, Hg. simpl. by rewrite Hc.
  - apply IH. by apply Exists_cons in Hex as [?|?].
Qed.

(** C6, amended: for a path that passes the block list and resolves to a
    directory with a link named [index.html], a request whose path does
    not end in a slash and whose [If-None-Match] is not the entity tag of
    the path gets a 302 redirect to the path the client asked for with a
    slash appended, and no directory listing is rendered.  (A path of the
    gateway has a namespace and a key, hence at least three parts; the
    handler indexes the third one for the [Suborigin] header.) *)
Theorem index_redirect (r : Request) s now0 nd s1 s2 :
  notBlocked config (URL_Path r) →
  core_Resolve node (URL_Path r) s = (inl nd, s1) →
  http.Header_Get (ReqHeader r) "If-None-Match" ≠ gopath.Base (URL_Path r) →
  (3 ≤ length (strings.Split (URL_Path r) "/"))%nat →
  NewDagReader node nd s1 = (inr uio_ErrIsDir, s2) →
  Exists (λ l, Name l = "index.html") (Links nd) →
  strings.HasSuffix (URL_Path r) "/" = false →
  let out := serve (getOrHeadHandler node pk config r) s now0 in
  out.1 = Return
  ∧ http.responseStatus (writer out.2) = 302
  ∧ http.responseHeader (writer out.2) !! "Location" = Some [originalURLPathOf r ++ "/"]
  ∧ listingsRendered (calls out.2) = [].
Proof.
  intros Hb Hr He Hlen Hd Hex Hsuf.
  assert (Hne : URL_Path r ≠ "") by (by intros E; rewrite E in Hlen; simpl in Hlen; lia).
  destruct (last_byte_no_slash _ Hne Hsuf) as (n & c & Hl & Hg & Hc).
  destruct (SplitN_third _ _ Hlen) as [root Hroot].
  change (wp (getOrHeadHandler node pk config r) (mkWorld newResponseWriter s now0 [])
            (λ fl σ', fl = Return ∧ http.responseStatus (writer σ') = 302
               ∧ http.responseHeader (writer σ') !! "Location"
                 = Some [originalURLPathOf r ++ "/"]
               ∧ listingsRendered (calls σ') = [])).
  unfold getOrHeadHandler, notBlocked in *.
  fold (originalURLPathOf r). fold (ipnsHostnameOf r).
  repeat (first [wp_step | apply wp_addUserHeaders; wp_simpl]; wp_prune).
  all: unfold wp; rewrite (scanLinks_index _ _ _ _ _ _ _ _ Hex Hl Hg Hc).
  all: cbn [fst snd writer calls]; split; [done|].
  all: match goal with
       | |- http.responseStatus (http.Redirect ?n ?r ?u ?c ?w) = _ ∧ _ =>
           destruct (Redirect_response n r u c w) as [Hst Hloc]; [reflexivity|]
       end.
  all: by rewrite Hst, Hloc.
Qed.

(** The part of C1 that holds: DELETE of [/ipfs] or [/ipfs/] is answered
    405 at once, without a call. *)
Lemma deleteHandler_namespace_root (r : Request) s now0 :
  URL_Path r = "/ipfs" ∨ URL_Path r = ipfsPathPrefix →
  serve (deleteHandler node pk config r) s now0
  = (Return,
     mkWorld (mkResponseWriter ∅ (Some (StatusMethodNotAllowed, ∅))
                ("HTTP DELETE of /ipfs is not meaningful" ++ ": "
                   ++ Error ErrNotMeaningfulOnWritable))
       s now0 []).
Proof. intros [H|H]; unfold serve, deleteHandler; by rewrite H. Qed.

(** The defect behind C1: for a path of two segments the handler writes
    405 and does not return; its next step is the fetch of the root. *)
Lemma deleteHandler_bare_key (r : Request) s now0 p seg0 seg1 :
  URL_Path r ≠ "/ipfs" → URL_Path r ≠ ipfsPathPrefix →
  path_ParsePath pk (URL_Path r) = inl p →
  Path_Segments pk p = [seg0; seg1] →
  seg0 ≠ ipnsPathPrefix →
  let out := serve (deleteHandler node pk config r) s now0 in
  rw_sent (writer out.2) = Some (StatusMethodNotAllowed, ∅)
  ∧ ∃ rest, calls out.2 = CallDagGet (key_B58KeyDecode pk seg1) :: rest.
Proof.
  intros H1 H2 Hp Hs H0.
  change (wp (deleteHandler node pk config r) (mkWorld newResponseWriter s now0 [])
            (λ _ σ', rw_sent (writer σ') = Some (StatusMethodNotAllowed, ∅)
                     ∧ ∃ rest, calls σ' = CallDagGet (key_B58KeyDecode pk seg1) :: rest)).
  unfold deleteHandler.
  repeat (first [wp_step | apply wp_addUserHeaders; wp_simpl];
          rewrite ?Hs in *; simpl lookup in *; wp_prune).
  { exfalso. apply orb_true_iff in H. by destruct H as [H|H]; wp_prune. }
  all: split; [|simpl; eauto].
  all: solve_sent.
Qed.

(** The defect behind C2, for packages whose segments hold no slash (as
    the parts of a slash-split do): the guard against name-addressed paths
    compares segment 0 with [/ipns/] and so never rejects; whatever the
    namespace, a POST whose last segment is not the key of the empty
    directory goes on to the importer, and a DELETE to the fetch of the
    root. *)
Lemma ipns_guard_never_rejects (r : Request) s now0 p seg0 seg1 :
  (∀ q seg, seg ∈ Path_Segments pk q → seg ≠ ipnsPathPrefix) →
  URL_Path r ≠ "/ipfs" → URL_Path r ≠ ipfsPathPrefix →
  path_ParsePath pk (URL_Path r) = inl p →
  Path_Segments pk p !! 0%nat = Some seg0 →
  Path_Segments pk p !! 1%nat = Some seg1 →
  last (Path_Segments pk p) ≠ Some emptyDirKey →
  (∃ rest, calls (serve (postHandler node pk config r) s now0).2
           = CallBuildDagFromReader (Body r) :: rest)
  ∧ (∃ rest, calls (serve (deleteHandler node pk config r) s now0).2
             = CallDagGet (key_B58KeyDecode pk seg1) :: rest).
Proof.
  intros Hfree H1 H2 Hp Hs0 Hs1 Hlast.
  assert (H0 : seg0 ≠ ipnsPathPrefix)
    by (eapply Hfree, list_elem_of_lookup_2, Hs0).
  rewrite last_lookup in Hlast.
  replace (pred (length (Path_Segments pk p)))
    with (length (Path_Segments pk p) - 1)%nat in Hlast by lia.
  split.
  - change (wp (postHandler node pk config r) (mkWorld newResponseWriter s now0 [])
              (λ _ σ', ∃ rest, calls σ' = CallBuildDagFromReader (Body r) :: rest)).
    unfold postHandler.
    repeat (first [wp_step | apply wp_addUserHeaders; wp_simpl]; wp_prune).
    all: simpl; eauto.
    apply lookup_ge_None in H3. apply lookup_lt_Some in Hs0. lia.
  - change (wp (deleteHandler node pk config r) (mkWorld newResponseWriter s now0 [])
              (λ _ σ', ∃ rest, calls σ' = CallDagGet (key_B58KeyDecode pk seg1) :: rest)).
    unfold deleteHandler.
    repeat (first [wp_step | apply wp_addUserHeaders; wp_simpl]; wp_prune).
    all: try (exfalso; apply orb_true_iff in H; by destruct H as [H|H]; wp_prune).
    all: simpl; eauto.
Qed.

(** C7: a POST whose path parses and has the key of the empty directory
    as its last segment never calls the importer; the node it hands to
    the editor for insertion is the empty directory, which has no links,
    and the payload it writes over a resolved node is that of the empty
    directory. *)
Theorem placeholder_creates_empty_directory (r : Request) s now0 p :
  path_ParsePath pk (URL_Path r) = inl p →
  last (Path_Segments pk p) = Some emptyDirKey →
  let out := serve (postHandler node pk config r) s now0 in
  Forall (λ c, isImporterCall c = false) (calls out.2)
  ∧ Forall (λ nd, nd = NewEmptyDirectory pk) (nodesInserted (calls out.2))
  ∧ Forall (λ nd, Data nd = Data (NewEmptyDirectory pk)) (nodesAdded (calls out.2))
  ∧ Links (NewEmptyDirectory pk) = [].
Proof.
  intros Hp Hlast.
  rewrite last_lookup in Hlast.
  replace (pred (length (Path_Segments pk p)))
    with (length (Path_Segments pk p) - 1)%nat in Hlast by lia.
  change (wp (postHandler node pk config r) (mkWorld newResponseWriter s now0 [])
            (λ _ σ',
               Forall (λ c, isImporterCall c = false) (calls σ')
               ∧ Forall (λ nd, nd = NewEmptyDirectory pk) (nodesInserted (calls σ'))
               ∧ Forall (λ nd, Data nd = Data (NewEmptyDirectory pk))
                   (nodesAdded (calls σ'))
               ∧ Links (NewEmptyDirectory pk) = [])).
  unfold postHandler.
  repeat (first [wp_step | apply wp_addUserHeaders; wp_simpl]; wp_prune).
  all: simpl; split_and!; repeat constructor.
Qed.

(** C8: when the path of a POST parses, the new node is built (the empty
    directory for the placeholder key, the importer's node otherwise) and
    the path resolves to a node, the one node added to the store is the
    resolved node with the payload of the new node and its own links; the
    key the store returns for it is the [IPFS-Hash] header of the 201
    response and the root of its [Location]. *)
Theorem post_replaces_data (r : Request) s now0 p seg0 segs newnode s1 rnd s2 newkey s3 :
  path_ParsePath pk (URL_Path r) = inl p →
  Path_Segments pk p = seg0 :: segs →
  seg0 ≠ ipnsPathPrefix →
  (last (seg0 :: segs) = Some emptyDirKey ∧ newnode = NewEmptyDirectory pk ∧ s1 = s)
  ∨ (last (seg0 :: segs) ≠ Some emptyDirKey
     ∧ BuildDagFromReader node (Body r) s = (inl newnode, s1)) →
  core_Resolve node p s1 = (inl rnd, s2) →
  DAG_Add node (mkNode (Data newnode) (Links rnd)) s2 = (inl newkey, s3) →
  let out := serve (postHandler node pk config r) s now0 in
  out.1 = Next ()
  ∧ nodesAdded (calls out.2) = [mkNode (Data newnode) (Links rnd)]
  ∧ nodesInserted (calls out.2) = []
  ∧ store out.2 = s3
  ∧ rw_sent (writer out.2)
    = Some (StatusCreated,
            http.Header_Set
              (http.Header_Set (Headers config ∪ ∅) "IPFS-Hash" (Key_String pk newkey))
              "Location"
              (gopath.Join [ipfsPathPrefix; Key_String pk newkey;
                            gopath.Join (drop 2 (seg0 :: segs))])).
Proof.
  intros Hp Hs H0 Hnew Hr Ha.
  rewrite !last_lookup in Hnew.
  replace (pred (length (seg0 :: segs)))
    with (length (seg0 :: segs) - 1)%nat in Hnew by (simpl; lia).
  change (wp (postHandler node pk config r) (mkWorld newResponseWriter s now0 [])
            (λ fl σ',
               fl = Next ()
               ∧ nodesAdded (calls σ') = [mkNode (Data newnode) (Links rnd)]
               ∧ nodesInserted (calls σ') = []
               ∧ store σ' = s3
               ∧ rw_sent (writer σ')
                 = Some (StatusCreated,
                         http.Header_Set
                           (http.Header_Set (Headers config ∪ ∅) "IPFS-Hash"
                              (Key_String pk newkey))
                           "Location"
                           (gopath.Join [ipfsPathPrefix; Key_String pk newkey;
                                         gopath.Join (drop 2 (seg0 :: segs))])))).
  unfold postHandler.
  destruct Hnew as [(Hl & -> & ->)|(Hl & Hb)].
  all: repeat (first [wp_step | apply wp_addUserHeaders; wp_simpl];
               rewrite ?Hs in *; simpl lookup in *; wp_prune).
  all: try (exfalso;
            match goal with
            | H : _ !! _ = None |- _ => apply lookup_ge_None in H; simpl in H; lia
            end).
  all: rewrite newPath_join; split_and!; try done.
  all: by rewrite sent_Redirect_first.
Qed.

(** Past its early exits, [getOrHeadHandler] sends the operator's
    headers, whatever the response then is. *)
Lemma getOrHead_carries (r : Request) s now0 nd s1 :
  notBlocked config (URL_Path r) →
  core_Resolve node (URL_Path r) s = (inl nd, s1) →
  http.Header_Get (ReqHeader r) "If-None-Match" ≠ gopath.Base (URL_Path r) →
  carriesUserHeaders config getOrHeadKeys
    (http.responseHeader (writer (serve (getOrHeadHandler node pk config r) s now0).2)).
Proof.
  intros Hb Hr He.
  change (wp (getOrHeadHandler node pk config r) (mkWorld newResponseWriter s now0 [])
            (λ _ σ', carriesUserHeaders config getOrHeadKeys
                       (http.responseHeader (writer σ')))).
  unfold getOrHeadHandler, notBlocked in *.
  repeat (wp_step; wp_prune).
  all: apply wp_addUserHeaders; wp_simpl.
  all: apply (wp_preserves
                (onWriterOf (holdsOfHeaders (carriesUserHeaders config getOrHeadKeys))));
    [split; [apply carries_union|done]| |by intros ? ? ?%holds_response].
  all: repeat pres_step.
  all: try (apply carries_set; [|done]).
  all: try (by vm_compute; repeat constructor).
Qed.

(** An error of [webError] is never the 201 of a mutation. *)
Lemma webError_code_not_created (code defaultCode : Z) :
  code ∈ [StatusNotFound; StatusRequestTimeout; defaultCode] →
  defaultCode ≠ StatusCreated → code ≠ StatusCreated.
Proof.
  intros Hin Hd. apply list_elem_of_In in Hin. simpl in Hin.
  destruct Hin as [<-|[<-|[<-|[]]]]; done.
Qed.

(** What a mutation handler may have sent: a 201 with the operator's
    headers, or another status with no header at all. *)
Lemma mutation_sent_error code w h c :
  c ≠ StatusCreated →
  rw_sent w = Some (c, ∅) →
  rw_sent w = Some (code, h) →
  (code = StatusCreated → carriesUserHeaders config mutationKeys h)
  ∧ (code ≠ StatusCreated → h = ∅).
Proof. intros Hc H1 H2. rewrite H1 in H2. by simplify_eq. Qed.

Lemma mutation_sent_created note r url k code h :
  rw_sent (http.Redirect note r url StatusCreated
             (http.SetHeader "IPFS-Hash" k
                (mkResponseWriter (Headers config ∪ ∅) None ""))) = Some (code, h) →
  (code = StatusCreated → carriesUserHeaders config mutationKeys h)
  ∧ (code ≠ StatusCreated → h = ∅).
Proof.
  rewrite sent_Redirect_first by done. intros [= <- <-]. split; [intros _|done].
  apply carries_set; [by vm_compute; repeat constructor|].
  apply carries_set; [by vm_compute; repeat constructor|].
  apply carries_union.
Qed.

Ltac solve_mutation :=
  first
    [ apply mutation_sent_created
    | match goal with
      | Hc : ?c ∈ [_; _; ?d] |- rw_sent _ = Some (_, _) → _ =>
          apply (mutation_sent_error _ _ _ c);
            [by apply (webError_code_not_created c d)|solve_sent]
      end
    | apply (mutation_sent_error _ _ _ StatusMethodNotAllowed); [done|solve_sent] ].

Lemma postHandler_headers (r : Request) s now0 code h :
  rw_sent (writer (serve (postHandler node pk config r) s now0).2) = Some (code, h) →
  (code = StatusCreated → carriesUserHeaders config mutationKeys h)
  ∧ (code ≠ StatusCreated → h = ∅).
Proof.
  change (wp (postHandler node pk config r) (mkWorld newResponseWriter s now0 [])
            (λ _ σ', rw_sent (writer σ') = Some (code, h) →
               (code = StatusCreated → carriesUserHeaders config mutationKeys h)
               ∧ (code ≠ StatusCreated → h = ∅))).
  unfold postHandler.
  repeat (first [wp_step | apply wp_addUserHeaders; wp_simpl]; wp_prune).
  all: solve_mutation.
Qed.

Lemma deleteHandler_headers (r : Request) s now0 code h :
  rw_sent (writer (serve (deleteHandler node pk config r) s now0).2) = Some (code, h) →
  (code = StatusCreated → carriesUserHeaders config mutationKeys h)
  ∧ (code ≠ StatusCreated → h = ∅).
Proof.
  change (wp (deleteHandler node pk config r) (mkWorld newResponseWriter s now0 [])
            (λ _ σ', rw_sent (writer σ') = Some (code, h) →
               (code = StatusCreated → carriesUserHeaders config mutationKeys h)
               ∧ (code ≠ StatusCreated → h = ∅))).
  unfold deleteHandler.
  repeat (first [wp_step | apply wp_addUserHeaders; wp_simpl]; wp_prune).
  all: try match goal with H : rw_sent _ = Some _ |- _ => revert H end.
  all: solve_mutation.
Qed.

(** C10, amended: the operator's headers are added at one point of each
    handler and are in every response sent from there on.  For GET and
    HEAD that point is past the block list, the resolution and the
    [If-None-Match] check: the 403, the response to a failed resolution
    and the 304 go out with no header, and every later response (the
    file, the listing, the index page, but also the 302 and the 500s
    raised from there on) carries them, but for the keys the handler sets
    itself.  For POST and DELETE the point is just before the 201: a 201
    carries them, any other status goes out with no header. *)
Theorem user_headers_from_a_fixed_point (r : Request) s now0 :
  let get := serve (getOrHeadHandler node pk config r) s now0 in
  let post := serve (postHandler node pk config r) s now0 in
  let del := serve (deleteHandler node pk config r) s now0 in
  (∀ ShouldBlock, BlockList config = Some ShouldBlock → ShouldBlock (URL_Path r) = true →
     rw_sent (writer get.2) = Some (StatusForbidden, ∅))
  ∧ (∀ err s1, notBlocked config (URL_Path r) →
       core_Resolve node (URL_Path r) s = (inr err, s1) →
       ∃ code, code ∈ [400; 404; 408] ∧ rw_sent (writer get.2) = Some (code, ∅))
  ∧ (∀ nd s1, notBlocked config (URL_Path r) →
       core_Resolve node (URL_Path r) s = (inl nd, s1) →
       http.Header_Get (ReqHeader r) "If-None-Match" = gopath.Base (URL_Path r) →
       rw_sent (writer get.2) = Some (StatusNotModified, ∅))
  ∧ (∀ nd s1, notBlocked config (URL_Path r) →
       core_Resolve node (URL_Path r) s = (inl nd, s1) →
       http.Header_Get (ReqHeader r) "If-None-Match" ≠ gopath.Base (URL_Path r) →
       carriesUserHeaders config getOrHeadKeys (http.responseHeader (writer get.2)))
  ∧ (∀ code h, rw_sent (writer post.2) = Some (code, h) →
       (code = StatusCreated → carriesUserHeaders config mutationKeys h)
       ∧ (code ≠ StatusCreated → h = ∅))
  ∧ (∀ code h, rw_sent (writer del.2) = Some (code, h) →
       (code = StatusCreated → carriesUserHeaders config mutationKeys h)
       ∧ (code ≠ StatusCreated → h = ∅)).
Proof.
  intros get post del. split_and!.
  - intros f Hf Hb. unfold get. by rewrite (getOrHead_blocked r s now0 f Hf Hb).
  - intros err s1 Hb Hr.
    destruct (getOrHead_unresolved r s now0 err s1 Hb Hr) as (_ & Hs & _).
    eexists. split; [|exact Hs]. destruct err; set_solver.
  - intros nd s1 Hb Hr He.
    by apply (getOrHead_notModified r s now0 nd s1).
  - intros nd s1 Hb Hr He. by apply (getOrHead_carries r s now0 nd s1).
  - apply postHandler_headers.
  - apply deleteHandler_headers.
Qed.

End Facts.

(** The guard never rejects on the slash-split segments of [Mem]. *)
Lemma slash_split_guard_never_rejects (config : GatewayConfig) (r : Request) s now0
    p seg0 seg1 :
  URL_Path r ≠ "/ipfs" → URL_Path r ≠ ipfsPathPrefix →
  Mem.ParsePath (URL_Path r) = inl p →
  Mem.Segments p !! 0%nat = Some seg0 →
  Mem.Segments p !! 1%nat = Some seg1 →
  last (Mem.Segments p) ≠ Some emptyDirKey →
  (∃ rest, calls (serve (postHandler Mem.node Mem.packages config r) s now0).2
           = CallBuildDagFromReader (Body r) :: rest)
  ∧ (∃ rest, calls (serve (deleteHandler Mem.node Mem.packages config r) s now0).2
             = CallDagGet seg1 :: rest).
Proof.
  intros. eapply (ipns_guard_never_rejects Mem.node Mem.packages); try done.
  intros q seg. apply Segments_not_ipnsPathPrefix.
Qed.

(** ** The theorems at work on the in-memory node *)

Lemma webError_classifies_witness :
  http.responseStatus
    (writer (serve (webError "Path Resolve error" (path_ErrNoLink "a" "Qm1") 400)
               Mem.blocks Mem.now).2) = 404.
Proof. apply (webError_classifies (S := Mem.Store)). Defined.

(** C1, the defect at work: DELETE of the bare key [/ipfs/Qm1] is answered
    405, and the handler goes on to fetch the root from the store and to
    call the editor. *)
Theorem delete_bare_key_reaches_store :
  http.responseStatus
    (writer (serve (deleteHandler Mem.node Mem.packages Mem.config Mem.deleteBareKey)
               Mem.blocks Mem.now).2) = 405
  ∧ storeAccesses
      (calls (serve (deleteHandler Mem.node Mem.packages Mem.config Mem.deleteBareKey)
                Mem.blocks Mem.now).2)
    = [CallDagGet "Qm1"; CallRmLink Mem.root1 ""].
Proof. split; reflexivity. Qed.

(** C2, the defect at work: a POST and a DELETE on paths of the
    name-addressed namespace are not rejected; the POST calls the importer
    first, the DELETE fetches the root, and both are answered 201. *)
Theorem ipns_mutation_not_rejected :
  http.responseStatus
    (writer (serve (postHandler Mem.node Mem.packages Mem.config Mem.postNamed)
               Mem.blocks Mem.now).2) = 201
  ∧ head (calls (serve (postHandler Mem.node Mem.packages Mem.config Mem.postNamed)
                   Mem.blocks Mem.now).2)
    = Some (CallBuildDagFromReader "body")
  ∧ http.responseStatus
      (writer (serve (deleteHandler Mem.node Mem.packages Mem.config Mem.deleteNamed)
                 Mem.blocks Mem.now).2) = 201
  ∧ head (calls (serve (deleteHandler Mem.node Mem.packages Mem.config Mem.deleteNamed)
                   Mem.blocks Mem.now).2)
    = Some (CallDagGet "example.net").
Proof. split_and!; reflexivity. Qed.

Lemma notModified_after_resolution_witness :
  notBlocked Mem.config (URL_Path Mem.getDirWithTag)
  ∧ core_Resolve Mem.node (URL_Path Mem.getDirWithTag) Mem.blocks = (inl Mem.root2, Mem.blocks)
  ∧ http.Header_Get (ReqHeader Mem.getDirWithTag) "If-None-Match"
    = gopath.Base (URL_Path Mem.getDirWithTag)
  ∧ storeAccesses
      (calls (serve (getOrHeadHandler Mem.node Mem.packages Mem.config Mem.getDirWithTag)
                Mem.blocks Mem.now).2)
    = [CallResolve "/ipfs/Qm2"].
Proof.
  split_and!; [exact I|reflexivity..|].
  apply (notModified_after_resolution Mem.node Mem.packages Mem.config Mem.getDirWithTag
           Mem.blocks Mem.now Mem.root2 Mem.blocks); [exact I|reflexivity..].
Defined.

(** C3 as stated fails: with the entity tag of the path in
    [If-None-Match], the 304 for a directory comes after the resolution
    has gone to the store, and a path that does not resolve gets 404. *)
Lemma notModified_before_store_access_fails :
  http.Header_Get (ReqHeader Mem.getDirWithTag) "If-None-Match"
  = gopath.Base (URL_Path Mem.getDirWithTag)
  ∧ ¬ (http.responseStatus
         (writer (serve (getOrHeadHandler Mem.node Mem.packages Mem.config Mem.getDirWithTag)
                    Mem.blocks Mem.now).2) = 304
       ∧ storeAccesses
           (calls (serve (getOrHeadHandler Mem.node Mem.packages Mem.config
                            Mem.getDirWithTag) Mem.blocks Mem.now).2) = [])
  ∧ http.Header_Get (ReqHeader Mem.getMissingWithTag) "If-None-Match"
    = gopath.Base (URL_Path Mem.getMissingWithTag)
  ∧ http.responseStatus
      (writer (serve (getOrHeadHandler Mem.node Mem.packages Mem.config
                        Mem.getMissingWithTag) Mem.blocks Mem.now).2) = 404.
Proof.
  split_and!; [reflexivity| |reflexivity..].
  intros [_ H]. vm_compute in H. discriminate.
Qed.

Lemma backLink_of_listing_witness :
  default [] (ReqHeader Mem.getSubDir !! "X-IPNS-Original-Path") = []
  ∧ listingsRendered
      (calls (serve (getOrHeadHandler Mem.node Mem.packages Mem.config Mem.getSubDir)
                Mem.blocks Mem.now).2)
    = [mkListingTemplateData [] "/ipfs/Qm1/a" "/ipfs/Qm1/a/.."]
  ∧ Forall (λ d, Path d = "/ipfs/Qm1/a" ∧ BackLink d = specBackLink "/ipfs/Qm1/a")
      (listingsRendered
         (calls (serve (getOrHeadHandler Mem.node Mem.packages Mem.config Mem.getSubDir)
                   Mem.blocks Mem.now).2)).
Proof.
  split_and!; [reflexivity..|].
  apply (backLink_of_listing Mem.node Mem.packages Mem.config Mem.getSubDir
           Mem.blocks Mem.now). reflexivity.
Defined.

(** C4 as stated fails: for a request that the host-name option rewrote,
    the listing is rendered with the back link rebuilt from the segments
    after the key, here [/], and not with the path and [/..]. *)
Lemma backLink_of_rewritten_request :
  listingsRendered
    (calls (serve (getOrHeadHandler Mem.node Mem.packages Mem.config Mem.getRewritten)
              Mem.blocks Mem.now).2)
  = [mkListingTemplateData [] "/a" "/"]
  ∧ ¬ Forall (λ d, BackLink d = specBackLink (URL_Path Mem.getRewritten))
        (listingsRendered
           (calls (serve (getOrHeadHandler Mem.node Mem.packages Mem.config
                            Mem.getRewritten) Mem.blocks Mem.now).2)).
Proof.
  split; [reflexivity|].
  intros H. vm_compute in H. apply Forall_cons in H as [H _]. discriminate.
Qed.

Lemma served_getFile : served Mem.node Mem.config Mem.getFile Mem.blocks.
Proof.
  split_and!; [exact I|by intros E; vm_compute in E|right; vm_compute; lia|].
  exists Mem.fileX, Mem.blocks, (inl (mkDagReader "hello")), Mem.blocks.
  split_and!; [reflexivity..|done].
Qed.

Lemma served_headFile : served Mem.node Mem.config Mem.headFile Mem.blocks.
Proof.
  split_and!; [exact I|by intros E; vm_compute in E|right; vm_compute; lia|].
  exists Mem.fileX, Mem.blocks, (inl (mkDagReader "hello")), Mem.blocks.
  split_and!; [reflexivity..|done].
Qed.

Lemma noOperatorEtag_Mem : noOperatorEtag Mem.config.
Proof.
  intros k Hk. apply lookup_singleton_ne. intros <-. vm_compute in Hk. discriminate.
Qed.

Lemma etag_and_modtime_fixed_witness :
  URL_Path Mem.getFile = URL_Path Mem.headFile
  ∧ strings.HasPrefix (URL_Path Mem.getFile) ipfsPathPrefix = true
  ∧ modtimesServed
      (calls (serve (getOrHeadHandler Mem.node Mem.packages Mem.config Mem.headFile)
                Mem.blocks Mem.later).2) = [time_Unix 1 0]
  ∧ http.responseHeader
      (writer (serve (getOrHeadHandler Mem.node Mem.packages Mem.config Mem.getFile)
                 Mem.blocks Mem.now).2) !! "Etag" = Some [gopath.Base "/ipfs/Qm1/x"]
  ∧ http.responseHeader
      (writer (serve (getOrHeadHandler Mem.node Mem.packages Mem.config Mem.headFile)
                 Mem.blocks Mem.later).2) !! "Etag" = Some [gopath.Base "/ipfs/Qm1/x"]
  ∧ etagsIn (gopath.Base "/ipfs/Qm1/x")
      (http.responseHeader
         (writer (serve (getOrHeadHandler Mem.node Mem.packages Mem.config Mem.getFile)
                    Mem.blocks Mem.now).2)).
Proof.
  destruct (etag_and_modtime_fixed Mem.node Mem.packages Mem.config
              Mem.getFile Mem.headFile Mem.blocks Mem.blocks Mem.now Mem.later
              eq_refl eq_refl) as (H1 & H2 & _ & _).
  destruct (H1 served_getFile served_headFile) as [Ha Hb].
  destruct (H2 noOperatorEtag_Mem) as [Hc _].
  split_and!; [reflexivity..|exact Ha|exact Hb|exact Hc].
Defined.

(** C5 as stated fails: of two requests for the same content-addressed
    path, the one without [If-None-Match] gets the entity tag of the path
    with its 200, and the one with that tag in [If-None-Match] gets 304
    and no entity tag. *)
Lemma etag_absent_when_not_modified :
  URL_Path Mem.getFile = URL_Path Examples.getFileWithTag
  ∧ strings.HasPrefix (URL_Path Mem.getFile) ipfsPathPrefix = true
  ∧ http.responseStatus
      (writer (serve (getOrHeadHandler Mem.node Mem.packages Mem.config Mem.getFile)
                 Mem.blocks Mem.now).2) = 200
  ∧ http.responseHeader
      (writer (serve (getOrHeadHandler Mem.node Mem.packages Mem.config Mem.getFile)
                 Mem.blocks Mem.now).2) !! "Etag" = Some ["x"]
  ∧ http.responseStatus
      (writer (serve (getOrHeadHandler Mem.node Mem.packages Mem.config
                        Examples.getFileWithTag) Mem.blocks Mem.now).2) = 304
  ∧ http.responseHeader
      (writer (serve (getOrHeadHandler Mem.node Mem.packages Mem.config
                        Examples.getFileWithTag) Mem.blocks Mem.now).2) !! "Etag" = None
  ∧ ¬ (http.responseHeader
         (writer (serve (getOrHeadHandler Mem.node Mem.packages Mem.config Mem.getFile)
                    Mem.blocks Mem.now).2) !! "Etag"
       = http.responseHeader
           (writer (serve (getOrHeadHandler Mem.node Mem.packages Mem.config
                             Examples.getFileWithTag) Mem.blocks Mem.now).2) !! "Etag").
Proof.
  split_and!; [reflexivity..|]. intros H. vm_compute in H. discriminate.
Qed.

(** Why the amended C5 asks that the operator configure no entity tag:
    a key [ETag] of the operator is assigned as it is written, so that it
    goes out beside the [Etag] of the handler with a file, and alone with
    the 500 for a block that is no unixfs node. *)
Lemma operator_etag_beside_the_handlers :
  Headers Examples.taggingConfig !! "Etag" = None
  ∧ http.responseHeader
      (writer (serve (getOrHeadHandler Mem.node Mem.packages Examples.taggingConfig
                        Mem.getFile) Mem.blocks Mem.now).2) !! "Etag" = Some ["x"]
  ∧ http.responseHeader
      (writer (serve (getOrHeadHandler Mem.node Mem.packages Examples.taggingConfig
                        Mem.getFile) Mem.blocks Mem.now).2) !! "ETag" = Some ["operator"]
  ∧ http.responseStatus
      (writer (serve (getOrHeadHandler Mem.node Mem.packages Examples.taggingConfig
                        Mem.getRawBlock) Mem.blocks Mem.now).2) = 500
  ∧ http.responseHeader
      (writer (serve (getOrHeadHandler Mem.node Mem.packages Examples.taggingConfig
                        Mem.getRawBlock) Mem.blocks Mem.now).2) !! "ETag" = Some ["operator"]
  ∧ http.responseHeader
      (writer (serve (getOrHeadHandler Mem.node Mem.packages Examples.taggingConfig
                        Mem.getRawBlock) Mem.blocks Mem.now).2) !! "Etag" = None.
Proof. split_and!; reflexivity. Qed.

Lemma index_redirect_witness :
  http.responseStatus
    (writer (serve (getOrHeadHandler Mem.node Mem.packages Mem.config Mem.getIndexDir)
               Mem.blocks Mem.now).2) = 302
  ∧ http.responseHeader
      (writer (serve (getOrHeadHandler Mem.node Mem.packages Mem.config Mem.getIndexDir)
                 Mem.blocks Mem.now).2) !! "Location" = Some ["/ipfs/Qm2/"].
Proof.
  assert (H := index_redirect Mem.node Mem.packages Mem.config Mem.getIndexDir
                 Mem.blocks Mem.now Mem.root2 Mem.blocks Mem.blocks).
  destruct H as (_ & Hs & Hl & _).
  - exact I.
  - reflexivity.
  - intros E. vm_compute in E. discriminate.
  - vm_compute. lia.
  - reflexivity.
  - apply Exists_cons_tl, Exists_cons_hd. reflexivity.
  - reflexivity.
  - split; [exact Hs|exact Hl].
Defined.

(** C6 as stated fails: a directory with an [index.html], asked for
    without a final slash but with its entity tag in [If-None-Match], gets
    304 and no redirect. *)
Lemma index_redirect_not_always :
  core_Resolve Mem.node (URL_Path Mem.getDirWithTag) Mem.blocks = (inl Mem.root2, Mem.blocks)
  ∧ NewDagReader Mem.node Mem.root2 Mem.blocks = (inr uio_ErrIsDir, Mem.blocks)
  ∧ Exists (λ l, Name l = "index.html") (Links Mem.root2)
  ∧ strings.HasSuffix (URL_Path Mem.getDirWithTag) "/" = false
  ∧ Method Mem.getDirWithTag = "GET"
  ∧ ¬ (http.responseStatus
         (writer (serve (getOrHeadHandler Mem.node Mem.packages Mem.config
                           Mem.getDirWithTag) Mem.blocks Mem.now).2) = 302).
Proof.
  split_and!; [reflexivity..| |reflexivity|reflexivity|].
  - apply Exists_cons_tl, Exists_cons_hd. reflexivity.
  - intros H. vm_compute in H. discriminate.
Qed.

Lemma placeholder_creates_empty_directory_witness :
  path_ParsePath Mem.packages (URL_Path Mem.postEmptyDir) = inl (URL_Path Mem.postEmptyDir)
  ∧ last (Path_Segments Mem.packages (URL_Path Mem.postEmptyDir)) = Some emptyDirKey
  ∧ nodesInserted
      (calls (serve (postHandler Mem.node Mem.packages Mem.config Mem.postEmptyDir)
                Mem.blocks Mem.now).2) = [mkNode Mem.folderData []]
  ∧ Forall (λ c, isImporterCall c = false)
      (calls (serve (postHandler Mem.node Mem.packages Mem.config Mem.postEmptyDir)
                Mem.blocks Mem.now).2).
Proof.
  split_and!; [reflexivity..|].
  apply (placeholder_creates_empty_directory Mem.node Mem.packages Mem.config
           Mem.postEmptyDir Mem.blocks Mem.now (URL_Path Mem.postEmptyDir));
    reflexivity.
Defined.

Lemma post_replaces_data_witness :
  nodesAdded
    (calls (serve (postHandler Mem.node Mem.packages Mem.config Mem.postFile)
              Mem.blocks Mem.now).2)
  = [mkNode (Mem.fileData "body") (Links Mem.fileX)]
  ∧ http.responseStatus
      (writer (serve (postHandler Mem.node Mem.packages Mem.config Mem.postFile)
                 Mem.blocks Mem.now).2) = 201
  ∧ http.responseHeader
      (writer (serve (postHandler Mem.node Mem.packages Mem.config Mem.postFile)
                 Mem.blocks Mem.now).2) !! "Ipfs-Hash"
    = Some [Mem.keyOf (mkNode (Mem.fileData "body") [])].
Proof.
  pose (new := mkNode (Mem.fileData "body") []).
  pose (s1 := (Mem.add new Mem.blocks).2).
  destruct (post_replaces_data Mem.node Mem.packages Mem.config Mem.postFile
              Mem.blocks Mem.now "/ipfs/Qm1/x" "ipfs" ["Qm1"; "x"] new s1 Mem.fileX s1
              (Mem.keyOf new) (Mem.add new s1).2)
    as (_ & Hadd & _ & _ & Hsent).
  - reflexivity.
  - reflexivity.
  - by intros E.
  - right. split; [by intros E|reflexivity].
  - reflexivity.
  - reflexivity.
  - split_and!; [exact Hadd|..].
    + unfold http.responseStatus. by rewrite Hsent.
    + unfold http.responseHeader. rewrite Hsent. reflexivity.
Defined.

Lemma user_headers_from_a_fixed_point_witness :
  Headers Mem.config !! "X-Op" = Some ["1"]
  ∧ http.responseStatus
      (writer (serve (getOrHeadHandler Mem.node Mem.packages Mem.config Mem.getFile)
                 Mem.blocks Mem.now).2) = 200
  ∧ carriesUserHeaders Mem.config getOrHeadKeys
      (http.responseHeader
         (writer (serve (getOrHeadHandler Mem.node Mem.packages Mem.config Mem.getFile)
                    Mem.blocks Mem.now).2)).
Proof.
  split_and!; [reflexivity..|].
  destruct (user_headers_from_a_fixed_point Mem.node Mem.packages Mem.config Mem.getFile
              Mem.blocks Mem.now) as (_ & _ & _ & H & _).
  apply (H Mem.fileX Mem.blocks); [exact I|reflexivity|by intros E; vm_compute in E].
Defined.

(** C10 as stated fails: a block that is no unixfs node is answered 500,
    and the directory with an index page 302, both with the operator's
    header. *)
Lemma error_response_with_user_headers :
  Headers Mem.config !! "X-Op" = Some ["1"]
  ∧ http.responseStatus
      (writer (serve (getOrHeadHandler Mem.node Mem.packages Mem.config Mem.getRawBlock)
                 Mem.blocks Mem.now).2) = 500
  ∧ ¬ (http.responseHeader
         (writer (serve (getOrHeadHandler Mem.node Mem.packages Mem.config
                           Mem.getRawBlock) Mem.blocks Mem.now).2) !! "X-Op" = None)
  ∧ http.responseStatus
      (writer (serve (getOrHeadHandler Mem.node Mem.packages Mem.config Mem.getIndexDir)
                 Mem.blocks Mem.now).2) = 302
  ∧ ¬ (http.responseHeader
         (writer (serve (getOrHeadHandler Mem.node Mem.packages Mem.config
                           Mem.getIndexDir) Mem.blocks Mem.now).2) !! "X-Op" = None).
Proof.
  split_and!; [reflexivity..| |reflexivity|]; intros H; vm_compute in H; discriminate.
Qed.

(** * Further properties of the handlers *)

(** ** More facts on strings *)

(** A part of [SplitN] before the last one is a part of the full split,
    and holds no separator. *)
Lemma SplitN_part (p : string) (sep : ascii) (n i : nat) (x : string) :
  (i < n)%nat → strings.SplitN p sep (Datatypes.S n) !! i = Some x →
  x ∈ strings.Split p sep.
Proof.
  intros Hi. unfold strings.SplitN.
  destruct (length (strings.Split p sep) <=? Datatypes.S n)%nat eqn:E.
  - apply list_elem_of_lookup_2.
  - apply Nat.leb_gt in E. rewrite lookup_app_l by (rewrite length_take; lia).
    rewrite lookup_take_lt by done. apply list_elem_of_lookup_2.
Qed.

Lemma SplitN_no_sep (p : string) (sep : ascii) (x : string) :
  strings.SplitN p sep 4 !! 2%nat = Some x → sep ∉ list_ascii_of_string x.
Proof.
  intros H. apply SplitN_part in H; [|lia].
  pose proof (Split_no_sep p sep) as Hall. rewrite Forall_forall in Hall. by apply Hall.
Qed.

(** ** The dispatch of [ServeHTTP] *)

Section Dispatch.
Context {S : Type} (node : IpfsNode S) (pk : Packages) (config : GatewayConfig).

Ltac wp_invoke_step :=
  lazymatch goal with
  | |- wp (invoke ?m) ?σ _ =>
      apply wp_invoke; unfold wp at 1; destruct (m σ) as [[[]| |] ?]; wp_simpl
  end.

Ltac method_cases :=
  repeat match goal with
    | H : _ || _ = true |- _ => apply orb_true_iff in H; destruct H
    | H : _ || _ = false |- _ => apply orb_false_iff in H; destruct H
    | H : _ ∨ _ |- _ => destruct H
    end; wp_prune.

(** A GET or a HEAD is handed to [getOrHeadHandler], whatever the
    gateway; the world [ServeHTTP] leaves is the one the handler leaves. *)
Lemma ServeHTTP_get (r : Request) (σ : World S) :
  Method r = "GET" ∨ Method r = "HEAD" →
  let out := getOrHeadHandler node pk config r σ in
  (ServeHTTP node pk config r σ).1 = match out.1 with Panic => Panic | _ => Return end
  ∧ (ServeHTTP node pk config r σ).2 = out.2.
Proof.
  intros Hm out.
  change (wp (ServeHTTP node pk config r) σ
            (λ fl σ', fl = match out.1 with Panic => Panic | _ => Return end ∧ σ' = out.2)).
  unfold ServeHTTP. subst out.
  repeat (first [wp_step | wp_invoke_step]; method_cases).
  all: try (destruct Hm; congruence).
Qed.

Lemma ServeHTTP_post (r : Request) (σ : World S) :
  Writable config = true → Method r = "POST" →
  let out := postHandler node pk config r σ in
  (ServeHTTP node pk config r σ).1 = match out.1 with Panic => Panic | _ => Return end
  ∧ (ServeHTTP node pk config r σ).2 = out.2.
Proof.
  intros Hw Hm out.
  change (wp (ServeHTTP node pk config r) σ
            (λ fl σ', fl = match out.1 with Panic => Panic | _ => Return end ∧ σ' = out.2)).
  unfold ServeHTTP. subst out.
  repeat (first [wp_step | wp_invoke_step]; method_cases).
Qed.

Lemma ServeHTTP_delete (r : Request) (σ : World S) :
  Writable config = true → Method r = "DELETE" →
  let out := deleteHandler node pk config r σ in
  (ServeHTTP node pk config r σ).1 = match out.1 with Panic => Panic | _ => Return end
  ∧ (ServeHTTP node pk config r σ).2 = out.2.
Proof.
  intros Hw Hm out.
  change (wp (ServeHTTP node pk config r) σ
            (λ fl σ', fl = match out.1 with Panic => Panic | _ => Return end ∧ σ' = out.2)).
  unfold ServeHTTP. subst out.
  repeat (first [wp_step | wp_invoke_step]; method_cases).
  all: congruence.
Qed.

Lemma wp_eq {A} (m : Handler S A) σ fl σ' :
  wp m σ (λ fl0 σ0, fl0 = fl ∧ σ0 = σ') → m σ = (fl, σ').
Proof. unfold wp. destruct (m σ) as [? ?]. simpl. by intros [-> ->]. Qed.

(** X1: a gateway that is not writable answers every method other than
    GET and HEAD with 405 and the text [Method <m> not allowed: read only
    access]; it sends no header, makes no call and leaves the store as it
    is. *)
Theorem read_only_rejects_method (r : Request) s now0 :
  Writable config = false → Method r ≠ "GET" → Method r ≠ "HEAD" →
  serve (ServeHTTP node pk config r) s now0
  = (Next (),
     mkWorld (mkResponseWriter ∅ (Some (StatusMethodNotAllowed, ∅))
                (("Method " ++ Method r ++ " not allowed: ") ++ "read only access"))
       s now0 []).
Proof.
  intros Hw Hg Hh. unfold serve. apply wp_eq. unfold ServeHTTP.
  repeat (first [wp_step | wp_invoke_step]; method_cases).
Qed.

(** X2: on a writable gateway a PUT is answered 405 by [http.Error] with
    a fixed text, and a method that is none of POST, PUT, DELETE, GET and
    HEAD is answered 400 with [Method <m> not allowed: bad request for
    <path>]; neither makes a call or touches the store. *)
Theorem writable_rejects_put_and_unknown (r : Request) s now0 :
  Writable config = true →
  let out := serve (ServeHTTP node pk config r) s now0 in
  (Method r = "PUT" →
   out.1 = Return
   ∧ http.responseStatus (writer out.2) = 405
   ∧ rw_body (writer out.2)
     = "writableGateway: PUT method not meaningful on IPFS - use POST and see the docs"
         ++ http.newline
   ∧ calls out.2 = [] ∧ store out.2 = s)
  ∧ (Method r ∉ ["POST"; "PUT"; "DELETE"; "GET"; "HEAD"] →
     out = (Next (),
            mkWorld (mkResponseWriter ∅ (Some (StatusBadRequest, ∅))
                       (("Method " ++ Method r ++ " not allowed: ")
                          ++ "bad request for " ++ URL_Path r))
              s now0 [])).
Proof.
  intros Hw out. subst out. split.
  - intros Hm.
    change (wp (ServeHTTP node pk config r) (mkWorld newResponseWriter s now0 [])
              (λ fl σ',
                 fl = Return
                 ∧ http.responseStatus (writer σ') = 405
                 ∧ rw_body (writer σ')
                   = "writableGateway: PUT method not meaningful on IPFS - use POST and see the docs"
                       ++ http.newline
                 ∧ calls σ' = [] ∧ store σ' = s)).
    unfold ServeHTTP.
    repeat (first [wp_step | wp_invoke_step]; method_cases).
  - intros Hm. unfold serve. apply wp_eq. unfold ServeHTTP.
    assert (Method r ≠ "POST" ∧ Method r ≠ "PUT" ∧ Method r ≠ "DELETE"
            ∧ Method r ≠ "GET" ∧ Method r ≠ "HEAD") as (? & ? & ? & ? & ?).
    { rewrite !not_elem_of_cons in Hm. tauto. }
    repeat (first [wp_step | wp_invoke_step]; method_cases).
Qed.

(** X3: [ServeHTTP] hands a GET or a HEAD to [getOrHeadHandler] whether
    the gateway is writable or not, and on a writable gateway a POST to
    [postHandler] and a DELETE to [deleteHandler]: the response, the store
    and the calls are those of the handler, and [ServeHTTP] panics only
    when the handler does. *)
Theorem ServeHTTP_dispatch (r : Request) s now0 :
  let via h :=
    (serve (ServeHTTP node pk config r) s now0).1
    = match (serve h s now0).1 with Panic => Panic | _ => Return end
    ∧ (serve (ServeHTTP node pk config r) s now0).2 = (serve h s now0).2 in
  (Method r = "GET" ∨ Method r = "HEAD" → via (getOrHeadHandler node pk config r))
  ∧ (Writable config = true → Method r = "POST" → via (postHandler node pk config r))
  ∧ (Writable config = true → Method r = "DELETE" → via (deleteHandler node pk config r)).
Proof.
  intros via. split_and!.
  - apply ServeHTTP_get.
  - apply ServeHTTP_post.
  - apply ServeHTTP_delete.
Qed.

(** X4: a gateway that is not writable never writes to the store: no run
    of [ServeHTTP], whatever the method and the path, calls the importer,
    [DAG.Add] or the DAG editor. *)
Theorem read_only_never_mutates (r : Request) s now0 :
  Writable config = false →
  Forall (λ c, isMutationCall c = false)
    (calls (serve (ServeHTTP node pk config r) s now0).2).
Proof.
  intros Hw.
  destruct (decide (Method r = "GET" ∨ Method r = "HEAD")) as [Hm|Hm].
  - unfold serve. destruct (ServeHTTP_get r (mkWorld newResponseWriter s now0 []) Hm) as [_ ->].
    eapply Forall_impl; [apply (getOrHead_calls node pk config r s now0)|].
    by intros [].
  - change (wp (ServeHTTP node pk config r) (mkWorld newResponseWriter s now0 [])
              (λ _ σ', Forall (λ c, isMutationCall c = false) (calls σ'))).
    unfold ServeHTTP.
    repeat (first [wp_step | wp_invoke_step]; method_cases).
    all: try (by destruct Hm; auto).
Qed.

End Dispatch.

(** ** Reading: [getOrHeadHandler] *)

Section Reads.
Context {S : Type} (node : IpfsNode S) (pk : Packages) (config : GatewayConfig).

Ltac wp_run :=
  repeat (first [ wp_step | apply wp_addUserHeaders; wp_simpl ]; wp_prune).

(** X5: a path on the block list is answered 403 with the body [403 -
    Forbidden] and no header; the block list is the only thing asked, the
    path is not resolved and the store stays as it is. *)
Theorem blocked_path_forbidden (r : Request) s now0 ShouldBlock :
  BlockList config = Some ShouldBlock → ShouldBlock (URL_Path r) = true →
  serve (getOrHeadHandler node pk config r) s now0
  = (Return, mkWorld (mkResponseWriter ∅ (Some (StatusForbidden, ∅)) "403 - Forbidden")
               s now0 [CallShouldBlock (URL_Path r)]).
Proof.
  intros Hb Hs. unfold serve. apply wp_eq. unfold getOrHeadHandler.
  rewrite Hb. wp_run.
Qed.

(** X6: a path that passes the block list and does not resolve is
    answered with the status [webError] gives the error (404, 408, or 400
    for any other error), the body [Path Resolve error: <error>] and no
    header; the node is not opened, and the store is the one the resolver
    leaves. *)
Theorem unresolved_path_error (r : Request) s now0 err s' :
  notBlocked config (URL_Path r) →
  core_Resolve node (URL_Path r) s = (inr err, s') →
  serve (getOrHeadHandler node pk config r) s now0
  = (Return,
     mkWorld (mkResponseWriter ∅ (Some (statusOf err StatusBadRequest, ∅))
                ("Path Resolve error" ++ ": " ++ Error err))
       s' now0 (blockCalls config (URL_Path r) ++ [CallResolve (URL_Path r)])).
Proof.
  intros Hb Hr. unfold serve. apply wp_eq.
  unfold getOrHeadHandler, notBlocked, blockCalls in *.
  destruct (BlockList config) as [f|]; destruct err; wp_run.
  all: unfold webError; wp_run.
Qed.

(** The headers of a served response: but for [Location], which the
    redirect to an index page sets, they are those of [servedHeader]. *)
Lemma getOrHead_served_header (r : Request) s now0 :
  served node config r s →
  ∀ k, k ≠ "Location" →
    http.responseHeader (writer (serve (getOrHeadHandler node pk config r) s now0).2) !! k
    = servedHeader config r !! k.
Proof.
  intros (Hb & He & Hlen & nd & s1 & res & s2 & Hr & Hd & Hres).
  pose (P := λ h : Header, ∀ k, k ≠ "Location" → h !! k = servedHeader config r !! k).
  change (wp (getOrHeadHandler node pk config r) (mkWorld newResponseWriter s now0 [])
            (λ _ σ', P (http.responseHeader (writer σ')))).
  unfold getOrHeadHandler, notBlocked in *.
  fold (originalURLPathOf r). fold (ipnsHostnameOf r).
  repeat (first [wp_step | apply wp_addUserHeaders; wp_simpl
                | apply wp_scanLinks; intros [[? ?]| |] ? ? ? ? ? ?; wp_simpl ];
          wp_prune).
  all: try (destruct Hlen as [Hlen|Hlen]; [congruence|];
            apply SplitN_third in Hlen as [? ?]; congruence).
  all: try (by match goal with H : _ ≠ uio_ErrIsDir |- _ => destruct H; apply Hres end).
  all: apply holds_response.
  all: repeat first
         [ apply holds_Write | apply holds_WriteHeader
         | match goal with
           | H : writes _ _ ?w |- holdsOfHeaders _ ?w =>
               eapply holds_writes; [|exact H|]; [intros ? ? ? ? ?|]; clear H
           end
         | apply holds_SetHeader_first; [reflexivity|] ].
  all: intros k Hk; subst P; cbn beta in *.
  all: try (match goal with
            | Hc : http.CanonicalHeaderKey _ = _, Hh : ∀ k, _ → _ |- _ =>
                unfold http.Header_Set; rewrite Hc;
                rewrite lookup_insert_ne by done; by apply Hh
            end).
  all: unfold servedHeader.
  all: repeat match goal with
         | H : ipnsHostnameOf _ = _ |- _ => rewrite H; clear H
         | H : strings.HasPrefix _ _ = _ |- _ => rewrite H; clear H
         | H : strings.SplitN _ _ _ !! _ = _ |- _ => rewrite H; clear H
         end.
  all: reflexivity.
Qed.

Ltac header_lookup :=
  unfold servedHeader;
  repeat match goal with
    | H : ipnsHostnameOf _ = _ |- _ => rewrite H
    | H : strings.HasPrefix _ _ = _ |- _ => rewrite H
    | H : strings.SplitN _ _ _ !! _ = _ |- _ => rewrite H
    end;
  unfold http.Header_Set;
  change (http.CanonicalHeaderKey "X-IPFS-Path") with "X-Ipfs-Path";
  change (http.CanonicalHeaderKey "Suborigin") with "Suborigin";
  change (http.CanonicalHeaderKey "Etag") with "Etag";
  change (http.CanonicalHeaderKey "Cache-Control") with "Cache-Control";
  repeat first [rewrite lookup_insert_eq | rewrite lookup_insert_ne by done];
  rewrite ?(right_id_L ∅ (∪)).

(** X7: a served response names the path in [X-Ipfs-Path]; unless the
    host-name option rewrote the request its [Suborigin] is the third
    part of the path split in at most four at the slashes, the root key,
    which holds no slash, and for a rewritten request the handler sets no
    [Suborigin] of its own; for a content-addressed path [Cache-Control]
    is [public, max-age=29030400]. *)
Theorem served_headers (r : Request) s now0 :
  served node config r s →
  let h := http.responseHeader
             (writer (serve (getOrHeadHandler node pk config r) s now0).2) in
  h !! "X-Ipfs-Path" = Some [URL_Path r]
  ∧ (ipnsHostnameOf r = false →
     ∃ pathRoot, strings.SplitN (URL_Path r) "/" 4 !! 2%nat = Some pathRoot
                 ∧ ("/"%char ∉ list_ascii_of_string pathRoot)
                 ∧ h !! "Suborigin" = Some [pathRoot])
  ∧ (ipnsHostnameOf r = true → h !! "Suborigin" = Headers config !! "Suborigin")
  ∧ (strings.HasPrefix (URL_Path r) ipfsPathPrefix = true →
     h !! "Cache-Control" = Some ["public, max-age=29030400"]).
Proof.
  intros Hsv h. pose proof (getOrHead_served_header r s now0 Hsv) as Hh. fold h in Hh.
  destruct Hsv as (_ & _ & Hlen & _).
  split_and!.
  - rewrite Hh by done.
    destruct (ipnsHostnameOf r) eqn:Hi;
      destruct (strings.SplitN (URL_Path r) "/" 4 !! 2%nat) eqn:Hsp;
      destruct (strings.HasPrefix (URL_Path r) ipfsPathPrefix) eqn:Hpre;
      by header_lookup.
  - intros Hi. destruct Hlen as [Hlen|Hlen]; [congruence|].
    destruct (SplitN_third _ "/" Hlen) as [pathRoot Hsp].
    exists pathRoot. split_and!; [done|by eapply SplitN_no_sep|].
    rewrite Hh by done.
    destruct (strings.HasPrefix (URL_Path r) ipfsPathPrefix) eqn:Hpre; by header_lookup.
  - intros Hi. rewrite Hh by done.
    destruct (strings.HasPrefix (URL_Path r) ipfsPathPrefix) eqn:Hpre; by header_lookup.
  - intros Hpre. rewrite Hh by done.
    destruct (ipnsHostnameOf r) eqn:Hi;
      destruct (strings.SplitN (URL_Path r) "/" 4 !! 2%nat) eqn:Hsp;
      by header_lookup.
Qed.

(** X8: outside the content-addressed namespace nothing is marked as
    immutable: a file is served with the time of the wall clock as its
    modification time, and the handler sets no [Etag] and no
    [Cache-Control]; a served response has those the operator configures,
    if any. *)
Theorem mutable_path_not_cached (r : Request) s now0 :
  strings.HasPrefix (URL_Path r) ipfsPathPrefix = false →
  let out := serve (getOrHeadHandler node pk config r) s now0 in
  Forall (λ t, t = now0) (modtimesServed (calls out.2))
  ∧ (served node config r s →
     http.responseHeader (writer out.2) !! "Etag" = Headers config !! "Etag"
     ∧ http.responseHeader (writer out.2) !! "Cache-Control"
       = Headers config !! "Cache-Control").
Proof.
  intros Hpre out. split.
  - apply Forall_modtimesServed.
    eapply Forall_impl; [apply (getOrHead_calls node pk config r s now0)|].
    intros [] Hc; try done. destruct Hc as [_ ->]. by rewrite Hpre.
  - intros Hsv. pose proof (getOrHead_served_header r s now0 Hsv) as Hh. fold out in Hh.
    rewrite !Hh by done.
    destruct (ipnsHostnameOf r) eqn:Hi;
      destruct (strings.SplitN (URL_Path r) "/" 4 !! 2%nat) eqn:Hsp;
      by header_lookup.
Qed.

End Reads.

(** ** What a run calls *)

Section Calls.
Context {S : Type} (P : Call → Prop).

Lemma calls_onWriter f : preserves (onCallsOf P) (onWriter f : Handler S ()).
Proof. by intros σ. Qed.

Lemma calls_note c : P c → preserves (onCallsOf P) (note c : Handler S ()).
Proof.
  intros Hc σ Hσ. unfold onCallsOf in *. simpl. apply Forall_app. split; [done|by constructor].
Qed.

Lemma calls_call {R} c (f : S → R * S) : P c → preserves (onCallsOf P) (call c f).
Proof.
  intros Hc σ Hσ. unfold onCallsOf, call in *. destruct (f (store σ)). simpl.
  apply Forall_app. split; [done|by constructor].
Qed.

Lemma calls_webErrorWithCode message err code :
  preserves (onCallsOf P) (webErrorWithCode message err code : Handler S ()).
Proof. by intros σ. Qed.

Lemma calls_webError message err defaultCode :
  preserves (onCallsOf P) (webError message err defaultCode : Handler S ()).
Proof. destruct err; apply calls_webErrorWithCode. Qed.

Lemma calls_addUserHeaders config :
  preserves (onCallsOf P) (addUserHeaders config : Handler S ()).
Proof. by intros σ. Qed.

End Calls.

Ltac calls_step :=
  lazymatch goal with
  | |- preserves _ (mbind _ _) => apply pres_bind; [|intros ?]
  | |- preserves _ (mret _) => apply pres_ret
  | |- preserves _ return_ => apply pres_return
  | |- preserves _ panic => apply pres_panic
  | |- preserves _ (when (negb true) _) => apply (pres_ret _ ())
  | |- preserves _ (when _ _) => apply pres_when
  | |- preserves _ (index _ _) => apply pres_index
  | |- preserves _ time_Now => apply pres_time_Now
  | |- preserves _ (invoke _) => apply pres_invoke
  | |- preserves _ (note _) => apply calls_note
  | |- preserves _ (call _ _) => apply calls_call
  | |- preserves _ (newDagFromReader _ _) => apply calls_call
  | |- preserves _ (webErrorWithCode _ _ _) => apply calls_webErrorWithCode
  | |- preserves _ (webError _ _ _) => apply calls_webError
  | |- preserves _ (internalWebError _) => apply calls_webErrorWithCode
  | |- preserves _ (addUserHeaders _) => apply calls_addUserHeaders
  | |- preserves _ (onWriter _) => apply calls_onWriter
  | |- preserves _ (match ?x with _ => _ end) => destruct x
  end.

Section Discipline.
Context {S : Type} (node : IpfsNode S) (pk : Packages) (config : GatewayConfig).

Lemma scanLinks_head r urlPath originalURLPath links dirListing :
  Method r = "HEAD" →
  preserves (onCallsOf (λ c, isBodyCall c = false))
    (scanLinks node pk r urlPath originalURLPath links dirListing : Handler S _).
Proof.
  intros Hm. revert dirListing.
  induction links as [|link rest IH]; intros dirListing; simpl; [apply pres_ret|].
  case_bool_decide; [|apply IH].
  rewrite (bool_decide_eq_true_2 _ Hm).
  repeat calls_step; done.
Qed.

(** X9: a HEAD request never has a body made: [getOrHeadHandler] neither
    renders a directory listing nor copies an index page for it. *)
Theorem head_makes_no_body (r : Request) s now0 :
  Method r = "HEAD" →
  Forall (λ c, isBodyCall c = false)
    (calls (serve (getOrHeadHandler node pk config r) s now0).2).
Proof.
  intros Hm.
  cut (preserves (onCallsOf (λ c, isBodyCall c = false))
         (getOrHeadHandler node pk config r : Handler S ())).
  { intros H. apply H. constructor. }
  unfold getOrHeadHandler. rewrite (bool_decide_eq_true_2 _ Hm).
  repeat first [apply scanLinks_head; assumption | calls_step]; done.
Qed.

(** X10: the calls of the mutation handlers.  [postHandler] calls the
    importer, the resolver, [DAG.Get], the insertion of the DAG editor
    and [DAG.Add], and [deleteHandler] calls [DAG.Get] and the removal of
    the editor, nothing else: neither consults the block list, and a
    DELETE does not resolve its path. *)
Theorem mutation_calls (r : Request) s now0 :
  Forall (λ c, isPostCall c = true)
    (calls (serve (postHandler node pk config r) s now0).2)
  ∧ Forall (λ c, isDeleteCall c = true)
      (calls (serve (deleteHandler node pk config r) s now0).2).
Proof.
  split.
  - cut (preserves (onCallsOf (λ c, isPostCall c = true))
           (postHandler node pk config r : Handler S ())).
    { intros H. apply H. constructor. }
    unfold postHandler. repeat calls_step; done.
  - cut (preserves (onCallsOf (λ c, isDeleteCall c = true))
           (deleteHandler node pk config r : Handler S ())).
    { intros H. apply H. constructor. }
    unfold deleteHandler. repeat calls_step; done.
Qed.

End Discipline.

(** ** Directories *)

Section Directories.
Context {S : Type} (node : IpfsNode S) (pk : Packages) (config : GatewayConfig).

Ltac wp_run :=
  repeat (first [ wp_step | apply wp_addUserHeaders; wp_simpl ]; wp_prune).

(** On links none of which is named [index.html] the scan makes no call
    and writes nothing: it gathers one entry for each link, in order. *)
Lemma scanLinks_plain r urlPath originalURLPath links dirListing (σ : World S) :
  Forall (λ l, Name l ≠ "index.html") links →
  scanLinks node pk r urlPath originalURLPath links dirListing σ
  = (Next (false, (dirListing ++ map (directoryItemOf pk originalURLPath) links)%list), σ).
Proof.
  intros Hall. revert dirListing.
  induction Hall as [|link rest Hname _ IH]; intros dirListing; simpl.
  - by rewrite app_nil_r.
  - rewrite bool_decide_eq_false_2 by done. rewrite IH. by rewrite <- app_assoc.
Qed.

(** With a link named [index.html] and a path that ends in a slash, the
    scan resolves the index page under the path and opens it. *)
Lemma wp_scanLinks_index r urlPath originalURLPath links dirListing (σ : World S) n Q :
  Exists (λ l, Name l = "index.html") links →
  String.length urlPath = Datatypes.S n → String.get n urlPath = Some "/"%char →
  (∀ dirListing',
     wp (res ← call (CallResolve (urlPath ++ "/index.html"))
                   (core_Resolve node (urlPath ++ "/index.html"));
         nd ← match res with
              | inr err => internalWebError err ;; return_
              | inl nd => mret nd
              end;
         res ← call (CallNewDagReader nd) (NewDagReader node nd);
         dr ← match res with
              | inr err => internalWebError err ;; return_
              | inl dr => mret dr
              end;
         when (negb (bool_decide (Method r = "HEAD")))
           (note (CallCopy dr) ;; onWriter (http.Write (dr_bytes dr))) ;;
         mret (true, dirListing')) σ Q) →
  wp (scanLinks node pk r urlPath originalURLPath links dirListing) σ Q.
Proof.
  intros Hex Hl Hg HQ. revert dirListing.
  induction links as [|link rest IH]; intros dirListing; [by apply Exists_nil in Hex|].
  simpl. destruct (decide (Name link = "index.html")) as [Hname|Hname].
  - rewrite (bool_decide_eq_true_2 _ Hname).
    apply wp_bind. rewrite Hl, Hg. apply wp_ret.
    apply wp_bind. apply wp_when; [done|intros _]. apply HQ.
  - rewrite (bool_decide_eq_false_2 _ Hname).
    apply IH. by apply Exists_cons in Hex as [?|?].
Qed.

(** X11: the listing of a directory without an index page.  For a GET
    that is served a directory none of whose links is named [index.html],
    one listing is rendered: it has one entry for each link of the node,
    in their order, with the name of the link, its size as
    [humanize.Bytes] gives it and the client's path joined with the name;
    its path is the client's path.  What the template writes is the body
    of a 200; when the template fails, the text of the error follows what
    it wrote, and the status is 500 only if it wrote nothing. *)
Theorem directory_listing (r : Request) s now0 nd s1 s2 body err :
  notBlocked config (URL_Path r) →
  core_Resolve node (URL_Path r) s = (inl nd, s1) →
  http.Header_Get (ReqHeader r) "If-None-Match" ≠ gopath.Base (URL_Path r) →
  ipnsHostnameOf r = true ∨ (3 ≤ length (strings.Split (URL_Path r) "/"))%nat →
  NewDagReader node nd s1 = (inr uio_ErrIsDir, s2) →
  Forall (λ l, Name l ≠ "index.html") (Links nd) →
  Method r ≠ "HEAD" →
  let tplData :=
    mkListingTemplateData (map (directoryItemOf pk (originalURLPathOf r)) (Links nd))
      (originalURLPathOf r) (backLinkFor (URL_Path r) (ipnsHostnameOf r)) in
  TemplateExecute pk tplData = (body, err) →
  let out := serve (getOrHeadHandler node pk config r) s now0 in
  listingsRendered (calls out.2) = [tplData]
  ∧ storeAccesses (calls out.2) = [CallResolve (URL_Path r); CallNewDagReader nd]
  ∧ store out.2 = s2
  ∧ out.1 = match err with None => Next () | Some _ => Return end
  ∧ http.responseStatus (writer out.2)
    = match err with
      | Some _ => if bool_decide (body = "") then 500 else 200
      | None => 200
      end
  ∧ rw_body (writer out.2)
    = match err with
      | Some e => body ++ "internalWebError" ++ ": " ++ Error e
      | None => body
      end.
Proof.
  intros Hb Hr He Hlen Hd Hplain Hm tplData Ht out.
  change (wp (getOrHeadHandler node pk config r) (mkWorld newResponseWriter s now0 [])
            (λ fl σ',
               listingsRendered (calls σ') = [tplData]
               ∧ storeAccesses (calls σ') = [CallResolve (URL_Path r); CallNewDagReader nd]
               ∧ store σ' = s2
               ∧ fl = match err with None => Next () | Some _ => Return end
               ∧ http.responseStatus (writer σ')
                 = match err with
                   | Some _ => if bool_decide (body = "") then 500 else 200
                   | None => 200
                   end
               ∧ rw_body (writer σ')
                 = match err with
                   | Some e => body ++ "internalWebError" ++ ": " ++ Error e
                   | None => body
                   end)).
  subst tplData out.
  unfold getOrHeadHandler, notBlocked in *.
  fold (originalURLPathOf r). fold (ipnsHostnameOf r).
  repeat (first [ wp_step | apply wp_addUserHeaders; wp_simpl
                | lazymatch goal with
                  | |- wp (scanLinks _ _ _ _ _ _ _) _ _ =>
                      unfold wp at 1; rewrite scanLinks_plain by done;
                      cbn [fst snd app]
                  end ];
          wp_prune).
  all: try (destruct Hlen as [Hlen|Hlen]; [congruence|];
            apply SplitN_third in Hlen as [? ?]; congruence).
  all: rewrite ?bool_decide_eq_false_2 by done.
  all: split_and!; reflexivity.
Qed.

(** X12: the index page of a directory.  For a path that ends in a
    slash and is served a directory with a link named [index.html], the
    handler resolves the path with [/index.html] appended, opens the
    node and, unless the request is a HEAD, copies its bytes into the
    body of a 200; no listing is rendered. *)
Theorem index_page_served (r : Request) s now0 nd s1 s2 nd2 s3 dr s4 :
  notBlocked config (URL_Path r) →
  core_Resolve node (URL_Path r) s = (inl nd, s1) →
  http.Header_Get (ReqHeader r) "If-None-Match" ≠ gopath.Base (URL_Path r) →
  ipnsHostnameOf r = true ∨ (3 ≤ length (strings.Split (URL_Path r) "/"))%nat →
  NewDagReader node nd s1 = (inr uio_ErrIsDir, s2) →
  Exists (λ l, Name l = "index.html") (Links nd) →
  strings.HasSuffix (URL_Path r) "/" = true →
  core_Resolve node (URL_Path r ++ "/index.html") s2 = (inl nd2, s3) →
  NewDagReader node nd2 s3 = (inl dr, s4) →
  let out := serve (getOrHeadHandler node pk config r) s now0 in
  out.1 = Next ()
  ∧ http.responseStatus (writer out.2) = 200
  ∧ rw_body (writer out.2) = (if bool_decide (Method r = "HEAD") then "" else dr_bytes dr)
  ∧ listingsRendered (calls out.2) = []
  ∧ storeAccesses (calls out.2)
    = ([CallResolve (URL_Path r); CallNewDagReader nd;
        CallResolve (URL_Path r ++ "/index.html"); CallNewDagReader nd2]
       ++ if bool_decide (Method r = "HEAD") then [] else [CallCopy dr])%list
  ∧ store out.2 = s4.
Proof.
  intros Hb Hr He Hlen Hd Hex Hsuf Hr2 Hd2 out.
  destruct (last_byte_slash _ Hsuf) as (n & Hl & Hg).
  change (wp (getOrHeadHandler node pk config r) (mkWorld newResponseWriter s now0 [])
            (λ fl σ',
               fl = Next ()
               ∧ http.responseStatus (writer σ') = 200
               ∧ rw_body (writer σ')
                 = (if bool_decide (Method r = "HEAD") then "" else dr_bytes dr)
               ∧ listingsRendered (calls σ') = []
               ∧ storeAccesses (calls σ')
                 = ([CallResolve (URL_Path r); CallNewDagReader nd;
                     CallResolve (URL_Path r ++ "/index.html"); CallNewDagReader nd2]
                    ++ if bool_decide (Method r = "HEAD") then [] else [CallCopy dr])%list
               ∧ store σ' = s4)).
  subst out.
  unfold getOrHeadHandler, notBlocked in *.
  fold (originalURLPathOf r). fold (ipnsHostnameOf r).
  repeat (first [ wp_step | apply wp_addUserHeaders; wp_simpl
                | lazymatch goal with
                  | |- wp (scanLinks _ _ _ _ _ _ _) _ _ =>
                      apply (wp_scanLinks_index _ _ _ _ _ _ n _ Hex Hl Hg); intros ?
                  end ];
          wp_prune).
  all: try (destruct Hlen as [Hlen|Hlen]; [congruence|];
            apply SplitN_third in Hlen as [? ?]; congruence).
  all: rewrite ?bool_decide_eq_false_2 by done.
  all: rewrite ?bool_decide_eq_true_2 by done.
  all: split_and!; reflexivity.
Qed.

(** X13: a node that the reader refuses with an error other than
    [uio.ErrIsDir] is answered 500 with [internalWebError: <error>],
    whatever the error is; nothing is served or listed, and the handler
    has not yet set [Etag] and [Cache-Control], so that the 500 cannot be
    cached as immutable content. *)
Theorem unreadable_node_500 (r : Request) s now0 nd s1 err s2 :
  notBlocked config (URL_Path r) →
  core_Resolve node (URL_Path r) s = (inl nd, s1) →
  http.Header_Get (ReqHeader r) "If-None-Match" ≠ gopath.Base (URL_Path r) →
  ipnsHostnameOf r = true ∨ (3 ≤ length (strings.Split (URL_Path r) "/"))%nat →
  NewDagReader node nd s1 = (inr err, s2) →
  err ≠ uio_ErrIsDir →
  let out := serve (getOrHeadHandler node pk config r) s now0 in
  out.1 = Return
  ∧ http.responseStatus (writer out.2) = 500
  ∧ rw_body (writer out.2) = "internalWebError" ++ ": " ++ Error err
  ∧ storeAccesses (calls out.2) = [CallResolve (URL_Path r); CallNewDagReader nd]
  ∧ http.responseHeader (writer out.2) !! "Etag" = Headers config !! "Etag"
  ∧ http.responseHeader (writer out.2) !! "Cache-Control"
    = Headers config !! "Cache-Control".
Proof.
  intros Hb Hr He Hlen Hd Herr out.
  change (wp (getOrHeadHandler node pk config r) (mkWorld newResponseWriter s now0 [])
            (λ fl σ',
               fl = Return
               ∧ http.responseStatus (writer σ') = 500
               ∧ rw_body (writer σ') = "internalWebError" ++ ": " ++ Error err
               ∧ storeAccesses (calls σ') = [CallResolve (URL_Path r); CallNewDagReader nd]
               ∧ http.responseHeader (writer σ') !! "Etag" = Headers config !! "Etag"
               ∧ http.responseHeader (writer σ') !! "Cache-Control"
                 = Headers config !! "Cache-Control")).
  subst out.
  unfold getOrHeadHandler, notBlocked in *.
  fold (originalURLPathOf r). fold (ipnsHostnameOf r).
  wp_run.
  all: try (destruct Hlen as [Hlen|Hlen]; [congruence|];
            apply SplitN_third in Hlen as [? ?]; congruence).
  all: split_and!; try reflexivity.
  all: unfold http.responseHeader, http.Write, http.WriteHeader, http.SetHeader,
         http.Header_Set; cbn [rw_sent rw_header newResponseWriter].
  all: change (http.CanonicalHeaderKey "X-IPFS-Path") with "X-Ipfs-Path".
  all: change (http.CanonicalHeaderKey "Suborigin") with "Suborigin".
  all: rewrite ?lookup_insert_ne by done.
  all: by rewrite (right_id_L ∅ (∪)).
Qed.

(** X14: when the index page of a directory does not resolve, the answer
    is 500 with [internalWebError: <error>] whatever the error is, also
    for the errors that [webError] answers with 404 or 408; for a
    content-addressed path this 500 goes out with the [Cache-Control] of
    immutable content, which was set before the scan of the links. *)
Theorem unresolved_index_500 (r : Request) s now0 nd s1 s2 err s3 :
  notBlocked config (URL_Path r) →
  core_Resolve node (URL_Path r) s = (inl nd, s1) →
  http.Header_Get (ReqHeader r) "If-None-Match" ≠ gopath.Base (URL_Path r) →
  ipnsHostnameOf r = true ∨ (3 ≤ length (strings.Split (URL_Path r) "/"))%nat →
  NewDagReader node nd s1 = (inr uio_ErrIsDir, s2) →
  Exists (λ l, Name l = "index.html") (Links nd) →
  strings.HasSuffix (URL_Path r) "/" = true →
  core_Resolve node (URL_Path r ++ "/index.html") s2 = (inr err, s3) →
  let out := serve (getOrHeadHandler node pk config r) s now0 in
  out.1 = Return
  ∧ http.responseStatus (writer out.2) = 500
  ∧ rw_body (writer out.2) = "internalWebError" ++ ": " ++ Error err
  ∧ listingsRendered (calls out.2) = []
  ∧ (strings.HasPrefix (URL_Path r) ipfsPathPrefix = true →
     http.responseHeader (writer out.2) !! "Cache-Control"
     = Some ["public, max-age=29030400"]).
Proof.
  intros Hb Hr He Hlen Hd Hex Hsuf Hr2 out.
  destruct (last_byte_slash _ Hsuf) as (n & Hl & Hg).
  change (wp (getOrHeadHandler node pk config r) (mkWorld newResponseWriter s now0 [])
            (λ fl σ',
               fl = Return
               ∧ http.responseStatus (writer σ') = 500
               ∧ rw_body (writer σ') = "internalWebError" ++ ": " ++ Error err
               ∧ listingsRendered (calls σ') = []
               ∧ (strings.HasPrefix (URL_Path r) ipfsPathPrefix = true →
                  http.responseHeader (writer σ') !! "Cache-Control"
                  = Some ["public, max-age=29030400"]))).
  subst out.
  unfold getOrHeadHandler, notBlocked in *.
  fold (originalURLPathOf r). fold (ipnsHostnameOf r).
  repeat (first [ wp_step | apply wp_addUserHeaders; wp_simpl
                | lazymatch goal with
                  | |- wp (scanLinks _ _ _ _ _ _ _) _ _ =>
                      apply (wp_scanLinks_index _ _ _ _ _ _ n _ Hex Hl Hg); intros ?
                  end ];
          wp_prune).
  all: try (destruct Hlen as [Hlen|Hlen]; [congruence|];
            apply SplitN_third in Hlen as [? ?]; congruence).
  all: split_and!; try reflexivity.
  all: intros Hpre; try congruence.
  all: unfold http.responseHeader, http.Write, http.WriteHeader, http.SetHeader,
         http.Header_Set; cbn [rw_sent rw_header newResponseWriter].
  all: change (http.CanonicalHeaderKey "Cache-Control") with "Cache-Control".
  all: by rewrite lookup_insert_eq.
Qed.

End Directories.

(** ** Index out of range *)

Section Bounds.
Context {S : Type} (node : IpfsNode S) (pk : Packages) (config : GatewayConfig).

Ltac wp_run :=
  repeat (first [ wp_step | apply wp_addUserHeaders; wp_simpl ]; wp_prune).

(** The scan of the links does not panic on a path that is not empty. *)
Lemma wp_scanLinks_flow r urlPath originalURLPath links dirListing (σ : World S) Q :
  urlPath ≠ "" →
  (∀ fl σ', fl ≠ Panic → Q fl σ') →
  wp (scanLinks node pk r urlPath originalURLPath links dirListing) σ Q.
Proof.
  intros Hne HQ. apply HQ.
  change (wp (scanLinks node pk r urlPath originalURLPath links dirListing) σ
            (λ fl _, fl ≠ Panic)).
  destruct (last_byte _ Hne) as (n & c & Hl & Hg & _).
  revert dirListing.
  induction links as [|link rest IH]; intros dirListing; simpl; [done|].
  destruct (decide (Name link = "index.html")) as [Hname|Hname].
  - rewrite (bool_decide_eq_true_2 _ Hname).
    apply wp_bind. rewrite Hl, Hg. apply wp_ret.
    wp_run.
  - rewrite (bool_decide_eq_false_2 _ Hname). apply IH.
Qed.

(** X15: [getOrHeadHandler] does not panic on a path of at least three
    parts, a namespace and a key after the leading slash: the index of
    the root key for [Suborigin] and that of the last byte of the path
    are in range. *)
Theorem getOrHead_no_panic (r : Request) s now0 :
  (3 ≤ length (strings.Split (URL_Path r) "/"))%nat →
  (serve (getOrHeadHandler node pk config r) s now0).1 ≠ Panic.
Proof.
  intros Hlen.
  assert (Hne : URL_Path r ≠ "") by (by intros E; rewrite E in Hlen; simpl in Hlen; lia).
  destruct (SplitN_third _ "/" Hlen) as [pathRoot Hroot].
  change (wp (getOrHeadHandler node pk config r) (mkWorld newResponseWriter s now0 [])
            (λ fl _, fl ≠ Panic)).
  unfold getOrHeadHandler.
  repeat (first [ wp_step | apply wp_addUserHeaders; wp_simpl
                | lazymatch goal with
                  | |- wp (scanLinks _ _ _ _ _ _ _) _ _ =>
                      apply wp_scanLinks_flow; [assumption|intros [[? ?]| |] ? ?]
                  end ];
          wp_prune).
Qed.

(** X16: [postHandler] and [deleteHandler] do not panic on a path that
    does not parse, nor on one that parses into at least two segments. *)
Theorem mutation_no_panic (r : Request) s now0 :
  (∀ p, path_ParsePath pk (URL_Path r) = inl p → (2 ≤ length (Path_Segments pk p))%nat) →
  (serve (postHandler node pk config r) s now0).1 ≠ Panic
  ∧ (serve (deleteHandler node pk config r) s now0).1 ≠ Panic.
Proof.
  intros Hlen. split.
  - change (wp (postHandler node pk config r) (mkWorld newResponseWriter s now0 [])
              (λ fl _, fl ≠ Panic)).
    unfold postHandler. wp_run.
    all: specialize (Hlen _ eq_refl).
    all: match goal with
         | H : _ !! _ = None |- _ => apply lookup_ge_None in H; lia
         end.
  - change (wp (deleteHandler node pk config r) (mkWorld newResponseWriter s now0 [])
              (λ fl _, fl ≠ Panic)).
    unfold deleteHandler. wp_run.
    all: specialize (Hlen _ eq_refl).
    all: match goal with
         | H : _ !! _ = None |- _ => apply lookup_ge_None in H; lia
         end.
Qed.

End Bounds.

(** ** Writing: [postHandler] and [deleteHandler] *)

Section Writes.
Context {S : Type} (node : IpfsNode S) (pk : Packages) (config : GatewayConfig).

Ltac wp_run :=
  repeat (first [ wp_step | apply wp_addUserHeaders; wp_simpl ]; wp_prune).

Ltac wp_run_on Hs :=
  repeat (first [wp_step | apply wp_addUserHeaders; wp_simpl];
          rewrite ?Hs in *; rewrite ?newPath_join; cbn [drop]; rewrite ?drop_0; simpl lookup in *;
          wp_prune).

Ltac not_root :=
  try (exfalso;
       match goal with
       | H : _ || _ = true |- _ =>
           apply orb_true_iff in H; by destruct H as [H|H]; wp_prune
       end).

(** [webError] with the status it chooses. *)
Lemma wp_webError_status message err defaultCode (σ : World S) Q :
  Q (Next ()) (mkWorld (http.Write (message ++ ": " ++ Error err)
                          (http.WriteHeader (statusOf err defaultCode) (writer σ)))
                 (store σ) (clock σ) (calls σ)) →
  wp (webError message err defaultCode) σ Q.
Proof. intros H. by destruct err; apply wp_webErrorWithCode. Qed.

Ltac wp_exact_on Hs :=
  repeat (first [ apply wp_webError_status; wp_simpl | wp_step
                | apply wp_addUserHeaders; wp_simpl ];
          rewrite ?Hs in *; rewrite ?newPath_join; cbn [drop]; rewrite ?drop_0;
          simpl lookup in *; wp_prune).

(** X18: a POST or a DELETE whose path does not parse is answered with
    the status [webError] gives the error of the parser (400 unless it is
    one of the errors answered 404 or 408) and the text [<handler>: ipfs
    path not valid: <error>]; no header goes out, no call is made and the
    store stays as it is. *)
Theorem unparsable_mutation (r : Request) s now0 err :
  path_ParsePath pk (URL_Path r) = inr err →
  serve (postHandler node pk config r) s now0
  = (Return,
     mkWorld (mkResponseWriter ∅ (Some (statusOf err StatusBadRequest, ∅))
                ("postHandler: ipfs path not valid" ++ ": " ++ Error err))
       s now0 [])
  ∧ (URL_Path r ≠ "/ipfs" → URL_Path r ≠ ipfsPathPrefix →
     serve (deleteHandler node pk config r) s now0
     = (Return,
        mkWorld (mkResponseWriter ∅ (Some (statusOf err StatusBadRequest, ∅))
                   ("deleteHandler: ipfs path not valid" ++ ": " ++ Error err))
          s now0 [])).
Proof.
  intros Hp. split.
  - unfold serve. apply wp_eq. unfold postHandler. rewrite Hp.
    destruct err; unfold webError; wp_run.
  - intros H1 H2. unfold serve. apply wp_eq. unfold deleteHandler. rewrite Hp.
    destruct err; unfold webError; wp_run; not_root.
Qed.

(** X19: the insertion of a POST.  When the path parses into a namespace,
    a root key and further segments, the new node is built, and the
    resolution fails for a missing link, the handler fetches the root by
    its key and has the editor insert the new node at the join of the
    segments after the key; the key of the edited root is the [IPFS-Hash]
    header of the 201 and the root of its [Location].  Nothing goes
    through [DAG.Add]. *)
Theorem post_inserts_at_missing_link (r : Request) s now0 p seg0 seg1 segs newnode s1
    name k s2 root s3 edited s4 newkey :
  path_ParsePath pk (URL_Path r) = inl p →
  Path_Segments pk p = seg0 :: seg1 :: segs →
  seg0 ≠ ipnsPathPrefix →
  (last (seg0 :: seg1 :: segs) = Some emptyDirKey ∧ newnode = NewEmptyDirectory pk ∧ s1 = s)
  ∨ (last (seg0 :: seg1 :: segs) ≠ Some emptyDirKey
     ∧ BuildDagFromReader node (Body r) s = (inl newnode, s1)) →
  core_Resolve node p s1 = (inr (path_ErrNoLink name k), s2) →
  DAG_Get node (key_B58KeyDecode pk seg1) s2 = (inl root, s3) →
  InsertNodeAtPath node root (gopath.Join segs) newnode s3 = (inl edited, s4) →
  Node_Key pk edited = inl newkey →
  let out := serve (postHandler node pk config r) s now0 in
  out.1 = Next ()
  ∧ last (calls out.2) = Some (CallInsertNodeAtPath root (gopath.Join segs) newnode)
  ∧ nodesAdded (calls out.2) = []
  ∧ store out.2 = s4
  ∧ rw_sent (writer out.2)
    = Some (StatusCreated,
            http.Header_Set
              (http.Header_Set (Headers config ∪ ∅) "IPFS-Hash" (Key_String pk newkey))
              "Location"
              (gopath.Join [ipfsPathPrefix; Key_String pk newkey; gopath.Join segs])).
Proof.
  intros Hp Hs H0 Hnew Hr Hg Hi Hk.
  rewrite !last_lookup in Hnew.
  replace (pred (length (seg0 :: seg1 :: segs)))
    with (length (seg0 :: seg1 :: segs) - 1)%nat in Hnew by (simpl; lia).
  change (wp (postHandler node pk config r) (mkWorld newResponseWriter s now0 [])
            (λ fl σ',
               fl = Next ()
               ∧ last (calls σ')
                 = Some (CallInsertNodeAtPath root (gopath.Join segs) newnode)
               ∧ nodesAdded (calls σ') = []
               ∧ store σ' = s4
               ∧ rw_sent (writer σ')
                 = Some (StatusCreated,
                         http.Header_Set
                           (http.Header_Set (Headers config ∪ ∅) "IPFS-Hash"
                              (Key_String pk newkey))
                           "Location"
                           (gopath.Join [ipfsPathPrefix; Key_String pk newkey;
                                         gopath.Join segs])))).
  unfold postHandler.
  destruct Hnew as [(Hl & -> & ->)|(Hl & Hb)].
  all: wp_run_on Hs.
  all: try (exfalso;
            match goal with
            | H : _ !! _ = None |- _ => apply lookup_ge_None in H; simpl in H; lia
            end).
  all: split_and!; try done.
  all: by rewrite sent_Redirect_first.
Qed.

(** X20: a POST whose path resolves with an error other than a missing
    link is answered with the status [webError] gives the error (500
    unless it is one of the errors answered 404 or 408) and the text
    [could not resolve root DAG: <error>], with no header; the resolution
    is its last call, so nothing is added or inserted, but the importer
    has run before it and the store keeps what the importer did. *)
Theorem post_unresolved_root (r : Request) s now0 p seg0 segs newnode s1 err s2 :
  path_ParsePath pk (URL_Path r) = inl p →
  Path_Segments pk p = seg0 :: segs →
  seg0 ≠ ipnsPathPrefix →
  (last (seg0 :: segs) = Some emptyDirKey ∧ newnode = NewEmptyDirectory pk ∧ s1 = s)
  ∨ (last (seg0 :: segs) ≠ Some emptyDirKey
     ∧ BuildDagFromReader node (Body r) s = (inl newnode, s1)) →
  core_Resolve node p s1 = (inr err, s2) →
  (∀ name k, err ≠ path_ErrNoLink name k) →
  let out := serve (postHandler node pk config r) s now0 in
  out.1 = Return
  ∧ writer out.2
    = mkResponseWriter ∅ (Some (statusOf err StatusInternalServerError, ∅))
        ("could not resolve root DAG" ++ ": " ++ Error err)
  ∧ last (calls out.2) = Some (CallResolve p)
  ∧ nodesAdded (calls out.2) = []
  ∧ nodesInserted (calls out.2) = []
  ∧ store out.2 = s2.
Proof.
  intros Hp Hs H0 Hnew Hr Herr.
  rewrite !last_lookup in Hnew.
  replace (pred (length (seg0 :: segs)))
    with (length (seg0 :: segs) - 1)%nat in Hnew by (simpl; lia).
  change (wp (postHandler node pk config r) (mkWorld newResponseWriter s now0 [])
            (λ fl σ',
               fl = Return
               ∧ writer σ'
                 = mkResponseWriter ∅ (Some (statusOf err StatusInternalServerError, ∅))
                     ("could not resolve root DAG" ++ ": " ++ Error err)
               ∧ last (calls σ') = Some (CallResolve p)
               ∧ nodesAdded (calls σ') = []
               ∧ nodesInserted (calls σ') = []
               ∧ store σ' = s2)).
  unfold postHandler.
  destruct Hnew as [(Hl & -> & ->)|(Hl & Hb)].
  all: wp_exact_on Hs.
  all: try (by edestruct Herr).
  all: try (exfalso;
            match goal with
            | H : _ !! _ = None |- _ => apply lookup_ge_None in H; simpl in H; lia
            end).
Qed.

(** What went out of a failed step is not a 201. *)
Lemma error_not_created code defaultCode message err w h :
  code ∈ [StatusNotFound; StatusRequestTimeout; defaultCode] →
  defaultCode ≠ StatusCreated →
  rw_sent w = None ∨ (∃ c h', rw_sent w = Some (c, h') ∧ c ≠ StatusCreated) →
  rw_sent (http.Write (message ++ ": " ++ Error err) (http.WriteHeader code w))
  ≠ Some (StatusCreated, h).
Proof.
  intros Hc Hd Hw. pose proof (webError_code_not_created _ _ Hc Hd) as Hne.
  destruct Hw as [Hw|(c & h' & Hw & Hcne)].
  - rewrite (sent_Write _ _ (code, rw_header w)); [congruence|by apply sent_first].
  - rewrite (sent_Write _ _ (c, h')); [congruence|by apply sent_WriteHeader].
Qed.

(** X21: a 201 means an edit.  A POST is answered 201 only after one
    node went through [DAG.Add] or through the insertion of the editor,
    and a DELETE only after the removal of the editor, its last call. *)
Theorem created_means_edited (r : Request) s now0 h :
  let post := serve (postHandler node pk config r) s now0 in
  let del := serve (deleteHandler node pk config r) s now0 in
  (rw_sent (writer post.2) = Some (StatusCreated, h) →
   length (nodesAdded (calls post.2) ++ nodesInserted (calls post.2)) = 1%nat)
  ∧ (rw_sent (writer del.2) = Some (StatusCreated, h) →
     ∃ root p, last (calls del.2) = Some (CallRmLink root p)).
Proof.
  intros post del. split.
  - change (wp (postHandler node pk config r) (mkWorld newResponseWriter s now0 [])
              (λ _ σ', rw_sent (writer σ') = Some (StatusCreated, h) →
                 length (nodesAdded (calls σ') ++ nodesInserted (calls σ')) = 1%nat)).
    unfold postHandler. wp_run.
    all: try done.
    all: intros Hsent; exfalso; revert Hsent.
    all: by eapply error_not_created; [eassumption|done|left].
  - change (wp (deleteHandler node pk config r) (mkWorld newResponseWriter s now0 [])
              (λ _ σ', rw_sent (writer σ') = Some (StatusCreated, h) →
                 ∃ root p, last (calls σ') = Some (CallRmLink root p))).
    unfold deleteHandler. wp_run.
    all: try (by intros _; eexists _, _).
    all: intros Hsent; exfalso; revert Hsent.
    all: try (by eapply error_not_created; [eassumption|done|left]).
    all: try (by eapply error_not_created;
                [eassumption|done|right; eexists _, _; split; [solve_sent|done]]).
    all: by rewrite (sent_Write _ _ (StatusMethodNotAllowed, ∅)).
Qed.

(** X22: the removal of a DELETE.  For a path that parses into a
    namespace, a root key and at least one further segment, the handler
    fetches the root by its key, without resolving the path, and has the
    editor remove the link at the join of the segments after the key;
    the key of the edited root is the [IPFS-Hash] header of the 201 and
    the root of its [Location]. *)
Theorem delete_removes_link (r : Request) s now0 p seg0 seg1 seg2 segs root s1
    edited s2 newkey :
  URL_Path r ≠ "/ipfs" → URL_Path r ≠ ipfsPathPrefix →
  path_ParsePath pk (URL_Path r) = inl p →
  Path_Segments pk p = seg0 :: seg1 :: seg2 :: segs →
  seg0 ≠ ipnsPathPrefix →
  DAG_Get node (key_B58KeyDecode pk seg1) s = (inl root, s1) →
  RmLink node root (gopath.Join (seg2 :: segs)) s1 = (inl edited, s2) →
  Node_Key pk edited = inl newkey →
  serve (deleteHandler node pk config r) s now0
  = (Next (),
     mkWorld
       (http.Redirect (redirectNote pk) r
          (gopath.Join [ipfsPathPrefix; Key_String pk newkey; gopath.Join (seg2 :: segs)])
          StatusCreated
          (mkResponseWriter
             (http.Header_Set (Headers config ∪ ∅) "IPFS-Hash" (Key_String pk newkey))
             None ""))
       s2 now0
       [CallDagGet (key_B58KeyDecode pk seg1);
        CallRmLink root (gopath.Join (seg2 :: segs))]).
Proof.
  intros H1 H2 Hp Hs H0 Hg Hrm Hk. unfold serve. apply wp_eq. unfold deleteHandler.
  wp_run_on Hs; not_root.
Qed.

(** X23: the failures of a DELETE on such a path.  When the root cannot
    be fetched the editor is not called, and when the removal fails
    nothing more is called; both are answered with the status [webError]
    gives the error (500 unless it is one of the errors answered 404 or
    408) and no header. *)
Theorem delete_failure (r : Request) s now0 p seg0 seg1 seg2 segs :
  URL_Path r ≠ "/ipfs" → URL_Path r ≠ ipfsPathPrefix →
  path_ParsePath pk (URL_Path r) = inl p →
  Path_Segments pk p = seg0 :: seg1 :: seg2 :: segs →
  seg0 ≠ ipnsPathPrefix →
  (∀ err s1, DAG_Get node (key_B58KeyDecode pk seg1) s = (inr err, s1) →
     serve (deleteHandler node pk config r) s now0
     = (Return,
        mkWorld (mkResponseWriter ∅ (Some (statusOf err StatusInternalServerError, ∅))
                   ("deleteHandler: Could not create DAG from request" ++ ": " ++ Error err))
          s1 now0 [CallDagGet (key_B58KeyDecode pk seg1)]))
  ∧ (∀ root s1 err s2,
       DAG_Get node (key_B58KeyDecode pk seg1) s = (inl root, s1) →
       RmLink node root (gopath.Join (seg2 :: segs)) s1 = (inr err, s2) →
       serve (deleteHandler node pk config r) s now0
       = (Return,
          mkWorld (mkResponseWriter ∅ (Some (statusOf err StatusInternalServerError, ∅))
                     ("deleteHandler: dag editor failed to rmLink()" ++ ": " ++ Error err))
            s2 now0
            [CallDagGet (key_B58KeyDecode pk seg1);
             CallRmLink root (gopath.Join (seg2 :: segs))])).
Proof.
  intros H1 H2 Hp Hs H0. split.
  - intros err s1 Hg. unfold serve. apply wp_eq. unfold deleteHandler.
    wp_exact_on Hs; not_root.
  - intros root s1 err s2 Hg Hrm. unfold serve. apply wp_eq. unfold deleteHandler.
    wp_exact_on Hs; not_root.
Qed.

(** X24: DELETE of the namespace itself, [/ipfs] or [/ipfs/], is answered
    405 with [HTTP DELETE of /ipfs is not meaningful: <error>] at once:
    the path is not parsed, no call is made and the store stays as it
    is. *)
Theorem delete_namespace_rejected (r : Request) s now0 :
  URL_Path r = "/ipfs" ∨ URL_Path r = ipfsPathPrefix →
  serve (deleteHandler node pk config r) s now0
  = (Return,
     mkWorld (mkResponseWriter ∅ (Some (StatusMethodNotAllowed, ∅))
                ("HTTP DELETE of /ipfs is not meaningful" ++ ": "
                   ++ Error ErrNotMeaningfulOnWritable))
       s now0 []).
Proof. apply deleteHandler_namespace_root. Qed.

(** X25: [addUserHeaders] lays the operator's headers over the live
    header map: under a key the operator configures the values are the
    operator's, whatever was there, and every other key keeps its
    values; what went out before, the body, the store and the calls are
    not touched, and a second run changes nothing. *)
Theorem addUserHeaders_overrides (σ : World S) :
  let σ' := (addUserHeaders config σ).2 in
  (∀ k, rw_header (writer σ') !! k
        = match Headers config !! k with
          | Some v => Some v
          | None => rw_header (writer σ) !! k
          end)
  ∧ rw_sent (writer σ') = rw_sent (writer σ)
  ∧ rw_body (writer σ') = rw_body (writer σ)
  ∧ store σ' = store σ ∧ calls σ' = calls σ
  ∧ (addUserHeaders config ;; addUserHeaders config) σ = addUserHeaders config σ.
Proof.
  intros σ'. subst σ'. rewrite addUserHeaders_run. simpl. split_and!; try done.
  - intros k. rewrite lookup_union. by destruct (Headers config !! k), (_ !! k).
  - unfold mbind, Handler_bind. rewrite !addUserHeaders_run. simpl.
    by rewrite (assoc_L (∪)), (idemp_L (∪)).
Qed.

End Writes.

(** ** Files and back links *)

Section Files.
Context {S : Type} (node : IpfsNode S) (pk : Packages) (config : GatewayConfig).

(** X26: a node that opens as a file is handed to [http.ServeContent]
    under the last element of the path, with the first second of the
    Unix epoch as its modification time for a content-addressed path and
    the time of the clock otherwise; the status and the body are those
    [http.ServeContent] chooses.  The links of the node are not looked
    at: there is no redirect to an index page and no listing. *)
Theorem file_served (r : Request) s now0 nd s1 dr s2 :
  notBlocked config (URL_Path r) →
  core_Resolve node (URL_Path r) s = (inl nd, s1) →
  http.Header_Get (ReqHeader r) "If-None-Match" ≠ gopath.Base (URL_Path r) →
  ipnsHostnameOf r = true ∨ (3 ≤ length (strings.Split (URL_Path r) "/"))%nat →
  NewDagReader node nd s1 = (inl dr, s2) →
  let name := (gopath.Split (URL_Path r)).2 in
  let modtime := if strings.HasPrefix (URL_Path r) ipfsPathPrefix
                 then time_Unix 1 0 else now0 in
  let out := serve (getOrHeadHandler node pk config r) s now0 in
  out.1 = Return
  ∧ calls out.2
    = (blockCalls config (URL_Path r)
       ++ [CallResolve (URL_Path r); CallNewDagReader nd;
           CallServeContent name modtime dr])%list
  ∧ http.responseStatus (writer out.2) = (ServeContent pk r name modtime dr).1
  ∧ rw_body (writer out.2) = (ServeContent pk r name modtime dr).2
  ∧ store out.2 = s2.
Proof.
  intros Hb Hr He Hlen Hd name modtime out.
  change (wp (getOrHeadHandler node pk config r) (mkWorld newResponseWriter s now0 [])
            (λ fl σ',
               fl = Return
               ∧ calls σ'
                 = (blockCalls config (URL_Path r)
                    ++ [CallResolve (URL_Path r); CallNewDagReader nd;
                        CallServeContent name modtime dr])%list
               ∧ http.responseStatus (writer σ') = (ServeContent pk r name modtime dr).1
               ∧ rw_body (writer σ') = (ServeContent pk r name modtime dr).2
               ∧ store σ' = s2)).
  subst name modtime out.
  unfold getOrHeadHandler, notBlocked, blockCalls in *.
  fold (originalURLPathOf r). fold (ipnsHostnameOf r).
  repeat (first [ wp_step | apply wp_addUserHeaders; wp_simpl ]; wp_prune).
  all: try (destruct Hlen as [Hlen|Hlen]; [congruence|];
            apply SplitN_third in Hlen as [? ?]; congruence).
  all: repeat match goal with
         | H : gopath.Split _ = _ |- _ => rewrite H in *; clear H
         | H : ServeContent _ _ _ _ _ = _ |- _ => rewrite H in *; clear H
         | H : strings.HasPrefix _ _ = _ |- _ => rewrite H in *; clear H
         end.
  all: split_and!; reflexivity.
Qed.

(** The back link of a rewritten request is made of the segments after
    the key, without the last two. *)
Lemma backLinkFor_rewritten (p a b c : string) (segs : list string) :
  strings.Split p "/" = a :: b :: c :: segs →
  backLinkFor p true
  = "/" ++ (if bool_decide (2 < length segs)%nat
            then strings.Join (take (length segs - 2) segs) "/" ++ "/" else "").
Proof.
  intros Hs. unfold backLinkFor. rewrite Hs. cbn [length drop].
  rewrite drop_0.
  replace (Datatypes.S (Datatypes.S (Datatypes.S (length segs))) - 2 - 3)%nat
    with (length segs - 2)%nat by lia.
  destruct (decide (2 < length segs)%nat) as [H|H].
  - rewrite (bool_decide_eq_true_2 (2 < length segs)%nat) by done.
    rewrite bool_decide_eq_true_2 by lia. done.
  - rewrite (bool_decide_eq_false_2 (2 < length segs)%nat) by done.
    rewrite bool_decide_eq_false_2 by lia. done.
Qed.

(** X27: the listing of a rewritten request.  When the host-name option
    rewrote the request, a listing is rendered for the path the client
    asked for, and its back link is built from the segments of the path
    after the key only: a slash, followed by those segments without the
    last two and a slash when there are more than two, so that the
    namespace and the name never show in it. *)
Theorem rewritten_backLink (r : Request) s now0 a b c segs :
  ipnsHostnameOf r = true →
  strings.Split (URL_Path r) "/" = a :: b :: c :: segs →
  Forall (λ d, Path d = originalURLPathOf r
               ∧ BackLink d
                 = "/" ++ (if bool_decide (2 < length segs)%nat
                           then strings.Join (take (length segs - 2) segs) "/" ++ "/"
                           else ""))
    (listingsRendered (calls (serve (getOrHeadHandler node pk config r) s now0).2)).
Proof.
  intros Hi Hs. apply Forall_listingsRendered.
  eapply Forall_impl; [apply (getOrHead_calls node pk config r s now0)|].
  intros [] Hc; try done. destruct Hc as [Hp Hb]. split; [done|].
  rewrite Hb, Hi. by apply (backLinkFor_rewritten _ a b c).
Qed.

End Files.

(** ** The further properties at work on the in-memory node *)

Lemma read_only_rejects_method_witness :
  Writable Examples.readOnly = false
  ∧ serve (ServeHTTP Mem.node Mem.packages Examples.readOnly Examples.postNew)
      Mem.blocks Mem.now
    = (Next (),
       mkWorld (mkResponseWriter ∅ (Some (405, ∅))
                  "Method POST not allowed: read only access")
         Mem.blocks Mem.now []).
Proof.
  split; [reflexivity|].
  apply (read_only_rejects_method Mem.node Mem.packages Examples.readOnly Examples.postNew
           Mem.blocks Mem.now); [reflexivity|discriminate|discriminate].
Defined.

Lemma writable_rejects_put_and_unknown_witness :
  Writable Mem.config = true
  ∧ Method Examples.putFile = "PUT"
  ∧ http.responseStatus
      (writer (serve (ServeHTTP Mem.node Mem.packages Mem.config Examples.putFile)
                 Mem.blocks Mem.now).2) = 405
  ∧ calls (serve (ServeHTTP Mem.node Mem.packages Mem.config Examples.putFile)
             Mem.blocks Mem.now).2 = [].
Proof.
  destruct (writable_rejects_put_and_unknown Mem.node Mem.packages Mem.config
              Examples.putFile Mem.blocks Mem.now eq_refl) as [H _].
  destruct (H eq_refl) as (_ & Hs & _ & Hc & _).
  split_and!; [reflexivity|reflexivity|exact Hs|exact Hc].
Defined.

Lemma ServeHTTP_dispatch_witness :
  Method Mem.getFile = "GET"
  ∧ (serve (ServeHTTP Mem.node Mem.packages Mem.config Mem.getFile) Mem.blocks Mem.now).2
    = (serve (getOrHeadHandler Mem.node Mem.packages Mem.config Mem.getFile)
         Mem.blocks Mem.now).2.
Proof.
  split; [reflexivity|].
  destruct (ServeHTTP_dispatch Mem.node Mem.packages Mem.config Mem.getFile
              Mem.blocks Mem.now) as [H _].
  destruct H as [_ H]; [left; reflexivity|exact H].
Defined.

Lemma read_only_never_mutates_witness :
  Writable Examples.readOnly = false
  ∧ Forall (λ c, isMutationCall c = false)
      (calls (serve (ServeHTTP Mem.node Mem.packages Examples.readOnly Examples.postNew)
                Mem.blocks Mem.now).2).
Proof.
  split; [reflexivity|].
  apply (read_only_never_mutates Mem.node Mem.packages Examples.readOnly Examples.postNew
           Mem.blocks Mem.now). reflexivity.
Defined.

Lemma blocked_path_forbidden_witness :
  serve (getOrHeadHandler Mem.node Mem.packages Examples.blocking Mem.getFile)
    Mem.blocks Mem.now
  = (Return, mkWorld (mkResponseWriter ∅ (Some (403, ∅)) "403 - Forbidden")
               Mem.blocks Mem.now [CallShouldBlock "/ipfs/Qm1/x"]).
Proof.
  apply (blocked_path_forbidden Mem.node Mem.packages Examples.blocking Mem.getFile
           Mem.blocks Mem.now (λ p, bool_decide (p = "/ipfs/Qm1/x"))); reflexivity.
Defined.

Lemma unresolved_path_error_witness :
  core_Resolve Mem.node (URL_Path Examples.getMissing) Mem.blocks
  = (inr (path_ErrNoLink "missing" "Qm1"), Mem.blocks)
  ∧ serve (getOrHeadHandler Mem.node Mem.packages Mem.config Examples.getMissing)
      Mem.blocks Mem.now
    = (Return,
       mkWorld (mkResponseWriter ∅ (Some (404, ∅))
                  ("Path Resolve error" ++ ": " ++ Error (path_ErrNoLink "missing" "Qm1")))
         Mem.blocks Mem.now [CallResolve "/ipfs/Qm1/missing"]).
Proof.
  split; [reflexivity|].
  apply (unresolved_path_error Mem.node Mem.packages Mem.config Examples.getMissing
           Mem.blocks Mem.now (path_ErrNoLink "missing" "Qm1") Mem.blocks);
    [exact I|reflexivity].
Defined.

Lemma served_headers_witness :
  http.responseHeader
    (writer (serve (getOrHeadHandler Mem.node Mem.packages Mem.config Mem.getFile)
               Mem.blocks Mem.now).2) !! "X-Ipfs-Path" = Some ["/ipfs/Qm1/x"]
  ∧ http.responseHeader
      (writer (serve (getOrHeadHandler Mem.node Mem.packages Mem.config Mem.getFile)
                 Mem.blocks Mem.now).2) !! "Cache-Control"
    = Some ["public, max-age=29030400"].
Proof.
  destruct (served_headers Mem.node Mem.packages Mem.config Mem.getFile Mem.blocks Mem.now
              served_getFile) as (Hp & _ & _ & Hc).
  split; [exact Hp|apply Hc; reflexivity].
Defined.

Lemma mutable_path_not_cached_witness :
  strings.HasPrefix (URL_Path Examples.getNamedFile) ipfsPathPrefix = false
  ∧ modtimesServed
      (calls (serve (getOrHeadHandler Mem.node Mem.packages Mem.config Examples.getNamedFile)
                Mem.blocks Mem.now).2) = [Mem.now]
  ∧ Forall (λ t, t = Mem.now)
      (modtimesServed
         (calls (serve (getOrHeadHandler Mem.node Mem.packages Mem.config
                          Examples.getNamedFile) Mem.blocks Mem.now).2)).
Proof.
  split_and!; [reflexivity..|].
  destruct (mutable_path_not_cached Mem.node Mem.packages Mem.config Examples.getNamedFile
              Mem.blocks Mem.now eq_refl) as [H _]. exact H.
Defined.

Lemma head_makes_no_body_witness :
  Method Examples.headDir = "HEAD"
  ∧ Forall (λ c, isBodyCall c = false)
      (calls (serve (getOrHeadHandler Mem.node Mem.packages Mem.config Examples.headDir)
                Mem.blocks Mem.now).2).
Proof.
  split; [reflexivity|].
  apply (head_makes_no_body Mem.node Mem.packages Mem.config Examples.headDir
           Mem.blocks Mem.now). reflexivity.
Defined.

Lemma directory_listing_witness :
  core_Resolve Mem.node (URL_Path Examples.getDir) Mem.blocks = (inl Mem.root1, Mem.blocks)
  ∧ NewDagReader Mem.node Mem.root1 Mem.blocks = (inr uio_ErrIsDir, Mem.blocks)
  ∧ listingsRendered
      (calls (serve (getOrHeadHandler Mem.node Mem.packages Mem.config Examples.getDir)
                Mem.blocks Mem.now).2)
    = [mkListingTemplateData
         [mkDirectoryItem "0B" "a" "/ipfs/Qm1/a"; mkDirectoryItem "someB" "x" "/ipfs/Qm1/x"]
         "/ipfs/Qm1" "/ipfs/Qm1"]
  ∧ rw_body
      (writer (serve (getOrHeadHandler Mem.node Mem.packages Mem.config Examples.getDir)
                 Mem.blocks Mem.now).2)
    = "Index of /ipfs/Qm1: a x [/ipfs/Qm1]".
Proof.
  destruct (directory_listing Mem.node Mem.packages Mem.config Examples.getDir
              Mem.blocks Mem.now Mem.root1 Mem.blocks Mem.blocks
              "Index of /ipfs/Qm1: a x [/ipfs/Qm1]" None)
    as (Hl & _ & _ & _ & _ & Hb).
  - exact I.
  - reflexivity.
  - intros E. vm_compute in E. discriminate.
  - right. vm_compute. lia.
  - reflexivity.
  - repeat constructor; discriminate.
  - discriminate.
  - reflexivity.
  - split_and!; [reflexivity|reflexivity|exact Hl|exact Hb].
Defined.

Lemma index_page_served_witness :
  strings.HasSuffix (URL_Path Examples.getIndexSlash) "/" = true
  ∧ rw_body
      (writer (serve (getOrHeadHandler Mem.node Mem.packages Mem.config
                        Examples.getIndexSlash) Mem.blocks Mem.now).2) = "<html>"
  ∧ listingsRendered
      (calls (serve (getOrHeadHandler Mem.node Mem.packages Mem.config
                       Examples.getIndexSlash) Mem.blocks Mem.now).2) = [].
Proof.
  destruct (index_page_served Mem.node Mem.packages Mem.config Examples.getIndexSlash
              Mem.blocks Mem.now Mem.root2 Mem.blocks Mem.blocks Mem.indexPage Mem.blocks
              (mkDagReader "<html>") Mem.blocks)
    as (_ & _ & Hb & Hl & _).
  - exact I.
  - reflexivity.
  - intros E. vm_compute in E. discriminate.
  - right. vm_compute. lia.
  - reflexivity.
  - apply Exists_cons_tl, Exists_cons_hd. reflexivity.
  - reflexivity.
  - reflexivity.
  - reflexivity.
  - split_and!; [reflexivity|exact Hb|exact Hl].
Defined.

Lemma unreadable_node_500_witness :
  NewDagReader Mem.node Mem.rawBlock Mem.blocks
  = (inr (errors_New "unrecognized node type"), Mem.blocks)
  ∧ http.responseStatus
      (writer (serve (getOrHeadHandler Mem.node Mem.packages Mem.config Mem.getRawBlock)
                 Mem.blocks Mem.now).2) = 500
  ∧ http.responseHeader
      (writer (serve (getOrHeadHandler Mem.node Mem.packages Mem.config Mem.getRawBlock)
                 Mem.blocks Mem.now).2) !! "Cache-Control" = None.
Proof.
  destruct (unreadable_node_500 Mem.node Mem.packages Mem.config Mem.getRawBlock
              Mem.blocks Mem.now Mem.rawBlock Mem.blocks
              (errors_New "unrecognized node type") Mem.blocks)
    as (_ & Hs & _ & _ & _ & Hc).
  - exact I.
  - reflexivity.
  - intros E. vm_compute in E. discriminate.
  - right. vm_compute. lia.
  - reflexivity.
  - discriminate.
  - split_and!; [reflexivity|exact Hs|exact Hc].
Defined.

Lemma unresolved_index_500_witness :
  core_Resolve Mem.node (URL_Path Examples.getBrokenIndex ++ "/index.html") Examples.broken
  = (inr routing_ErrNotFound, Examples.broken)
  ∧ http.responseStatus
      (writer (serve (getOrHeadHandler Mem.node Mem.packages Mem.config
                        Examples.getBrokenIndex) Examples.broken Mem.now).2) = 500
  ∧ http.responseHeader
      (writer (serve (getOrHeadHandler Mem.node Mem.packages Mem.config
                        Examples.getBrokenIndex) Examples.broken Mem.now).2)
      !! "Cache-Control" = Some ["public, max-age=29030400"].
Proof.
  destruct (unresolved_index_500 Mem.node Mem.packages Mem.config Examples.getBrokenIndex
              Examples.broken Mem.now Examples.root3 Examples.broken Examples.broken
              routing_ErrNotFound Examples.broken)
    as (_ & Hs & _ & _ & Hc).
  - exact I.
  - reflexivity.
  - intros E. vm_compute in E. discriminate.
  - right. vm_compute. lia.
  - reflexivity.
  - apply Exists_cons_hd. reflexivity.
  - reflexivity.
  - reflexivity.
  - split_and!; [reflexivity|exact Hs|apply Hc; reflexivity].
Defined.

Lemma getOrHead_no_panic_witness :
  (3 ≤ length (strings.Split (URL_Path Mem.getFile) "/"))%nat
  ∧ (serve (getOrHeadHandler Mem.node Mem.packages Mem.config Mem.getFile)
       Mem.blocks Mem.now).1 ≠ Panic.
Proof.
  split; [vm_compute; lia|].
  apply (getOrHead_no_panic Mem.node Mem.packages Mem.config Mem.getFile Mem.blocks Mem.now).
  vm_compute. lia.
Defined.

Lemma mutation_no_panic_witness :
  (2 ≤ length (Path_Segments Mem.packages (URL_Path Examples.postNew)))%nat
  ∧ (serve (postHandler Mem.node Mem.packages Mem.config Examples.postNew)
       Mem.blocks Mem.now).1 ≠ Panic.
Proof.
  split; [vm_compute; lia|].
  destruct (mutation_no_panic Mem.node Mem.packages Mem.config Examples.postNew
              Mem.blocks Mem.now) as [H _]; [|exact H].
  intros p E. vm_compute in E. injection E as <-. vm_compute. lia.
Defined.

Lemma unparsable_mutation_witness :
  path_ParsePath Mem.packages (URL_Path Examples.postBadPath)
  = inr (errors_New "invalid ipfs ref path")
  ∧ http.responseStatus
      (writer (serve (postHandler Mem.node Mem.packages Mem.config Examples.postBadPath)
                 Mem.blocks Mem.now).2) = 400
  ∧ calls (serve (postHandler Mem.node Mem.packages Mem.config Examples.postBadPath)
             Mem.blocks Mem.now).2 = [].
Proof.
  destruct (unparsable_mutation Mem.node Mem.packages Mem.config Examples.postBadPath
              Mem.blocks Mem.now (errors_New "invalid ipfs ref path") eq_refl) as [H _].
  split_and!; [reflexivity|by rewrite H|by rewrite H].
Defined.

Lemma post_inserts_at_missing_link_witness :
  core_Resolve Mem.node "/ipfs/Qm1/y"
    (Mem.add (mkNode (Mem.fileData "body") []) Mem.blocks).2
  = (inr (path_ErrNoLink "y" "Qm1"), (Mem.add (mkNode (Mem.fileData "body") []) Mem.blocks).2)
  ∧ http.responseStatus
      (writer (serve (postHandler Mem.node Mem.packages Mem.config Examples.postNew)
                 Mem.blocks Mem.now).2) = 201
  ∧ nodesAdded
      (calls (serve (postHandler Mem.node Mem.packages Mem.config Examples.postNew)
                Mem.blocks Mem.now).2) = []
  ∧ last (calls (serve (postHandler Mem.node Mem.packages Mem.config Examples.postNew)
                   Mem.blocks Mem.now).2)
    = Some (CallInsertNodeAtPath Mem.root1 "y" (mkNode (Mem.fileData "body") [])).
Proof.
  pose (new := mkNode (Mem.fileData "body") []).
  pose (s1 := (Mem.add new Mem.blocks).2).
  pose (edited := Mem.setLink "y" new Mem.root1).
  destruct (post_inserts_at_missing_link Mem.node Mem.packages Mem.config Examples.postNew
              Mem.blocks Mem.now "/ipfs/Qm1/y" "ipfs" "Qm1" ["y"] new s1 "y" "Qm1" s1
              Mem.root1 s1 edited (Mem.add edited (Mem.add new s1).2).2 (Mem.keyOf edited))
    as (_ & Hl & Ha & _ & Hsent).
  - reflexivity.
  - reflexivity.
  - discriminate.
  - right. split; [discriminate|reflexivity].
  - reflexivity.
  - reflexivity.
  - reflexivity.
  - reflexivity.
  - split_and!; [reflexivity| |exact Ha|exact Hl].
    unfold http.responseStatus. by rewrite Hsent.
Defined.

Lemma post_unresolved_root_witness :
  core_Resolve Mem.node "/ipfs/QmNone/y"
    (Mem.add (mkNode (Mem.fileData "body") []) Mem.blocks).2
  = (inr routing_ErrNotFound, (Mem.add (mkNode (Mem.fileData "body") []) Mem.blocks).2)
  ∧ http.responseStatus
      (writer (serve (postHandler Mem.node Mem.packages Mem.config Examples.postUnknownRoot)
                 Mem.blocks Mem.now).2) = 404
  ∧ store (serve (postHandler Mem.node Mem.packages Mem.config Examples.postUnknownRoot)
             Mem.blocks Mem.now).2
    = (Mem.add (mkNode (Mem.fileData "body") []) Mem.blocks).2.
Proof.
  pose (new := mkNode (Mem.fileData "body") []).
  pose (s1 := (Mem.add new Mem.blocks).2).
  destruct (post_unresolved_root Mem.node Mem.packages Mem.config Examples.postUnknownRoot
              Mem.blocks Mem.now "/ipfs/QmNone/y" "ipfs" ["QmNone"; "y"] new s1
              routing_ErrNotFound s1)
    as (_ & Hw & _ & _ & _ & Hs).
  - reflexivity.
  - reflexivity.
  - discriminate.
  - right. split; [discriminate|reflexivity].
  - reflexivity.
  - discriminate.
  - split_and!; [reflexivity|by rewrite Hw|exact Hs].
Defined.

Lemma created_means_edited_witness :
  http.responseStatus
    (writer (serve (postHandler Mem.node Mem.packages Mem.config Mem.postFile)
               Mem.blocks Mem.now).2) = 201
  ∧ length
      (nodesAdded (calls (serve (postHandler Mem.node Mem.packages Mem.config Mem.postFile)
                            Mem.blocks Mem.now).2)
       ++ nodesInserted
            (calls (serve (postHandler Mem.node Mem.packages Mem.config Mem.postFile)
                      Mem.blocks Mem.now).2)) = 1%nat.
Proof.
  split; [reflexivity|].
  destruct (created_means_edited Mem.node Mem.packages Mem.config Mem.postFile
              Mem.blocks Mem.now
              (http.responseHeader
                 (writer (serve (postHandler Mem.node Mem.packages Mem.config Mem.postFile)
                            Mem.blocks Mem.now).2))) as [H _].
  apply H. reflexivity.
Defined.

Lemma delete_removes_link_witness :
  DAG_Get Mem.node "Qm1" Mem.blocks = (inl Mem.root1, Mem.blocks)
  ∧ http.responseStatus
      (writer (serve (deleteHandler Mem.node Mem.packages Mem.config Examples.deleteLink)
                 Mem.blocks Mem.now).2) = 201
  ∧ calls (serve (deleteHandler Mem.node Mem.packages Mem.config Examples.deleteLink)
             Mem.blocks Mem.now).2
    = [CallDagGet "Qm1"; CallRmLink Mem.root1 "x"].
Proof.
  pose (edited := mkNode Mem.folderData [mkLink "a" 0 "QmA"]).
  pose proof (delete_removes_link Mem.node Mem.packages Mem.config Examples.deleteLink
                Mem.blocks Mem.now "/ipfs/Qm1/x" "ipfs" "Qm1" "x" [] Mem.root1 Mem.blocks
                edited (Mem.add edited Mem.blocks).2 (Mem.keyOf edited)) as H.
  rewrite H.
  - split_and!; reflexivity.
  - discriminate.
  - discriminate.
  - reflexivity.
  - reflexivity.
  - discriminate.
  - reflexivity.
  - reflexivity.
  - reflexivity.
Defined.

Lemma delete_failure_witness :
  DAG_Get Mem.node "QmNone" Mem.blocks = (inr routing_ErrNotFound, Mem.blocks)
  ∧ serve (deleteHandler Mem.node Mem.packages Mem.config Examples.deleteUnknownRoot)
      Mem.blocks Mem.now
    = (Return,
       mkWorld (mkResponseWriter ∅ (Some (404, ∅))
                  ("deleteHandler: Could not create DAG from request" ++ ": "
                     ++ Error routing_ErrNotFound))
         Mem.blocks Mem.now [CallDagGet "QmNone"]).
Proof.
  split; [reflexivity|].
  destruct (delete_failure Mem.node Mem.packages Mem.config Examples.deleteUnknownRoot
              Mem.blocks Mem.now "/ipfs/QmNone/x" "ipfs" "QmNone" "x" []) as [H _].
  - discriminate.
  - discriminate.
  - reflexivity.
  - reflexivity.
  - discriminate.
  - apply (H routing_ErrNotFound Mem.blocks). reflexivity.
Defined.

Lemma delete_namespace_rejected_witness :
  URL_Path Examples.deleteRoot = ipfsPathPrefix
  ∧ http.responseStatus
      (writer (serve (deleteHandler Mem.node Mem.packages Mem.config Examples.deleteRoot)
                 Mem.blocks Mem.now).2) = 405
  ∧ calls (serve (deleteHandler Mem.node Mem.packages Mem.config Examples.deleteRoot)
             Mem.blocks Mem.now).2 = [].
Proof.
  pose proof (delete_namespace_rejected Mem.node Mem.packages Mem.config Examples.deleteRoot
                Mem.blocks Mem.now (or_intror eq_refl)) as H.
  split_and!; [reflexivity|by rewrite H|by rewrite H].
Defined.

Lemma file_served_witness :
  NewDagReader Mem.node Mem.fileX Mem.blocks = (inl (mkDagReader "hello"), Mem.blocks)
  ∧ calls (serve (getOrHeadHandler Mem.node Mem.packages Mem.config Mem.getFile)
             Mem.blocks Mem.now).2
    = [CallResolve "/ipfs/Qm1/x"; CallNewDagReader Mem.fileX;
       CallServeContent "x" (time_Unix 1 0) (mkDagReader "hello")]
  ∧ rw_body
      (writer (serve (getOrHeadHandler Mem.node Mem.packages Mem.config Mem.getFile)
                 Mem.blocks Mem.now).2) = "hello".
Proof.
  destruct (file_served Mem.node Mem.packages Mem.config Mem.getFile Mem.blocks Mem.now
              Mem.fileX Mem.blocks (mkDagReader "hello") Mem.blocks)
    as (_ & Hc & _ & Hb & _).
  - exact I.
  - reflexivity.
  - intros E. vm_compute in E. discriminate.
  - right. vm_compute. lia.
  - reflexivity.
  - split_and!; [reflexivity|exact Hc|exact Hb].
Defined.

Lemma rewritten_backLink_witness :
  ipnsHostnameOf Mem.getRewritten = true
  ∧ strings.Split (URL_Path Mem.getRewritten) "/" = [""; "ipns"; "example.net"; "a"]
  ∧ Forall (λ d, Path d = "/a" ∧ BackLink d = "/")
      (listingsRendered
         (calls (serve (getOrHeadHandler Mem.node Mem.packages Mem.config Mem.getRewritten)
                   Mem.blocks Mem.now).2)).
Proof.
  split_and!; [reflexivity..|].
  apply (rewritten_backLink Mem.node Mem.packages Mem.config Mem.getRewritten
           Mem.blocks Mem.now "" "ipns" "example.net" ["a"]); reflexivity.
Defined.
